(** * sd109: hardware monitor, watchdog and real time clock driver

    A shallow embedding of [sd109.c] / [sd109.h] (the Linux driver of the
    SD109 firmware running on the ATTINY817 of OPEN-EYES-II boards) together
    with the properties of its register protocol.

    Conventions of the embedding:
    - C integers are [Z]; every place where C truncates or reinterprets a
      value (the [u8] channel, the [u16] cache cells, the [int] overlay
      fields, the [unsigned long] tick counter) is written out.
    - The driver state [struct sd109_private] is a record; the driver
      functions are computations of a state monad over a [world] that holds
      the private data, the register map, the tick counter, the kernel log
      and what has been registered with the kernel frameworks.
    - Functions return the C status code ([0], or a negative errno). *)

From Stdlib Require Import ZArith Lia Bool String List.
From stdpp Require Import base list.
Import ListNotations.

Local Open Scope Z_scope.

(** ** Constants of sd109.h *)

Definition NUM_CH_VIN : Z := 5.

Definition SD109_NUM_REGS : Z := 32.

Definition SD109_CHIP_ID_REG : Z := 0x00.
Definition SD109_CHIP_ID : Z := 0xd109.
Definition SD109_CHIP_VER_REG : Z := 0x01.

Definition SD109_STATUS : Z := 0x02.
Definition SD109_STATUS_POWERUP : Z := 0x0001.
Definition SD109_STATUS_POWEROFF : Z := 0x0002.
Definition SD109_STATUS_REBOOT : Z := 0x0003.
Definition SD109_STATUS_HALT : Z := 0x0004.
Definition SD109_STATUS_WAKEUP : Z := 0x0005.

Definition SD109_COMMAND : Z := 0x06.
Definition SD109_WDOG_ENABLE : Z := 0x01.
Definition SD109_WDOG_DISABLE : Z := 0x02.
Definition SD109_EXEC_POWEROFF : Z := 0x03.
Definition SD109_EXEC_REBOOT : Z := 0x04.
Definition SD109_EXEC_HALT : Z := 0x05.

Definition SD109_WDOG_REFRESH : Z := 0x08.
Definition SD109_WDOG_REFRESH_MAGIC_VALUE : Z := 0x0d1e.
Definition SD109_WDOG_TIMEOUT : Z := 0x09.
Definition SD109_WDOG_TIMEOUT_MASK : Z := 0x00FF.
Definition SD109_WDOG_TIMEOUT_POS : Z := 0.
Definition SD109_WDOG_WAIT_MASK : Z := 0xFF00.
Definition SD109_WDOG_WAIT_POS : Z := 8.

Definition SD109_VOLTAGE_5V_BOARD : Z := 0x0A.
Definition SD109_VOLTAGE_5V_BOARD_MIN : Z := 0x0B.
Definition SD109_VOLTAGE_5V_BOARD_MAX : Z := 0x0C.

Definition SD109_RTC0 : Z := 0x1A.
Definition SD109_RTC1 : Z := 0x1B.
Definition SD109_RTC2 : Z := 0x1C.
Definition SD109_WAKEUP0 : Z := 0x1D.
Definition SD109_WAKEUP1 : Z := 0x1E.
Definition SD109_WAKEUP2 : Z := 0x1F.

Definition SD109_MIN_WDOG_WAIT : Z := 45.

(** ** Constants of the kernel headers the driver uses *)

(** errno values (include/uapi/asm-generic/errno-base.h, errno.h). *)
Definition EIO : Z := 5.
Definition ENOMEM : Z := 12.
Definition ENODEV : Z := 19.
Definition EINVAL : Z := 22.
Definition EOPNOTSUPP : Z := 95.

(** Reboot notifier codes (include/linux/reboot.h) and the notifier
    return value (include/linux/notifier.h). *)
Definition SYS_RESTART : Z := 0x0001.
Definition SYS_HALT : Z := 0x0002.
Definition SYS_POWER_OFF : Z := 0x0003.
Definition NOTIFY_DONE : Z := 0x0000.

(** The largest time the firmware can hold: [0x0000ffffffffffff]. *)
Definition RTC_MAX_TIME : Z := 0x0000ffffffffffff.

(** ** Conversions between C integer types *)

(** Value of a 32-bit pattern read as [int]. *)
Definition to_int (z : Z) : Z := (z + 2 ^ 31) mod 2 ^ 32 - 2 ^ 31.

(** Value of an [int] converted to [unsigned int]. *)
Definition to_uint (z : Z) : Z := z mod 2 ^ 32.

(** Truncation to [u8] and [u16]. *)
Definition to_u8 (z : Z) : Z := z mod 2 ^ 8.
Definition to_u16 (z : Z) : Z := z mod 2 ^ 16.

(** Conversion of an integer to C [bool]. *)
Definition to_bool (z : Z) : bool := negb (z =? 0).

(** ** The time codec

    [sd109_rtc_set_time] and [sd109_rtc_set_alarm] cut a [time64_t] into
    three words with [t & 0xffff], [(t>>16) & 0xffff], [(t>>32) & 0xffff];
    [sd109_rtc_read_time] and [sd109_rtc_read_alarm] rebuild it with
    [w0 | (w1<<16) | (w2<<32)] after masking each word with [0xffff].
    The two pairs of functions share these expressions, which are named here
    and used by the embedded functions below. *)

Definition time_word0 (t : Z) : Z := Z.land t 0xffff.
Definition time_word1 (t : Z) : Z := Z.land (Z.shiftr t 16) 0xffff.
Definition time_word2 (t : Z) : Z := Z.land (Z.shiftr t 32) 0xffff.

Definition time_encode (t : Z) : Z * Z * Z :=
  (time_word0 t, time_word1 t, time_word2 t).

Definition time_decode (ws : Z * Z * Z) : Z :=
  let '(tick0, tick1, tick2) := ws in
  let new_time := Z.land tick0 0xffff in
  let new_time := Z.lor new_time (Z.shiftl (Z.land tick1 0xffff) 16) in
  Z.lor new_time (Z.shiftl (Z.land tick2 0xffff) 32).

(** A register word: a value of 16 bits. *)
Definition is_word16 (v : Z) : Prop := 0 <= v < 2 ^ 16.

(** ** The watchdog bitfield codec

    The register value built by [sd109_wdt_settimeout] and the two fields
    extracted by [sd109_wdog_init]. [wait / 5] is C division on [int]. *)

Definition wdog_reg_value (wdog_wait to : Z) : Z :=
  let reg := Z.land (Z.shiftl (Z.quot wdog_wait 5) SD109_WDOG_WAIT_POS)
                    SD109_WDOG_WAIT_MASK in
  Z.lor reg (Z.shiftl (Z.land to SD109_WDOG_TIMEOUT_MASK) SD109_WDOG_TIMEOUT_POS).

Definition wdog_timeout_of (tinfo : Z) : Z :=
  Z.shiftr (Z.land tinfo SD109_WDOG_TIMEOUT_MASK) SD109_WDOG_TIMEOUT_POS.

Definition wdog_wait_of (tinfo : Z) : Z :=
  Z.shiftr (Z.land tinfo SD109_WDOG_WAIT_MASK) SD109_WDOG_WAIT_POS * 5.

(** ** Data model *)

(** The fields of the kernel's [struct watchdog_device] that the driver and
    the framework's timeout check read or write. [nowayout] is the
    [WDOG_NO_WAY_OUT] status bit. [driver_data] tells whether the pointer
    of that name holds the address of the private data; it is null
    otherwise. The pointers [parent], [info] and [ops], which
    [sd109_wdog_init] sets to the device and to the two static tables of
    the driver, are not part of the record. *)
Record watchdog_device := {
  timeout : Z;
  min_timeout : Z;
  max_timeout : Z;
  max_hw_heartbeat_ms : Z;
  nowayout : bool;
  driver_data : bool
}.

(** [struct sd109_private]. The pointers [client], [regmap] and [rtc] and
    the mutex are not part of the record: there is one register map per
    device, kept in the [world] next to the private data, and the model is
    sequential. The nine arrays have [NUM_CH_VIN] cells. *)
Record sd109_private := {
  wdd : watchdog_device;
  overlay_wdog_nowayout : bool;
  overlay_wdog_timeout : Z;
  overlay_wdog_wait : Z;
  device_wdog_timeout : Z;
  device_wdog_wait : Z;
  wdog_wait : Z;
  firmware_version : Z;
  alarm_enabled : bool;
  alarm_pending : bool;
  volt_valid : list bool;
  volt : list Z;
  volt_updated : list Z;
  volt_max_valid : list bool;
  volt_max : list Z;
  volt_max_updated : list Z;
  volt_min_valid : list bool;
  volt_min : list Z;
  volt_min_updated : list Z
}.

(** The part of [struct rtc_wkalrm] the driver uses; [alrm_enabled] and
    [alrm_pending] are [unsigned char], [alrm_time] is the alarm time as
    [rtc_tm_to_time64] gives it. *)
Record rtc_wkalrm := {
  alrm_enabled : Z;
  alrm_pending : Z;
  alrm_time : Z
}.

(** A transaction on the register bus. *)
Inductive bus_op :=
| BusRead (reg : Z)
| BusWrite (reg val : Z).

(** The register map of the device. [regs] is what the registers hold,
    [fault n] is the errno with which the [n]-th transaction fails ([None]
    when it succeeds), [trace] lists the transactions issued so far, the
    oldest first, whether they succeeded or not. *)
Record regmap := {
  regs : Z -> Z;
  fault : nat -> option positive;
  trace : list bus_op
}.

(** What the platform decides when the driver is bound: the outcome of the
    allocations and registrations, and the device properties. *)
Record platform := {
  regmap_init_err : option positive;
  kzalloc_fails : bool;
  hwmon_register_err : option positive;
  watchdog_register_ret : Z;
  rtc_register_err : option positive;
  prop_wdog_enabled : bool;
  prop_wdog_nowayout : bool;
  prop_wdog_timeout : option Z;
  prop_wdog_wait : option Z;
  prop_rtc_enabled : bool
}.

(** Everything the driver functions read or change. [notify_data] tells
    whether the file-level pointer of that name has been set;
    [wdt_info_firmware_version] is [sd109_wdt_info.firmware_version]. *)
Record world := {
  data : sd109_private;
  bus : regmap;
  jiffies : Z;
  klog : list string;
  plat : platform;
  hwmon_registered : bool;
  wdd_registered : bool;
  rtc_registered : bool;
  notifier_registered : bool;
  wdt_info_firmware_version : Z;
  notify_data : bool
}.

(** *** Field updates *)

Definition set_timeout (v : Z) (r : watchdog_device) : watchdog_device :=
  {| timeout := v; min_timeout := min_timeout r;
     max_timeout := max_timeout r;
     max_hw_heartbeat_ms := max_hw_heartbeat_ms r; nowayout := nowayout r;
     driver_data := driver_data r |}.

Definition set_nowayout (v : bool) (r : watchdog_device) : watchdog_device :=
  {| timeout := timeout r; min_timeout := min_timeout r;
     max_timeout := max_timeout r;
     max_hw_heartbeat_ms := max_hw_heartbeat_ms r; nowayout := v;
     driver_data := driver_data r |}.

Definition set_driver_data (v : bool) (r : watchdog_device) : watchdog_device :=
  {| timeout := timeout r; min_timeout := min_timeout r;
     max_timeout := max_timeout r;
     max_hw_heartbeat_ms := max_hw_heartbeat_ms r; nowayout := nowayout r;
     driver_data := v |}.

Definition set_wdd (v : watchdog_device) (r : sd109_private) : sd109_private :=
  {| wdd := v; overlay_wdog_nowayout := overlay_wdog_nowayout r;
     overlay_wdog_timeout := overlay_wdog_timeout r;
     overlay_wdog_wait := overlay_wdog_wait r;
     device_wdog_timeout := device_wdog_timeout r;
     device_wdog_wait := device_wdog_wait r; wdog_wait := wdog_wait r;
     firmware_version := firmware_version r;
     alarm_enabled := alarm_enabled r; alarm_pending := alarm_pending r;
     volt_valid := volt_valid r; volt := volt r;
     volt_updated := volt_updated r; volt_max_valid := volt_max_valid r;
     volt_max := volt_max r; volt_max_updated := volt_max_updated r;
     volt_min_valid := volt_min_valid r; volt_min := volt_min r;
     volt_min_updated := volt_min_updated r |}.

Definition set_overlay_wdog_nowayout (v : bool) (r : sd109_private) : sd109_private :=
  {| wdd := wdd r; overlay_wdog_nowayout := v;
     overlay_wdog_timeout := overlay_wdog_timeout r;
     overlay_wdog_wait := overlay_wdog_wait r;
     device_wdog_timeout := device_wdog_timeout r;
     device_wdog_wait := device_wdog_wait r; wdog_wait := wdog_wait r;
     firmware_version := firmware_version r;
     alarm_enabled := alarm_enabled r; alarm_pending := alarm_pending r;
     volt_valid := volt_valid r; volt := volt r;
     volt_updated := volt_updated r; volt_max_valid := volt_max_valid r;
     volt_max := volt_max r; volt_max_updated := volt_max_updated r;
     volt_min_valid := volt_min_valid r; volt_min := volt_min r;
     volt_min_updated := volt_min_updated r |}.

Definition set_overlay_wdog_timeout (v : Z) (r : sd109_private) : sd109_private :=
  {| wdd := wdd r; overlay_wdog_nowayout := overlay_wdog_nowayout r;
     overlay_wdog_timeout := v; overlay_wdog_wait := overlay_wdog_wait r;
     device_wdog_timeout := device_wdog_timeout r;
     device_wdog_wait := device_wdog_wait r; wdog_wait := wdog_wait r;
     firmware_version := firmware_version r;
     alarm_enabled := alarm_enabled r; alarm_pending := alarm_pending r;
     volt_valid := volt_valid r; volt := volt r;
     volt_updated := volt_updated r; volt_max_valid := volt_max_valid r;
     volt_max := volt_max r; volt_max_updated := volt_max_updated r;
     volt_min_valid := volt_min_valid r; volt_min := volt_min r;
     volt_min_updated := volt_min_updated r |}.

Definition set_overlay_wdog_wait (v : Z) (r : sd109_private) : sd109_private :=
  {| wdd := wdd r; overlay_wdog_nowayout := overlay_wdog_nowayout r;
     overlay_wdog_timeout := overlay_wdog_timeout r; overlay_wdog_wait := v;
     device_wdog_timeout := device_wdog_timeout r;
     device_wdog_wait := device_wdog_wait r; wdog_wait := wdog_wait r;
     firmware_version := firmware_version r;
     alarm_enabled := alarm_enabled r; alarm_pending := alarm_pending r;
     volt_valid := volt_valid r; volt := volt r;
     volt_updated := volt_updated r; volt_max_valid := volt_max_valid r;
     volt_max := volt_max r; volt_max_updated := volt_max_updated r;
     volt_min_valid := volt_min_valid r; volt_min := volt_min r;
     volt_min_updated := volt_min_updated r |}.

Definition set_device_wdog_timeout (v : Z) (r : sd109_private) : sd109_private :=
  {| wdd := wdd r; overlay_wdog_nowayout := overlay_wdog_nowayout r;
     overlay_wdog_timeout := overlay_wdog_timeout r;
     overlay_wdog_wait := overlay_wdog_wait r; device_wdog_timeout := v;
     device_wdog_wait := device_wdog_wait r; wdog_wait := wdog_wait r;
     firmware_version := firmware_version r;
     alarm_enabled := alarm_enabled r; alarm_pending := alarm_pending r;
     volt_valid := volt_valid r; volt := volt r;
     volt_updated := volt_updated r; volt_max_valid := volt_max_valid r;
     volt_max := volt_max r; volt_max_updated := volt_max_updated r;
     volt_min_valid := volt_min_valid r; volt_min := volt_min r;
     volt_min_updated := volt_min_updated r |}.

Definition set_device_wdog_wait (v : Z) (r : sd109_private) : sd109_private :=
  {| wdd := wdd r; overlay_wdog_nowayout := overlay_wdog_nowayout r;
     overlay_wdog_timeout := overlay_wdog_timeout r;
     overlay_wdog_wait := overlay_wdog_wait r;
     device_wdog_timeout := device_wdog_timeout r; device_wdog_wait := v;
     wdog_wait := wdog_wait r; firmware_version := firmware_version r;
     alarm_enabled := alarm_enabled r; alarm_pending := alarm_pending r;
     volt_valid := volt_valid r; volt := volt r;
     volt_updated := volt_updated r; volt_max_valid := volt_max_valid r;
     volt_max := volt_max r; volt_max_updated := volt_max_updated r;
     volt_min_valid := volt_min_valid r; volt_min := volt_min r;
     volt_min_updated := volt_min_updated r |}.

Definition set_wdog_wait (v : Z) (r : sd109_private) : sd109_private :=
  {| wdd := wdd r; overlay_wdog_nowayout := overlay_wdog_nowayout r;
     overlay_wdog_timeout := overlay_wdog_timeout r;
     overlay_wdog_wait := overlay_wdog_wait r;
     device_wdog_timeout := device_wdog_timeout r;
     device_wdog_wait := device_wdog_wait r; wdog_wait := v;
     firmware_version := firmware_version r;
     alarm_enabled := alarm_enabled r; alarm_pending := alarm_pending r;
     volt_valid := volt_valid r; volt := volt r;
     volt_updated := volt_updated r; volt_max_valid := volt_max_valid r;
     volt_max := volt_max r; volt_max_updated := volt_max_updated r;
     volt_min_valid := volt_min_valid r; volt_min := volt_min r;
     volt_min_updated := volt_min_updated r |}.

Definition set_firmware_version (v : Z) (r : sd109_private) : sd109_private :=
  {| wdd := wdd r; overlay_wdog_nowayout := overlay_wdog_nowayout r;
     overlay_wdog_timeout := overlay_wdog_timeout r;
     overlay_wdog_wait := overlay_wdog_wait r;
     device_wdog_timeout := device_wdog_timeout r;
     device_wdog_wait := device_wdog_wait r; wdog_wait := wdog_wait r;
     firmware_version := v; alarm_enabled := alarm_enabled r;
     alarm_pending := alarm_pending r; volt_valid := volt_valid r;
     volt := volt r; volt_updated := volt_updated r;
     volt_max_valid := volt_max_valid r; volt_max := volt_max r;
     volt_max_updated := volt_max_updated r;
     volt_min_valid := volt_min_valid r; volt_min := volt_min r;
     volt_min_updated := volt_min_updated r |}.

Definition set_alarm_enabled (v : bool) (r : sd109_private) : sd109_private :=
  {| wdd := wdd r; overlay_wdog_nowayout := overlay_wdog_nowayout r;
     overlay_wdog_timeout := overlay_wdog_timeout r;
     overlay_wdog_wait := overlay_wdog_wait r;
     device_wdog_timeout := device_wdog_timeout r;
     device_wdog_wait := device_wdog_wait r; wdog_wait := wdog_wait r;
     firmware_version := firmware_version r; alarm_enabled := v;
     alarm_pending := alarm_pending r; volt_valid := volt_valid r;
     volt := volt r; volt_updated := volt_updated r;
     volt_max_valid := volt_max_valid r; volt_max := volt_max r;
     volt_max_updated := volt_max_updated r;
     volt_min_valid := volt_min_valid r; volt_min := volt_min r;
     volt_min_updated := volt_min_updated r |}.

Definition set_alarm_pending (v : bool) (r : sd109_private) : sd109_private :=
  {| wdd := wdd r; overlay_wdog_nowayout := overlay_wdog_nowayout r;
     overlay_wdog_timeout := overlay_wdog_timeout r;
     overlay_wdog_wait := overlay_wdog_wait r;
     device_wdog_timeout := device_wdog_timeout r;
     device_wdog_wait := device_wdog_wait r; wdog_wait := wdog_wait r;
     firmware_version := firmware_version r;
     alarm_enabled := alarm_enabled r; alarm_pending := v;
     volt_valid := volt_valid r; volt := volt r;
     volt_updated := volt_updated r; volt_max_valid := volt_max_valid r;
     volt_max := volt_max r; volt_max_updated := volt_max_updated r;
     volt_min_valid := volt_min_valid r; volt_min := volt_min r;
     volt_min_updated := volt_min_updated r |}.

Definition set_volt_valid (v : list bool) (r : sd109_private) : sd109_private :=
  {| wdd := wdd r; overlay_wdog_nowayout := overlay_wdog_nowayout r;
     overlay_wdog_timeout := overlay_wdog_timeout r;
     overlay_wdog_wait := overlay_wdog_wait r;
     device_wdog_timeout := device_wdog_timeout r;
     device_wdog_wait := device_wdog_wait r; wdog_wait := wdog_wait r;
     firmware_version := firmware_version r;
     alarm_enabled := alarm_enabled r; alarm_pending := alarm_pending r;
     volt_valid := v; volt := volt r; volt_updated := volt_updated r;
     volt_max_valid := volt_max_valid r; volt_max := volt_max r;
     volt_max_updated := volt_max_updated r;
     volt_min_valid := volt_min_valid r; volt_min := volt_min r;
     volt_min_updated := volt_min_updated r |}.

Definition set_volt (v : list Z) (r : sd109_private) : sd109_private :=
  {| wdd := wdd r; overlay_wdog_nowayout := overlay_wdog_nowayout r;
     overlay_wdog_timeout := overlay_wdog_timeout r;
     overlay_wdog_wait := overlay_wdog_wait r;
     device_wdog_timeout := device_wdog_timeout r;
     device_wdog_wait := device_wdog_wait r; wdog_wait := wdog_wait r;
     firmware_version := firmware_version r;
     alarm_enabled := alarm_enabled r; alarm_pending := alarm_pending r;
     volt_valid := volt_valid r; volt := v; volt_updated := volt_updated r;
     volt_max_valid := volt_max_valid r; volt_max := volt_max r;
     volt_max_updated := volt_max_updated r;
     volt_min_valid := volt_min_valid r; volt_min := volt_min r;
     volt_min_updated := volt_min_updated r |}.

Definition set_volt_updated (v : list Z) (r : sd109_private) : sd109_private :=
  {| wdd := wdd r; overlay_wdog_nowayout := overlay_wdog_nowayout r;
     overlay_wdog_timeout := overlay_wdog_timeout r;
     overlay_wdog_wait := overlay_wdog_wait r;
     device_wdog_timeout := device_wdog_timeout r;
     device_wdog_wait := device_wdog_wait r; wdog_wait := wdog_wait r;
     firmware_version := firmware_version r;
     alarm_enabled := alarm_enabled r; alarm_pending := alarm_pending r;
     volt_valid := volt_valid r; volt := volt r; volt_updated := v;
     volt_max_valid := volt_max_valid r; volt_max := volt_max r;
     volt_max_updated := volt_max_updated r;
     volt_min_valid := volt_min_valid r; volt_min := volt_min r;
     volt_min_updated := volt_min_updated r |}.

Definition set_volt_max_valid (v : list bool) (r : sd109_private) : sd109_private :=
  {| wdd := wdd r; overlay_wdog_nowayout := overlay_wdog_nowayout r;
     overlay_wdog_timeout := overlay_wdog_timeout r;
     overlay_wdog_wait := overlay_wdog_wait r;
     device_wdog_timeout := device_wdog_timeout r;
     device_wdog_wait := device_wdog_wait r; wdog_wait := wdog_wait r;
     firmware_version := firmware_version r;
     alarm_enabled := alarm_enabled r; alarm_pending := alarm_pending r;
     volt_valid := volt_valid r; volt := volt r;
     volt_updated := volt_updated r; volt_max_valid := v;
     volt_max := volt_max r; volt_max_updated := volt_max_updated r;
     volt_min_valid := volt_min_valid r; volt_min := volt_min r;
     volt_min_updated := volt_min_updated r |}.

Definition set_volt_max (v : list Z) (r : sd109_private) : sd109_private :=
  {| wdd := wdd r; overlay_wdog_nowayout := overlay_wdog_nowayout r;
     overlay_wdog_timeout := overlay_wdog_timeout r;
     overlay_wdog_wait := overlay_wdog_wait r;
     device_wdog_timeout := device_wdog_timeout r;
     device_wdog_wait := device_wdog_wait r; wdog_wait := wdog_wait r;
     firmware_version := firmware_version r;
     alarm_enabled := alarm_enabled r; alarm_pending := alarm_pending r;
     volt_valid := volt_valid r; volt := volt r;
     volt_updated := volt_updated r; volt_max_valid := volt_max_valid r;
     volt_max := v; volt_max_updated := volt_max_updated r;
     volt_min_valid := volt_min_valid r; volt_min := volt_min r;
     volt_min_updated := volt_min_updated r |}.

Definition set_volt_max_updated (v : list Z) (r : sd109_private) : sd109_private :=
  {| wdd := wdd r; overlay_wdog_nowayout := overlay_wdog_nowayout r;
     overlay_wdog_timeout := overlay_wdog_timeout r;
     overlay_wdog_wait := overlay_wdog_wait r;
     device_wdog_timeout := device_wdog_timeout r;
     device_wdog_wait := device_wdog_wait r; wdog_wait := wdog_wait r;
     firmware_version := firmware_version r;
     alarm_enabled := alarm_enabled r; alarm_pending := alarm_pending r;
     volt_valid := volt_valid r; volt := volt r;
     volt_updated := volt_updated r; volt_max_valid := volt_max_valid r;
     volt_max := volt_max r; volt_max_updated := v;
     volt_min_valid := volt_min_valid r; volt_min := volt_min r;
     volt_min_updated := volt_min_updated r |}.

Definition set_volt_min_valid (v : list bool) (r : sd109_private) : sd109_private :=
  {| wdd := wdd r; overlay_wdog_nowayout := overlay_wdog_nowayout r;
     overlay_wdog_timeout := overlay_wdog_timeout r;
     overlay_wdog_wait := overlay_wdog_wait r;
     device_wdog_timeout := device_wdog_timeout r;
     device_wdog_wait := device_wdog_wait r; wdog_wait := wdog_wait r;
     firmware_version := firmware_version r;
     alarm_enabled := alarm_enabled r; alarm_pending := alarm_pending r;
     volt_valid := volt_valid r; volt := volt r;
     volt_updated := volt_updated r; volt_max_valid := volt_max_valid r;
     volt_max := volt_max r; volt_max_updated := volt_max_updated r;
     volt_min_valid := v; volt_min := volt_min r;
     volt_min_updated := volt_min_updated r |}.

Definition set_volt_min (v : list Z) (r : sd109_private) : sd109_private :=
  {| wdd := wdd r; overlay_wdog_nowayout := overlay_wdog_nowayout r;
     overlay_wdog_timeout := overlay_wdog_timeout r;
     overlay_wdog_wait := overlay_wdog_wait r;
     device_wdog_timeout := device_wdog_timeout r;
     device_wdog_wait := device_wdog_wait r; wdog_wait := wdog_wait r;
     firmware_version := firmware_version r;
     alarm_enabled := alarm_enabled r; alarm_pending := alarm_pending r;
     volt_valid := volt_valid r; volt := volt r;
     volt_updated := volt_updated r; volt_max_valid := volt_max_valid r;
     volt_max := volt_max r; volt_max_updated := volt_max_updated r;
     volt_min_valid := volt_min_valid r; volt_min := v;
     volt_min_updated := volt_min_updated r |}.

Definition set_volt_min_updated (v : list Z) (r : sd109_private) : sd109_private :=
  {| wdd := wdd r; overlay_wdog_nowayout := overlay_wdog_nowayout r;
     overlay_wdog_timeout := overlay_wdog_timeout r;
     overlay_wdog_wait := overlay_wdog_wait r;
     device_wdog_timeout := device_wdog_timeout r;
     device_wdog_wait := device_wdog_wait r; wdog_wait := wdog_wait r;
     firmware_version := firmware_version r;
     alarm_enabled := alarm_enabled r; alarm_pending := alarm_pending r;
     volt_valid := volt_valid r; volt := volt r;
     volt_updated := volt_updated r; volt_max_valid := volt_max_valid r;
     volt_max := volt_max r; volt_max_updated := volt_max_updated r;
     volt_min_valid := volt_min_valid r; volt_min := volt_min r;
     volt_min_updated := v |}.

Definition set_data (v : sd109_private) (r : world) : world :=
  {| data := v; bus := bus r; jiffies := jiffies r; klog := klog r;
     plat := plat r; hwmon_registered := hwmon_registered r;
     wdd_registered := wdd_registered r; rtc_registered := rtc_registered r;
     notifier_registered := notifier_registered r;
     wdt_info_firmware_version := wdt_info_firmware_version r;
     notify_data := notify_data r |}.

Definition set_bus (v : regmap) (r : world) : world :=
  {| data := data r; bus := v; jiffies := jiffies r; klog := klog r;
     plat := plat r; hwmon_registered := hwmon_registered r;
     wdd_registered := wdd_registered r; rtc_registered := rtc_registered r;
     notifier_registered := notifier_registered r;
     wdt_info_firmware_version := wdt_info_firmware_version r;
     notify_data := notify_data r |}.

Definition set_jiffies (v : Z) (r : world) : world :=
  {| data := data r; bus := bus r; jiffies := v; klog := klog r;
     plat := plat r; hwmon_registered := hwmon_registered r;
     wdd_registered := wdd_registered r; rtc_registered := rtc_registered r;
     notifier_registered := notifier_registered r;
     wdt_info_firmware_version := wdt_info_firmware_version r;
     notify_data := notify_data r |}.

Definition set_klog (v : list string) (r : world) : world :=
  {| data := data r; bus := bus r; jiffies := jiffies r; klog := v;
     plat := plat r; hwmon_registered := hwmon_registered r;
     wdd_registered := wdd_registered r; rtc_registered := rtc_registered r;
     notifier_registered := notifier_registered r;
     wdt_info_firmware_version := wdt_info_firmware_version r;
     notify_data := notify_data r |}.

Definition set_hwmon_registered (v : bool) (r : world) : world :=
  {| data := data r; bus := bus r; jiffies := jiffies r; klog := klog r;
     plat := plat r; hwmon_registered := v;
     wdd_registered := wdd_registered r; rtc_registered := rtc_registered r;
     notifier_registered := notifier_registered r;
     wdt_info_firmware_version := wdt_info_firmware_version r;
     notify_data := notify_data r |}.

Definition set_wdd_registered (v : bool) (r : world) : world :=
  {| data := data r; bus := bus r; jiffies := jiffies r; klog := klog r;
     plat := plat r; hwmon_registered := hwmon_registered r;
     wdd_registered := v; rtc_registered := rtc_registered r;
     notifier_registered := notifier_registered r;
     wdt_info_firmware_version := wdt_info_firmware_version r;
     notify_data := notify_data r |}.

Definition set_rtc_registered (v : bool) (r : world) : world :=
  {| data := data r; bus := bus r; jiffies := jiffies r; klog := klog r;
     plat := plat r; hwmon_registered := hwmon_registered r;
     wdd_registered := wdd_registered r; rtc_registered := v;
     notifier_registered := notifier_registered r;
     wdt_info_firmware_version := wdt_info_firmware_version r;
     notify_data := notify_data r |}.

Definition set_notifier_registered (v : bool) (r : world) : world :=
  {| data := data r; bus := bus r; jiffies := jiffies r; klog := klog r;
     plat := plat r; hwmon_registered := hwmon_registered r;
     wdd_registered := wdd_registered r; rtc_registered := rtc_registered r;
     notifier_registered := v;
     wdt_info_firmware_version := wdt_info_firmware_version r;
     notify_data := notify_data r |}.

Definition set_wdt_info_firmware_version (v : Z) (r : world) : world :=
  {| data := data r; bus := bus r; jiffies := jiffies r; klog := klog r;
     plat := plat r; hwmon_registered := hwmon_registered r;
     wdd_registered := wdd_registered r; rtc_registered := rtc_registered r;
     notifier_registered := notifier_registered r;
     wdt_info_firmware_version := v; notify_data := notify_data r |}.

Definition set_notify_data (v : bool) (r : world) : world :=
  {| data := data r; bus := bus r; jiffies := jiffies r; klog := klog r;
     plat := plat r; hwmon_registered := hwmon_registered r;
     wdd_registered := wdd_registered r; rtc_registered := rtc_registered r;
     notifier_registered := notifier_registered r;
     wdt_info_firmware_version := wdt_info_firmware_version r;
     notify_data := v |}.

(** *** Arrays

    A C array is a list; [arr_get] reads a cell and [arr_set] writes one.
    Every index the driver uses has been compared with [NUM_CH_VIN]. *)

Definition arr_get {A} `{Inhabited A} (a : list A) (i : Z) : A :=
  a !!! Z.to_nat i.

Definition arr_set {A} (a : list A) (i : Z) (x : A) : list A :=
  <[Z.to_nat i := x]> a.

(** The private data as [devm_kzalloc] returns it: all zero. *)
Definition zero_wdd : watchdog_device :=
  {| timeout := 0; min_timeout := 0; max_timeout := 0;
     max_hw_heartbeat_ms := 0; nowayout := false; driver_data := false |}.

Definition zero_data : sd109_private :=
  {| wdd := zero_wdd; overlay_wdog_nowayout := false;
     overlay_wdog_timeout := 0; overlay_wdog_wait := 0;
     device_wdog_timeout := 0; device_wdog_wait := 0; wdog_wait := 0;
     firmware_version := 0; alarm_enabled := false; alarm_pending := false;
     volt_valid := replicate 5 false; volt := replicate 5 0;
     volt_updated := replicate 5 0;
     volt_max_valid := replicate 5 false; volt_max := replicate 5 0;
     volt_max_updated := replicate 5 0;
     volt_min_valid := replicate 5 false; volt_min := replicate 5 0;
     volt_min_updated := replicate 5 0 |}.

(** The arrays of the private data have their declared size. *)
Definition wf_data (d : sd109_private) : Prop :=
  length (volt_valid d) = 5%nat /\ length (volt d) = 5%nat /\
  length (volt_updated d) = 5%nat /\
  length (volt_max_valid d) = 5%nat /\ length (volt_max d) = 5%nat /\
  length (volt_max_updated d) = 5%nat /\
  length (volt_min_valid d) = 5%nat /\ length (volt_min d) = 5%nat /\
  length (volt_min_updated d) = 5%nat.

(** ** The monad of driver computations *)

Definition M (A : Type) : Type := world -> A * world.

Definition ret {A} (a : A) : M A := fun w => (a, w).

Definition bind {A B} (m : M A) (k : A -> M B) : M B :=
  fun w => match m w with (a, w') => k a w' end.

Definition gets {A} (f : world -> A) : M A := fun w => (f w, w).

Definition modify (f : world -> world) : M unit := fun w => (tt, f w).

Declare Scope drv_scope.
Delimit Scope drv_scope with drv.
Notation "x <- m ;; k" := (bind m (fun x => k))
  (at level 100, m at next level, right associativity) : drv_scope.
Notation "m ;; k" := (bind m (fun _ => k))
  (at level 100, right associativity) : drv_scope.
Local Open Scope drv_scope.

(** Result and final world of a computation. *)
Definition result {A} (m : M A) (w : world) : A := fst (m w).
Definition after {A} (m : M A) (w : world) : world := snd (m w).

(** [dev_err], [dev_info] and [printk]: a line of the kernel log. The
    lines are the format strings of the source without their arguments and
    final newline. *)
Definition dev_log (msg : string) : M unit :=
  modify (fun w => set_klog (klog w ++ [msg]) w).

(** Change of the private data. *)
Definition update_data (f : sd109_private -> sd109_private) : M unit :=
  modify (fun w => set_data (f (data w)) w).

(** ** The register map

    [sd109_i2c_probe] configures the map with 8-bit addresses and 16-bit
    values: a read delivers 16 bits, a write stores the low 16 bits of its
    value. A transaction returns [0], or a negative errno and then leaves
    the variable that was to receive the value as it was. *)

Definition log_op (op : bus_op) (m : regmap) : regmap :=
  {| regs := regs m; fault := fault m; trace := trace m ++ [op] |}.

Definition store (reg val : Z) (m : regmap) : regmap :=
  {| regs := fun r => if r =? reg then val else regs m r;
     fault := fault m; trace := trace m |}.

(** [regmap_read(map, reg, &val)]: the status and the new content of [val]. *)
Definition regmap_read (reg val : Z) : M (Z * Z) := fun w =>
  let m := bus w in
  match fault m (length (trace m)) with
  | Some e => ((Z.neg e, val), set_bus (log_op (BusRead reg) m) w)
  | None => ((0, Z.land (regs m reg) 0xffff), set_bus (log_op (BusRead reg) m) w)
  end.

(** [regmap_write(map, reg, val)]: the status. *)
Definition regmap_write (reg val : Z) : M Z := fun w =>
  let m := bus w in
  match fault m (length (trace m)) with
  | Some e => (Z.neg e, set_bus (log_op (BusWrite reg val) m) w)
  | None =>
      (0, set_bus (store reg (Z.land val 0xffff) (log_op (BusWrite reg val) m)) w)
  end.


Definition is_write (op : bus_op) : bool :=
  match op with BusRead _ => false | BusWrite _ _ => true end.

Definition count_writes (t : list bus_op) : nat :=
  length (List.filter is_write t).

(** ** Kernel parameters

    What the driver takes from the kernel it is compiled for: the tick rate
    [HZ], the width of [unsigned long], and the timeout check of the
    watchdog framework ([watchdog_timeout_invalid] of linux/watchdog.h). *)
Class Kernel := {
  HZ : Z;
  BITS_PER_LONG : Z;
  watchdog_timeout_invalid : watchdog_device -> Z -> bool
}.

(** The check as linux/watchdog.h defines it: the timeout is invalid when it
    exceeds [UINT_MAX / 1000], is below the configured minimum, or exceeds
    a configured maximum while no hardware heartbeat limit is set. *)
Definition linux_watchdog_timeout_invalid (w : watchdog_device) (t : Z) : bool :=
  (4294967295 / 1000 <? t) || (t <? min_timeout w) ||
  ((max_hw_heartbeat_ms w =? 0) && negb (max_timeout w =? 0) &&
   (max_timeout w <? t)).

(** A 64-bit kernel with 250 ticks a second. *)
Definition linux64 : Kernel :=
  {| HZ := 250; BITS_PER_LONG := 64;
     watchdog_timeout_invalid := linux_watchdog_timeout_invalid |}.


Section Driver.

Context {K : Kernel}.

(** *** Tick arithmetic (linux/jiffies.h) *)

(** A value as [unsigned long] and as [long]. *)
Definition to_ulong (z : Z) : Z := z mod 2 ^ BITS_PER_LONG.

Definition to_long (z : Z) : Z :=
  (z + 2 ^ (BITS_PER_LONG - 1)) mod 2 ^ BITS_PER_LONG - 2 ^ (BITS_PER_LONG - 1).

(** [time_after(a, b)] is [(long)((b) - (a)) < 0]. *)
Definition time_after (a b : Z) : bool := to_long (b - a) <? 0.

(** ** HWMON *)

(** [sd109_get_voltage(dev, ch)]. [jiffies] is read from the world; the
    two reads the function makes see the same tick. Taking and releasing
    [update_lock] is left out of the three getters. *)
Definition sd109_get_voltage (ch : Z) : M Z :=
  let voltage := 0 in
  d <- gets data ;;
  if ch <? NUM_CH_VIN then
    j <- gets jiffies ;;
    if time_after j (to_ulong (arr_get (volt_updated d) ch + HZ))
       || negb (arr_get (volt_valid d) ch)
    then
      let reg := SD109_VOLTAGE_5V_BOARD + ch * 3 in
      rv <- regmap_read reg voltage ;;
      let '(r, voltage) := rv in
      if r <? 0 then
        dev_log "failed to read I2C when get voltage" ;;
        ret voltage
      else
        update_data (fun d => set_volt (arr_set (volt d) ch (to_u16 voltage)) d) ;;
        update_data (fun d => set_volt_updated (arr_set (volt_updated d) ch j) d) ;;
        update_data (fun d => set_volt_valid (arr_set (volt_valid d) ch true) d) ;;
        ret voltage
    else
      ret (arr_get (volt d) ch)
  else
    ret voltage.

(** [sd109_get_voltage_max(dev, ch)]. *)
Definition sd109_get_voltage_max (ch : Z) : M Z :=
  let voltage := 0 in
  d <- gets data ;;
  if ch <? NUM_CH_VIN then
    j <- gets jiffies ;;
    if time_after j (to_ulong (arr_get (volt_max_updated d) ch + HZ))
       || negb (arr_get (volt_max_valid d) ch)
    then
      let reg := SD109_VOLTAGE_5V_BOARD_MAX + ch * 3 in
      rv <- regmap_read reg voltage ;;
      let '(r, voltage) := rv in
      if r <? 0 then
        dev_log "failed to read I2C when get MAX voltage" ;;
        ret voltage
      else
        update_data (fun d => set_volt_max (arr_set (volt_max d) ch (to_u16 voltage)) d) ;;
        update_data (fun d => set_volt_max_updated (arr_set (volt_max_updated d) ch j) d) ;;
        update_data (fun d => set_volt_max_valid (arr_set (volt_max_valid d) ch true) d) ;;
        ret voltage
    else
      ret (arr_get (volt_max d) ch)
  else
    ret voltage.

(** [sd109_get_voltage_min(dev, ch)]. *)
Definition sd109_get_voltage_min (ch : Z) : M Z :=
  let voltage := 0 in
  d <- gets data ;;
  if ch <? NUM_CH_VIN then
    j <- gets jiffies ;;
    if time_after j (to_ulong (arr_get (volt_min_updated d) ch + HZ))
       || negb (arr_get (volt_min_valid d) ch)
    then
      let reg := SD109_VOLTAGE_5V_BOARD_MIN + ch * 3 in
      rv <- regmap_read reg voltage ;;
      let '(r, voltage) := rv in
      if r <? 0 then
        dev_log "failed to read I2C when get MIN voltage" ;;
        ret voltage
      else
        update_data (fun d => set_volt_min (arr_set (volt_min d) ch (to_u16 voltage)) d) ;;
        update_data (fun d => set_volt_min_updated (arr_set (volt_min_updated d) ch j) d) ;;
        update_data (fun d => set_volt_min_valid (arr_set (volt_min_valid d) ch true) d) ;;
        ret voltage
    else
      ret (arr_get (volt_min d) ch)
  else
    ret voltage.

(** The attributes of a voltage channel ([enum hwmon_in_attributes]); the
    driver distinguishes four of them. *)
Inductive hwmon_in_attr :=
| hwmon_in_input
| hwmon_in_min
| hwmon_in_max
| hwmon_in_label
| hwmon_in_other.

(** [sd109_read_in(dev, attr, channel, val)]: the status and the new
    content of [*val]. The [int] channel becomes the [u8] argument of the
    getter. *)
Definition sd109_read_in (attr : hwmon_in_attr) (channel val : Z) : M (Z * Z) :=
  match attr with
  | hwmon_in_input =>
      if channel <? NUM_CH_VIN then
        v <- sd109_get_voltage (to_u8 channel) ;; ret (0, v)
      else ret (- EOPNOTSUPP, val)
  | hwmon_in_max =>
      if channel <? NUM_CH_VIN then
        v <- sd109_get_voltage_max (to_u8 channel) ;; ret (0, v)
      else ret (- EOPNOTSUPP, val)
  | hwmon_in_min =>
      if channel <? NUM_CH_VIN then
        v <- sd109_get_voltage_min (to_u8 channel) ;; ret (0, v)
      else ret (- EOPNOTSUPP, val)
  | _ => ret (- EOPNOTSUPP, val)
  end.

(** The sensor types of the hwmon framework; the driver serves [hwmon_in]. *)
Inductive hwmon_sensor_types :=
| hwmon_in
| hwmon_other_type.

(** [sd109_read(dev, type, attr, channel, val)]. *)
Definition sd109_read (type : hwmon_sensor_types) (attr : hwmon_in_attr)
    (channel val : Z) : M (Z * Z) :=
  match type with
  | hwmon_in => sd109_read_in attr channel val
  | _ => ret (- EOPNOTSUPP, val)
  end.

(** ** Watchdog

    The operations reach the private data through
    [watchdog_get_drvdata(wdd)]. The framework calls them on the device
    that [sd109_wdog_init] has registered, and [sd109_wdog_init] calls
    [sd109_wdt_settimeout] after it has set the driver data: the private
    data they work on is that of the world. *)

(** [sd109_wdt_ping], [sd109_wdt_start], [sd109_wdt_stop]. *)
Definition sd109_wdt_ping : M Z :=
  regmap_write SD109_WDOG_REFRESH SD109_WDOG_REFRESH_MAGIC_VALUE.

Definition sd109_wdt_start : M Z :=
  regmap_write SD109_COMMAND SD109_WDOG_ENABLE.

Definition sd109_wdt_stop : M Z :=
  regmap_write SD109_COMMAND SD109_WDOG_DISABLE.

(** [sd109_wdt_settimeout(wdd, to)]; [wdd] is the watchdog device of the
    private data. The status of the register write is assigned to [ret] and
    not looked at. *)
Definition sd109_wdt_settimeout (to : Z) : M Z :=
  d <- gets data ;;
  if watchdog_timeout_invalid (wdd d) to || (255 <? to) then
    ret (- EINVAL)
  else
    let reg := wdog_reg_value (wdog_wait d) to in
    _ <- regmap_write SD109_WDOG_TIMEOUT reg ;;
    update_data (fun d => set_wdd (set_timeout to (wdd d)) d) ;;
    ret 0.

(** [watchdog_set_drvdata(wdd, data)] of linux/watchdog.h, [data] being
    the private data of the device. *)
Definition watchdog_set_drvdata (wd : watchdog_device) : watchdog_device :=
  set_driver_data true wd.

(** [sd109_wdog_init(dev)]. The [int] values assigned to the
    [unsigned int] field [wdd.timeout] are converted. *)
Definition sd109_wdog_init : M Z :=
  let update_device := false in
  update_data (fun d => set_wdd (watchdog_set_drvdata (wdd d)) d) ;;
  rv <- regmap_read SD109_WDOG_TIMEOUT 0 ;;
  let '(r, tinfo) := rv in
  if r <? 0 then
    dev_log "failed to read I2C when init watchdog" ;;
    ret r
  else
    update_data (set_device_wdog_timeout (wdog_timeout_of tinfo)) ;;
    update_data (set_device_wdog_wait (wdog_wait_of tinfo)) ;;
    d <- gets data ;;
    update_device <-
      (if overlay_wdog_timeout d =? -1 then
         update_data (fun d =>
           set_wdd (set_timeout (to_uint (device_wdog_timeout d)) (wdd d)) d) ;;
         ret update_device
       else
         update_data (fun d =>
           set_wdd (set_timeout (to_uint (overlay_wdog_timeout d)) (wdd d)) d) ;;
         ret true) ;;
    update_device <-
      (if overlay_wdog_wait d <? SD109_MIN_WDOG_WAIT then
         update_data (fun d => set_wdog_wait (device_wdog_wait d) d) ;;
         ret update_device
       else
         update_data (fun d => set_wdog_wait (overlay_wdog_wait d) d) ;;
         ret true) ;;
    modify (fun w => set_wdt_info_firmware_version (firmware_version (data w)) w) ;;
    update_data (fun d =>
      if overlay_wdog_nowayout d then set_wdd (set_nowayout true (wdd d)) d
      else d) ;;
    (if update_device then
       d <- gets data ;;
       _ <- sd109_wdt_settimeout (timeout (wdd d)) ;;
       ret tt
     else ret tt) ;;
    p <- gets plat ;;
    let r := watchdog_register_ret p in
    if negb (r =? 0) then ret r
    else
      modify (set_wdd_registered true) ;;
      dev_log "Watchdog registered!" ;;
      ret 0.

(** ** Real time clock

    A [struct rtc_time] is represented by the [time64_t] that
    [rtc_tm_to_time64] and [rtc_time64_to_tm] convert it to and from. *)

(** [sd109_rtc_set_time(dev, tm)], [new_time] being [rtc_tm_to_time64(tm)]. *)
Definition sd109_rtc_set_time (new_time : Z) : M Z :=
  if RTC_MAX_TIME <? new_time then ret (- EINVAL)
  else
    let tick := time_word0 new_time in
    r <- regmap_write SD109_RTC0 tick ;;
    if negb (r =? 0) then
      dev_log "Unable to write RTC word 0 when setting time" ;; ret r
    else
      let tick := time_word1 new_time in
      r <- regmap_write SD109_RTC1 tick ;;
      if negb (r =? 0) then
        dev_log "Unable to write RTC word 1 when setting time" ;; ret r
      else
        let tick := time_word2 new_time in
        r <- regmap_write SD109_RTC2 tick ;;
        if negb (r =? 0) then
          dev_log "Unable to write RTC word 2 when setting time" ;; ret r
        else ret 0.

(** [sd109_rtc_read_time(dev, tm)]: the status and the new content of
    [*tm]. *)
Definition sd109_rtc_read_time (tm : Z) : M (Z * Z) :=
  rv <- regmap_read SD109_RTC0 0 ;;
  let '(r, tick) := rv in
  if negb (r =? 0) then
    dev_log "Unable to read RTC word 0 when getting time" ;; ret (r, tm)
  else
    let snap_time := Z.land tick 0xffff in
    let new_time := snap_time in
    rv <- regmap_read SD109_RTC1 tick ;;
    let '(r, tick) := rv in
    if negb (r =? 0) then
      dev_log "Unable to read RTC word 1 when getting time" ;; ret (r, tm)
    else
      let snap_time := Z.land tick 0xffff in
      let new_time := Z.lor new_time (Z.shiftl snap_time 16) in
      rv <- regmap_read SD109_RTC2 tick ;;
      let '(r, tick) := rv in
      if negb (r =? 0) then
        dev_log "Unable to read RTC word 2 when getting time" ;; ret (r, tm)
      else
        let snap_time := Z.land tick 0xffff in
        let new_time := Z.lor new_time (Z.shiftl snap_time 32) in
        ret (0, new_time).

(** [sd109_rtc_set_alarm(dev, alrm)]. *)
Definition sd109_rtc_set_alarm (alrm : rtc_wkalrm) : M Z :=
  let alarm_time := alrm_time alrm in
  update_data (set_alarm_enabled (to_bool (alrm_enabled alrm))) ;;
  update_data (set_alarm_pending (to_bool (alrm_pending alrm))) ;;
  if RTC_MAX_TIME <? alarm_time then ret (- EINVAL)
  else
    let tick := time_word0 alarm_time in
    r <- regmap_write SD109_WAKEUP0 tick ;;
    if negb (r =? 0) then
      dev_log "Unable to write WAKEUP word 0 when setting alarm" ;; ret r
    else
      let tick := time_word1 alarm_time in
      r <- regmap_write SD109_WAKEUP1 tick ;;
      if negb (r =? 0) then
        dev_log "Unable to write WAKEUP word 1 when setting alarm" ;; ret r
      else
        let tick := time_word2 alarm_time in
        r <- regmap_write SD109_WAKEUP2 tick ;;
        if negb (r =? 0) then
          dev_log "Unable to write WAKEUP word 2 when setting alarm" ;; ret r
        else ret 0.

(** [sd109_rtc_read_alarm(dev, alrm)]: the status and the new content of
    [*alrm]. *)
Definition sd109_rtc_read_alarm (alrm : rtc_wkalrm) : M (Z * rtc_wkalrm) :=
  rv <- regmap_read SD109_WAKEUP0 0 ;;
  let '(r, tick) := rv in
  if negb (r =? 0) then
    dev_log "Unable to read RTC word 0 when getting alarm" ;; ret (r, alrm)
  else
    let snap_time := Z.land tick 0xffff in
    let alarm_time := snap_time in
    rv <- regmap_read SD109_WAKEUP1 tick ;;
    let '(r, tick) := rv in
    if negb (r =? 0) then
      dev_log "Unable to read RTC word 1 when getting alarm" ;; ret (r, alrm)
    else
      let snap_time := Z.land tick 0xffff in
      let alarm_time := Z.lor alarm_time (Z.shiftl snap_time 16) in
      rv <- regmap_read SD109_WAKEUP2 tick ;;
      let '(r, tick) := rv in
      if negb (r =? 0) then
        dev_log "Unable to read RTC word 2 when getting alarm" ;; ret (r, alrm)
      else
        let snap_time := Z.land tick 0xffff in
        let alarm_time := Z.lor alarm_time (Z.shiftl snap_time 32) in
        d <- gets data ;;
        ret (0, {| alrm_enabled := Z.b2z (alarm_enabled d);
                   alrm_pending := Z.b2z (alarm_pending d);
                   alrm_time := alarm_time |}).

(** [sd109_alarm_irq_enable(dev, enabled)]. *)
Definition sd109_alarm_irq_enable (enabled : Z) : M Z :=
  (if enabled =? 0 then
     _ <- regmap_write SD109_WAKEUP0 0 ;;
     _ <- regmap_write SD109_WAKEUP1 0 ;;
     _ <- regmap_write SD109_WAKEUP2 0 ;;
     ret tt
   else ret tt) ;;
  ret 0.

(** [sd109_rtc_init(dev)]. *)
Definition sd109_rtc_init : M Z :=
  p <- gets plat ;;
  match rtc_register_err p with
  | Some e => dev_log "failed register RTC" ;; ret (Z.neg e)
  | None => modify (set_rtc_registered true) ;; ret 0
  end.

(** ** Reboot notifier *)

(** [sd109_notify_reboot(this, code, x)]. *)
Definition sd109_notify_reboot (code : Z) : M Z :=
  let r := 0 in
  r <-
    (if code =? SYS_POWER_OFF then regmap_write SD109_COMMAND SD109_EXEC_POWEROFF
     else if code =? SYS_RESTART then regmap_write SD109_COMMAND SD109_EXEC_REBOOT
     else if code =? SYS_HALT then regmap_write SD109_COMMAND SD109_EXEC_HALT
     else ret r) ;;
  (if negb (r =? 0) then dev_log "Unable to write shutdown command"
   else ret tt) ;;
  ret NOTIFY_DONE.

(** ** Probe *)

(** The line [sd109_probe] logs for a boot status. *)
Definition status_line (val : Z) : string :=
  if val =? SD109_STATUS_POWERUP then "start from POWER-UP"
  else if val =? SD109_STATUS_POWEROFF then "start from POWER-OFF"
  else if val =? SD109_STATUS_REBOOT then "start from REBOOT"
  else if val =? SD109_STATUS_HALT then "start from HALT"
  else if val =? SD109_STATUS_WAKEUP then "start from WAKEUP"
  else "start from unknown".

(** The device properties read when the watchdog is enabled, followed by
    [sd109_wdog_init]: this is the body of
    [if (device_property_read_bool(dev, "wdog_enabled"))] in [sd109_probe].
    A property that is absent leaves [val] as it was. *)
Definition probe_wdog (val : Z) : M Z :=
  p <- gets plat ;;
  (if prop_wdog_nowayout p then update_data (set_overlay_wdog_nowayout true)
   else ret tt) ;;
  val <-
    (match prop_wdog_timeout p with
     | None => update_data (set_overlay_wdog_timeout (-1)) ;; ret val
     | Some v => update_data (set_overlay_wdog_timeout (to_int v)) ;; ret v
     end) ;;
  _ <-
    (match prop_wdog_wait p with
     | None => update_data (set_overlay_wdog_wait (-1)) ;; ret val
     | Some v => update_data (set_overlay_wdog_wait (to_int v)) ;; ret v
     end) ;;
  sd109_wdog_init.

(** [sd109_probe(client, regmap)]. *)
Definition sd109_probe : M Z :=
  p <- gets plat ;;
  match regmap_init_err p with
  | Some e => ret (Z.neg e)
  | None =>
    if kzalloc_fails p then ret (- ENOMEM)
    else
      modify (set_data zero_data) ;;
      modify (set_notify_data true) ;;
      rv <- regmap_read SD109_CHIP_ID_REG 0 ;;
      let '(r, val) := rv in
      if r <? 0 then
        dev_log "failed to read I2C chip Id" ;; ret r
      else if negb (val =? SD109_CHIP_ID) then
        dev_log "Invalid chip id" ;; ret (- ENODEV)
      else
        rv <- regmap_read SD109_CHIP_VER_REG val ;;
        let '(r, val) := rv in
        if r <? 0 then
          dev_log "failed to read I2C firmware version" ;; ret r
        else
          update_data (set_firmware_version (to_u16 val)) ;;
          rv <- regmap_read SD109_STATUS val ;;
          let '(r, val) := rv in
          if r <? 0 then
            dev_log "failed to access device when reading status" ;; ret r
          else
            dev_log (status_line val) ;;
            match hwmon_register_err p with
            | Some e => ret (Z.neg e)
            | None =>
              modify (set_hwmon_registered true) ;;
              dev_log "HWMON registered" ;;
              r <- (if prop_wdog_enabled p then probe_wdog val else ret 0) ;;
              if negb (r =? 0) then ret r
              else
                (if prop_rtc_enabled p then _ <- sd109_rtc_init ;; ret tt
                 else ret tt) ;;
                modify (set_notifier_registered true) ;;
                ret 0
            end
  end.

(** [sd109_remove(client)]. *)
Definition sd109_remove : M Z :=
  modify (set_wdd_registered false) ;;
  modify (set_notifier_registered false) ;;
  ret 0.

End Driver.

(** ** Vocabulary of the properties *)

(** The three components of a triple are register words. *)
Definition words16 (ws : Z * Z * Z) : Prop :=
  let '(w0, w1, w2) := ws in is_word16 w0 /\ is_word16 w1 /\ is_word16 w2.

(** The bus never fails. *)
Definition no_fault (w : world) : Prop := forall n, fault (bus w) n = None.

(** A computation that leaves arrays of the declared size when it finds
    them so. *)
Definition keeps_wf {A} (m : M A) : Prop :=
  forall w, wf_data (data w) -> wf_data (data (after m w)).

(** *** Voltage cache *)

(** The three kinds of reading of a channel, with the attribute, the base
    register, the getter and the diagnostic of each. *)
Inductive volt_kind := Input | Min | Max.

Definition kind_attr (k : volt_kind) : hwmon_in_attr :=
  match k with
  | Input => hwmon_in_input
  | Min => hwmon_in_min
  | Max => hwmon_in_max
  end.

Definition kind_base (k : volt_kind) : Z :=
  match k with
  | Input => SD109_VOLTAGE_5V_BOARD
  | Min => SD109_VOLTAGE_5V_BOARD_MIN
  | Max => SD109_VOLTAGE_5V_BOARD_MAX
  end.

Definition kind_diag (k : volt_kind) : string :=
  match k with
  | Input => "failed to read I2C when get voltage"
  | Min => "failed to read I2C when get MIN voltage"
  | Max => "failed to read I2C when get MAX voltage"
  end.

(** The cache slot of a kind and channel. *)
Definition slot_valid (k : volt_kind) (d : sd109_private) (ch : Z) : bool :=
  match k with
  | Input => arr_get (volt_valid d) ch
  | Min => arr_get (volt_min_valid d) ch
  | Max => arr_get (volt_max_valid d) ch
  end.

Definition slot_value (k : volt_kind) (d : sd109_private) (ch : Z) : Z :=
  match k with
  | Input => arr_get (volt d) ch
  | Min => arr_get (volt_min d) ch
  | Max => arr_get (volt_max d) ch
  end.

Definition slot_updated (k : volt_kind) (d : sd109_private) (ch : Z) : Z :=
  match k with
  | Input => arr_get (volt_updated d) ch
  | Min => arr_get (volt_min_updated d) ch
  | Max => arr_get (volt_max_updated d) ch
  end.

(** *** Watchdog reconciliation *)

(** The watchdog device as [sd109_wdog_init] hands it to
    [sd109_wdt_settimeout]: the driver data set, the adopted timeout
    stored, the no-way-out bit set when the overlay asks for it. *)
Definition adopted_wdd (d : sd109_private) (to : Z) : watchdog_device :=
  let wd := set_timeout to (watchdog_set_drvdata (wdd d)) in
  if overlay_wdog_nowayout d then set_nowayout true wd else wd.

Section Vocabulary.

Context {K : Kernel}.

Definition get_voltage_of (k : volt_kind) : Z -> M Z :=
  match k with
  | Input => sd109_get_voltage
  | Min => sd109_get_voltage_min
  | Max => sd109_get_voltage_max
  end.

(** The test that makes a getter read the register: the slot is older than
    [HZ] ticks, or not valid. *)
Definition needs_refresh (k : volt_kind) (ch : Z) (w : world) : bool :=
  time_after (jiffies w) (to_ulong (slot_updated k (data w) ch + HZ))
  || negb (slot_valid k (data w) ch).

(** The timeout [sd109_wdog_init] adopts, the wait it adopts, whether one
    of the overrides won, and whether [sd109_wdt_settimeout] accepts the
    adopted timeout. *)
Definition adopted_timeout (d : sd109_private) (tinfo : Z) : Z :=
  if overlay_wdog_timeout d =? -1 then wdog_timeout_of tinfo
  else to_uint (overlay_wdog_timeout d).

Definition adopted_wait (d : sd109_private) (tinfo : Z) : Z :=
  if overlay_wdog_wait d <? SD109_MIN_WDOG_WAIT then wdog_wait_of tinfo
  else overlay_wdog_wait d.

Definition override_won (d : sd109_private) : bool :=
  negb (overlay_wdog_timeout d =? -1) ||
  negb (overlay_wdog_wait d <? SD109_MIN_WDOG_WAIT).

Definition timeout_accepted (d : sd109_private) (to : Z) : bool :=
  negb (watchdog_timeout_invalid (adopted_wdd d to) to || (255 <? to)).

End Vocabulary.

(** ** Sample platforms and devices *)

(** A platform where every allocation and registration works, with the
    watchdog and the clock enabled and the given watchdog overrides. *)
Definition sample_platform (wdog_timeout wdog_wait : option Z) : platform :=
  {| regmap_init_err := None; kzalloc_fails := false;
     hwmon_register_err := None; watchdog_register_ret := 0;
     rtc_register_err := None; prop_wdog_enabled := true;
     prop_wdog_nowayout := false; prop_wdog_timeout := wdog_timeout;
     prop_wdog_wait := wdog_wait; prop_rtc_enabled := true |}.

(** Registers of a device that identifies itself as an SD109, started from
    power-up, with a watchdog timeout of 30 s and a wait of 45 s, and 5012 mV
    on the first channel. *)
Definition sample_regs (r : Z) : Z :=
  if r =? SD109_CHIP_ID_REG then SD109_CHIP_ID
  else if r =? SD109_CHIP_VER_REG then 0x0102
  else if r =? SD109_STATUS then SD109_STATUS_POWERUP
  else if r =? SD109_WDOG_TIMEOUT then 0x091E
  else if r =? SD109_VOLTAGE_5V_BOARD then 5012
  else 0.

(** A register map with an empty trace. *)
Definition fresh_regmap (r : Z -> Z) (f : nat -> option positive) : regmap :=
  {| regs := r; fault := f; trace := [] |}.

(** The world before the driver is bound. *)
Definition unbound_world (p : platform) (m : regmap) (j : Z) : world :=
  {| data := zero_data; bus := m; jiffies := j; klog := []; plat := p;
     hwmon_registered := false; wdd_registered := false;
     rtc_registered := false; notifier_registered := false;
     wdt_info_firmware_version := 0; notify_data := false |}.

(** The world once [sd109_probe] has run on a 64-bit kernel. *)
Definition bound_world (p : platform) (m : regmap) (j : Z) : world :=
  after (sd109_probe (K := linux64)) (unbound_world p m j).

(** A world about to run [sd109_wdog_init], the private data holding the
    watchdog overrides [to] and [wt] as [sd109_probe] stores them. *)
Definition overlay_world (to wt : Z) : world :=
  set_data (set_overlay_wdog_wait wt (set_overlay_wdog_timeout to zero_data))
    (unbound_world (sample_platform None None)
       (fresh_regmap sample_regs (fun _ => None)) 1000).

(** The bus fails at its [n]-th transaction with [-EIO], and only there. *)
Definition fails_at (n : nat) : nat -> option positive :=
  fun i => if Nat.eqb i n then Some 5%positive else None.

(** A bound device whose first register access after the probe fails: the
    probe itself issues four reads. *)
Definition failing_world : world :=
  bound_world (sample_platform None None)
    (fresh_regmap sample_regs (fails_at 4)) 1000.

(** A bound device on a bus that works. *)
Definition working_world : world :=
  bound_world (sample_platform None None)
    (fresh_regmap sample_regs (fun _ => None)) 1000.


(** ** HWMON labels and visibility *)

(** [S_IRUGO] of linux/stat.h: read permission for user, group and others. *)
Definition S_IRUGO : Z := 0x124.

(** The write permission bits [S_IWUGO]. *)
Definition S_IWUGO : Z := 0x92.

(** [sd109_read_string(dev, type, attr, channel, str)]: the status and the
    new content of [*str], [None] being the null pointer. *)
Definition sd109_read_string (type : hwmon_sensor_types) (attr : hwmon_in_attr)
    (channel : Z) (str : option string) : Z * option string :=
  match type with
  | hwmon_in =>
      match attr with
      | hwmon_in_label =>
          if channel =? 0 then (0, Some "BOARD 5V"%string)
          else if channel =? 1 then (0, Some "SoC 5V"%string)
          else if channel =? 2 then (0, Some "SoC 3V3"%string)
          else if channel =? 3 then (0, Some "SoC 1V8"%string)
          else if channel =? 4 then (0, Some "Vin 24V"%string)
          else (- EOPNOTSUPP, None)
      | _ => (- EOPNOTSUPP, str)
      end
  | _ => (- EOPNOTSUPP, str)
  end.

(** [sd109_is_visible(data, type, attr, channel)]: the file mode. *)
Definition sd109_is_visible (type : hwmon_sensor_types) (attr : hwmon_in_attr)
    (channel : Z) : Z :=
  match type with
  | hwmon_in =>
      match attr with
      | hwmon_in_input => S_IRUGO
      | hwmon_in_label => S_IRUGO
      | hwmon_in_max => S_IRUGO
      | hwmon_in_min => S_IRUGO
      | _ => 0
      end
  | _ => 0
  end.

(** ** Vocabulary of the further properties *)

(** The voltage cells hold 16-bit values, as their type [u16] has it. *)
Definition cells_u16 (d : sd109_private) : Prop :=
  Forall is_word16 (volt d) /\ Forall is_word16 (volt_max d) /\
  Forall is_word16 (volt_min d).

(** The status a transaction returns: [0], or the negative errno of its
    fault. *)
Definition fault_status (o : option positive) : Z :=
  match o with
  | Some e => Z.neg e
  | None => 0
  end.

(** A computation started where [P] holds ends with a result and a world
    related by [Q]. *)
Definition hoare {A} (P : world -> Prop) (m : M A)
    (Q : A -> world -> Prop) : Prop :=
  forall w, P w -> Q (result m w) (after m w).

(** A computation that leaves the part [f] of the world as it finds it. *)
Definition keeps {X A} (f : world -> X) (m : M A) : Prop :=
  forall w, f (after m w) = f w.

(** A property of the part [f] of the world. *)
Definition on {X} (f : world -> X) (F : X -> Prop) : world -> Prop :=
  fun w => F (f w).

(** What is registered with the kernel: hwmon device, watchdog device, rtc
    device, reboot notifier. *)
Definition registrations (w : world) : bool * bool * bool * bool :=
  (hwmon_registered w, wdd_registered w, rtc_registered w,
   notifier_registered w).

(** The parts of the private data the three facades work on: the voltage
    cache, the watchdog fields, the alarm flags. *)
Definition cache_part (w : world) :=
  let d := data w in
  (volt_valid d, volt d, volt_updated d,
   (volt_max_valid d, volt_max d, volt_max_updated d),
   (volt_min_valid d, volt_min d, volt_min_updated d)).

Definition wdog_part (w : world) :=
  let d := data w in
  (wdd d, overlay_wdog_nowayout d, overlay_wdog_timeout d, overlay_wdog_wait d,
   (device_wdog_timeout d, device_wdog_wait d, wdog_wait d)).

Definition alarm_part (w : world) : bool * bool :=
  (alarm_enabled (data w), alarm_pending (data w)).

(** The private data once [sd109_probe] has stored the watchdog properties
    of the platform [p] in it: the no-way-out flag, then the timeout and the
    wait, [-1] standing for a property that is absent. *)
Definition overlay_of_props (p : platform) (d : sd109_private) : sd109_private :=
  let d := if prop_wdog_nowayout p then set_overlay_wdog_nowayout true d else d in
  let d :=
    set_overlay_wdog_timeout
      (match prop_wdog_timeout p with None => -1 | Some v => to_int v end) d in
  set_overlay_wdog_wait
    (match prop_wdog_wait p with None => -1 | Some v => to_int v end) d.

(** The private data once a getter has stored the value [v] read at tick
    [j] in the slot of kind [k] and channel [ch]: the three assignments of
    the getter, in their order. *)
Definition refresh_slot (k : volt_kind) (ch v j : Z) (d : sd109_private)
    : sd109_private :=
  match k with
  | Input =>
      let d := set_volt (arr_set (volt d) ch v) d in
      let d := set_volt_updated (arr_set (volt_updated d) ch j) d in
      set_volt_valid (arr_set (volt_valid d) ch true) d
  | Min =>
      let d := set_volt_min (arr_set (volt_min d) ch v) d in
      let d := set_volt_min_updated (arr_set (volt_min_updated d) ch j) d in
      set_volt_min_valid (arr_set (volt_min_valid d) ch true) d
  | Max =>
      let d := set_volt_max (arr_set (volt_max d) ch v) d in
      let d := set_volt_max_updated (arr_set (volt_max_updated d) ch j) d in
      set_volt_max_valid (arr_set (volt_max_valid d) ch true) d
  end.

(** A bound device whose second register access after the probe fails. *)
Definition failing_second_world : world :=
  bound_world (sample_platform None None)
    (fresh_regmap sample_regs (fails_at 5)) 1000.

(** A platform without watchdog whose clock fails to register (with
    [-EBUSY]). *)
Definition clockless_platform : platform :=
  {| regmap_init_err := None; kzalloc_fails := false;
     hwmon_register_err := None; watchdog_register_ret := 0;
     rtc_register_err := Some 16%positive; prop_wdog_enabled := false;
     prop_wdog_nowayout := false; prop_wdog_timeout := None;
     prop_wdog_wait := None; prop_rtc_enabled := true |}.

(** The sample device before the driver is bound. *)
Definition sample_unbound (p : platform) : world :=
  unbound_world p (fresh_regmap sample_regs (fun _ => None)) 1000.

(** * Properties *)

(** ** Bits of register words *)

Lemma testbit_mask16 (n : Z) : 0 <= n -> Z.testbit 0xffff n = (n <? 16).
Proof.
  intros Hn. change 0xffff with (Z.ones 16).
  destruct (Z.ltb_spec n 16).
  - apply Z.ones_spec_low; lia.
  - apply Z.ones_spec_high; lia.
Qed.

Lemma testbit_above (v k n : Z) :
  0 <= v < 2 ^ k -> k <= n -> Z.testbit v n = false.
Proof.
  intros [Hv0 Hv] Hn.
  destruct (Z.eq_dec v 0) as [->|Hne]; [apply Z.bits_0|].
  apply Z.bits_above_log2; [lia|].
  assert (Z.log2 v < k) by (apply Z.log2_lt_pow2; lia). lia.
Qed.

Lemma land_mask16_range (v : Z) : 0 <= Z.land v 0xffff < 2 ^ 16.
Proof.
  change 0xffff with (Z.ones 16). rewrite Z.land_ones by lia.
  apply Z.mod_pos_bound. lia.
Qed.

Lemma land_mask16_id (v : Z) : 0 <= v < 2 ^ 16 -> Z.land v 0xffff = v.
Proof.
  intros Hv. change 0xffff with (Z.ones 16). rewrite Z.land_ones by lia.
  apply Z.mod_small. lia.
Qed.

Lemma below_of_bits (v k : Z) :
  0 <= k -> 0 <= v -> (forall n, k <= n -> Z.testbit v n = false) -> v < 2 ^ k.
Proof.
  intros Hk Hv Hbits.
  assert (Hmod : v = v mod 2 ^ k).
  { apply Z.bits_inj'. intros n Hn.
    destruct (Z.lt_ge_cases n k).
    - now rewrite Z.mod_pow2_bits_low by lia.
    - rewrite Z.mod_pow2_bits_high by lia. now apply Hbits. }
  rewrite Hmod. apply Z.mod_pos_bound. lia.
Qed.

(** Rewrites the bit at a non-negative index of a term built from the
    operators of the codecs. *)
Ltac bits_of :=
  repeat match goal with
  | |- context [Z.testbit (Z.lor _ _) _] => rewrite Z.lor_spec
  | |- context [Z.testbit (Z.land _ _) _] => rewrite Z.land_spec
  | |- context [Z.testbit (Z.shiftl ?a ?k) ?n] =>
      first [ rewrite (Z.shiftl_spec_low a k n) by lia
            | rewrite (Z.shiftl_spec a k n) by lia ]
  | |- context [Z.testbit (Z.shiftr ?a ?k) ?n] =>
      rewrite (Z.shiftr_spec a k n) by lia
  | |- context [Z.testbit 0xffff ?n] => rewrite (testbit_mask16 n) by lia
  end.

Ltac bits_cases n :=
  destruct (Z.ltb_spec n 16); destruct (Z.ltb_spec n 32);
  destruct (Z.ltb_spec n 48); try lia.

Ltac split_ltb :=
  repeat match goal with
  | |- context [?a <? ?b] => destruct (Z.ltb_spec a b); try lia
  | |- context [Z.testbit ?a ?m] => rewrite (Z.testbit_neg_r a m) by lia
  end;
  rewrite ?andb_true_r, ?andb_false_r, ?orb_false_r, ?orb_false_l.

(** ** Time codec *)

Lemma time_encode_words16 (t : Z) : words16 (time_encode t).
Proof.
  unfold words16, time_encode, is_word16, time_word0, time_word1, time_word2.
  repeat split; apply land_mask16_range.
Qed.

Lemma time_decode_encode (t : Z) :
  0 <= t <= RTC_MAX_TIME -> time_decode (time_encode t) = t.
Proof.
  unfold RTC_MAX_TIME. intros Ht.
  unfold time_decode, time_encode, time_word0, time_word1, time_word2.
  apply Z.bits_inj'. intros n Hn.
  assert (Hhigh : 48 <= n -> Z.testbit t n = false)
    by (intros; apply (testbit_above t 48); lia).
  bits_cases n; bits_of;
    repeat match goal with
    | |- context [?a <? ?b] => destruct (Z.ltb_spec a b); try lia
    end;
    rewrite ?andb_true_r, ?andb_false_r, ?orb_false_r, ?orb_false_l;
    try reflexivity; try (f_equal; lia).
  symmetry. apply Hhigh. lia.
Qed.

Lemma time_decode_range (ws : Z * Z * Z) : 0 <= time_decode ws <= RTC_MAX_TIME.
Proof.
  destruct ws as [[w0 w1] w2]. unfold time_decode, RTC_MAX_TIME.
  pose proof (land_mask16_range w0). pose proof (land_mask16_range w1).
  pose proof (land_mask16_range w2).
  assert (Hnn : 0 <= Z.lor (Z.lor (Z.land w0 0xffff)
                  (Z.shiftl (Z.land w1 0xffff) 16))
                  (Z.shiftl (Z.land w2 0xffff) 32)).
  { rewrite !Z.lor_nonneg, !Z.shiftl_nonneg. lia. }
  split; [exact Hnn|].
  enough (Z.lor (Z.lor (Z.land w0 0xffff) (Z.shiftl (Z.land w1 0xffff) 16))
                (Z.shiftl (Z.land w2 0xffff) 32) < 2 ^ 48) by lia.
  apply below_of_bits; [lia|exact Hnn|].
  intros n Hn. bits_of. split_ltb; reflexivity.
Qed.

Lemma time_encode_decode (ws : Z * Z * Z) :
  words16 ws -> time_encode (time_decode ws) = ws.
Proof.
  destruct ws as [[w0 w1] w2]. intros (H0 & H1 & H2).
  unfold is_word16 in *.
  assert (Hb0 : forall n, 16 <= n -> Z.testbit w0 n = false)
    by (intros; apply (testbit_above w0 16); lia).
  assert (Hb1 : forall n, 16 <= n -> Z.testbit w1 n = false)
    by (intros; apply (testbit_above w1 16); lia).
  assert (Hb2 : forall n, 16 <= n -> Z.testbit w2 n = false)
    by (intros; apply (testbit_above w2 16); lia).
  unfold time_encode, time_decode, time_word0, time_word1, time_word2.
  repeat f_equal; apply Z.bits_inj'; intros n Hn; bits_of; split_ltb;
    rewrite ?Hb0, ?Hb1, ?Hb2 by lia;
    rewrite ?andb_false_l, ?orb_false_r, ?orb_false_l;
    try reflexivity; try (f_equal; lia).
Qed.

(** ** Watchdog bitfield *)

Lemma wdog_reg_value_eq (wait to : Z) :
  wdog_reg_value wait to =
    Z.lor (Z.shiftl (Z.quot wait 5 mod 256) 8) (to mod 256).
Proof.
  unfold wdog_reg_value, SD109_WDOG_WAIT_POS, SD109_WDOG_WAIT_MASK,
    SD109_WDOG_TIMEOUT_MASK, SD109_WDOG_TIMEOUT_POS.
  change 0xFF00 with (Z.shiftl (Z.ones 8) 8). change 0x00FF with (Z.ones 8).
  rewrite <- Z.shiftl_land, Z.shiftl_0_r, !Z.land_ones by lia.
  reflexivity.
Qed.

Lemma wdog_reg_value_high (wait to : Z) :
  Z.shiftr (wdog_reg_value wait to) 8 = Z.quot wait 5 mod 256.
Proof.
  rewrite wdog_reg_value_eq, Z.shiftr_lor.
  rewrite Z.shiftr_shiftl_l, Z.shiftl_0_r by lia.
  rewrite (Z.shiftr_div_pow2 (to mod 256)) by lia.
  rewrite Z.div_small by (apply Z.mod_pos_bound; lia).
  apply Z.lor_0_r.
Qed.

Lemma wdog_reg_value_low (wait to : Z) :
  Z.land (wdog_reg_value wait to) 0xFF = to mod 256.
Proof.
  rewrite wdog_reg_value_eq, Z.land_lor_distr_l.
  change 0xFF with (Z.ones 8). rewrite !Z.land_ones by lia.
  rewrite Z.shiftl_mul_pow2 by lia. rewrite Z.mod_mul by lia.
  rewrite Z.mod_mod by lia. apply Z.lor_0_l.
Qed.

(** Unpacking what was packed: the timeout modulo 256, and the wait rounded
    down to a multiple of 5, its count of 5-second steps taken modulo 256. *)
Lemma wdog_unpack_pack (wait to : Z) :
  wdog_timeout_of (wdog_reg_value wait to) = to mod 256 /\
  wdog_wait_of (wdog_reg_value wait to) = Z.quot wait 5 mod 256 * 5.
Proof.
  unfold wdog_timeout_of, wdog_wait_of, SD109_WDOG_TIMEOUT_MASK,
    SD109_WDOG_TIMEOUT_POS, SD109_WDOG_WAIT_MASK, SD109_WDOG_WAIT_POS.
  split.
  - rewrite Z.shiftr_0_r. apply wdog_reg_value_low.
  - f_equal. rewrite Z.shiftr_land, wdog_reg_value_high.
    change (Z.shiftr 0xFF00 8) with (Z.ones 8).
    rewrite Z.land_ones by lia. apply Z.mod_mod. lia.
Qed.

Lemma wdog_timeout_of_range (tinfo : Z) : 0 <= wdog_timeout_of tinfo < 256.
Proof.
  unfold wdog_timeout_of, SD109_WDOG_TIMEOUT_MASK, SD109_WDOG_TIMEOUT_POS.
  rewrite Z.shiftr_0_r. change 0x00FF with (Z.ones 8).
  rewrite Z.land_ones by lia. apply Z.mod_pos_bound. lia.
Qed.

Lemma to_uint_small (z : Z) : 0 <= z < 2 ^ 32 -> to_uint z = z.
Proof. intros. unfold to_uint. now apply Z.mod_small. Qed.

Lemma to_uint_to_int (v : Z) : 0 <= v < 2 ^ 32 -> to_uint (to_int v) = v.
Proof.
  intros Hv. unfold to_uint, to_int.
  rewrite Zminus_mod_idemp_l.
  replace (v + 2 ^ 31 - 2 ^ 31) with v by lia. now apply Z.mod_small.
Qed.

(** ** Reasoning about driver computations *)

(** Evaluation of a computation, keeping the integer operators folded. *)
Ltac drv_eval :=
  cbn -[Z.land Z.lor Z.shiftl Z.shiftr Z.quot Z.div Z.modulo Z.mul Z.add
        Z.sub Z.opp Z.pow Z.ltb Z.eqb Z.leb Z.to_nat Z.of_nat
        time_word0 time_word1 time_word2 wdog_reg_value wdog_timeout_of
        wdog_wait_of to_u16 to_u8 to_int to_uint] in *.

Ltac drv_unfold :=
  unfold result, after, bind, ret, gets, modify, dev_log, update_data,
    regmap_read, regmap_write in *.

(** Decides the comparisons of the goal whose operands are constants. *)
Ltac is_pos_lit p :=
  lazymatch p with
  | xH => idtac
  | xI ?q => is_pos_lit q
  | xO ?q => is_pos_lit q
  end.

Ltac is_Z_lit z :=
  lazymatch z with
  | Z0 => idtac
  | Zpos ?p => is_pos_lit p
  | Zneg ?p => is_pos_lit p
  end.

Ltac eval_tests :=
  repeat match goal with
  | |- context [Z.eqb ?a ?b] =>
      let a' := eval hnf in a in
      let b' := eval hnf in b in
      is_Z_lit a'; is_Z_lit b';
      let v := eval cbv in (Z.eqb a' b') in
      change (Z.eqb a b) with v
  | |- context [Z.ltb ?a ?b] =>
      let a' := eval hnf in a in
      let b' := eval hnf in b in
      is_Z_lit a'; is_Z_lit b';
      let v := eval cbv in (Z.ltb a' b') in
      change (Z.ltb a b) with v
  end.

Ltac drv_run := drv_unfold; repeat (progress (drv_eval; eval_tests)).

(** Case analysis on the outcome of the next bus transaction. *)
Ltac case_fault :=
  match goal with
  | |- context [match fault ?m ?n with _ => _ end] =>
      let E := fresh "Efault" in destruct (fault m n) eqn:E
  end.

Ltac case_cond :=
  match goal with
  | |- context [if negb ?b then _ else _] =>
      let E := fresh "Econd" in destruct b eqn:E
  | |- context [if ?b then _ else _] =>
      let E := fresh "Econd" in destruct b eqn:E
  end.

(** ** Sample devices *)

Example bound_world_probe_ok :
  result (sd109_probe (K := linux64))
    (unbound_world (sample_platform None None)
       (fresh_regmap sample_regs (fun _ => None)) 1000) = 0.
Proof. reflexivity. Qed.

Example bound_world_registered :
  let w := bound_world (sample_platform None None)
             (fresh_regmap sample_regs (fun _ => None)) 1000 in
  hwmon_registered w = true /\ wdd_registered w = true /\
  rtc_registered w = true /\ notifier_registered w = true /\
  timeout (wdd (data w)) = 30 /\ wdog_wait (data w) = 45 /\
  trace (bus w) = [BusRead SD109_CHIP_ID_REG; BusRead SD109_CHIP_VER_REG;
                   BusRead SD109_STATUS; BusRead SD109_WDOG_TIMEOUT].
Proof. vm_compute. repeat split; reflexivity. Qed.

(** ** The arrays keep their size

    [keeps_wf m]: the computation [m] leaves arrays of the declared size
    when it finds them so. The rules follow the structure of computations. *)

Lemma bind_gets {A B} (f : world -> A) (k : A -> M B) (w : world) :
  bind (gets f) k w = k (f w) w.
Proof. reflexivity. Qed.

Lemma bind_modify {B} (f : world -> world) (k : unit -> M B) (w : world) :
  bind (modify f) k w = k tt (f w).
Proof. reflexivity. Qed.

Lemma keeps_wf_ret {A} (a : A) : keeps_wf (ret a).
Proof. intros w Hwf. exact Hwf. Qed.

Lemma keeps_wf_bind {A B} (m : M A) (k : A -> M B) :
  keeps_wf m -> (forall a, keeps_wf (k a)) -> keeps_wf (bind m k).
Proof.
  intros Hm Hk w Hwf. unfold after, bind.
  specialize (Hm w Hwf). unfold after in Hm.
  destruct (m w) as [a w1]. exact (Hk a w1 Hm).
Qed.

Lemma keeps_wf_gets {A} (f : world -> A) : keeps_wf (gets f).
Proof. intros w Hwf. exact Hwf. Qed.

Lemma keeps_wf_modify (f : world -> world) :
  (forall w, data (f w) = data w) -> keeps_wf (modify f).
Proof. intros Hf w Hwf. unfold after, modify. cbn. now rewrite Hf. Qed.

Lemma keeps_wf_update_data (f : sd109_private -> sd109_private) :
  (forall d, wf_data d -> wf_data (f d)) -> keeps_wf (update_data f).
Proof. intros Hf w Hwf. unfold after, update_data, modify. cbn. now apply Hf. Qed.

Lemma keeps_wf_dev_log (msg : string) : keeps_wf (dev_log msg).
Proof. intros w Hwf. exact Hwf. Qed.

Lemma keeps_wf_regmap_read (reg val : Z) : keeps_wf (regmap_read reg val).
Proof.
  intros w Hwf. unfold after, regmap_read.
  destruct (fault _ _); exact Hwf.
Qed.

Lemma keeps_wf_regmap_write (reg val : Z) : keeps_wf (regmap_write reg val).
Proof.
  intros w Hwf. unfold after, regmap_write.
  destruct (fault _ _); exact Hwf.
Qed.

(** The size of the arrays after a field update. *)
Ltac wf_side :=
  unfold wf_data, arr_set in *; cbn in *; rewrite ?length_insert; tauto.

(** Applies the rules along a computation; what is left are calls of
    driver functions. *)
Ltac keeps_wf_step :=
  first
    [ apply keeps_wf_ret
    | apply keeps_wf_gets
    | apply keeps_wf_dev_log
    | apply keeps_wf_regmap_read
    | apply keeps_wf_regmap_write
    | apply keeps_wf_modify; intros; reflexivity
    | apply keeps_wf_update_data; intros ? ?; try case_cond; wf_side
    | apply keeps_wf_bind; [|intros ?]
    | match goal with
      | |- keeps_wf (if ?b then _ else _) => destruct b
      | |- keeps_wf (match ?o with Some _ => _ | None => _ end) => destruct o
      | |- keeps_wf (let '(_, _) := ?p in _) => destruct p
      end ].

Section Invariant.

Context {K : Kernel}.

Lemma keeps_wf_get_voltage (k : volt_kind) (ch : Z) :
  keeps_wf (get_voltage_of k ch).
Proof.
  destruct k; cbn [get_voltage_of];
    [unfold sd109_get_voltage | unfold sd109_get_voltage_min
     | unfold sd109_get_voltage_max];
    repeat keeps_wf_step.
Qed.

Lemma keeps_wf_read_in (attr : hwmon_in_attr) (channel val : Z) :
  keeps_wf (sd109_read_in attr channel val).
Proof.
  unfold sd109_read_in.
  destruct attr;
    repeat first [ apply (keeps_wf_get_voltage Input)
                 | apply (keeps_wf_get_voltage Min)
                 | apply (keeps_wf_get_voltage Max)
                 | keeps_wf_step ].
Qed.

Lemma keeps_wf_settimeout (to : Z) : keeps_wf (sd109_wdt_settimeout to).
Proof. unfold sd109_wdt_settimeout. repeat keeps_wf_step. Qed.

Lemma keeps_wf_wdog_init : keeps_wf sd109_wdog_init.
Proof.
  unfold sd109_wdog_init.
  repeat first [apply keeps_wf_settimeout | keeps_wf_step].
Qed.

Lemma keeps_wf_rtc_set_time (t : Z) : keeps_wf (sd109_rtc_set_time t).
Proof. unfold sd109_rtc_set_time. repeat keeps_wf_step. Qed.

Lemma keeps_wf_rtc_read_time (tm : Z) : keeps_wf (sd109_rtc_read_time tm).
Proof. unfold sd109_rtc_read_time. repeat keeps_wf_step. Qed.

Lemma keeps_wf_rtc_set_alarm (alrm : rtc_wkalrm) :
  keeps_wf (sd109_rtc_set_alarm alrm).
Proof. unfold sd109_rtc_set_alarm. repeat keeps_wf_step. Qed.

Lemma keeps_wf_rtc_read_alarm (alrm : rtc_wkalrm) :
  keeps_wf (sd109_rtc_read_alarm alrm).
Proof. unfold sd109_rtc_read_alarm. repeat keeps_wf_step. Qed.

Lemma keeps_wf_alarm_irq_enable (enabled : Z) :
  keeps_wf (sd109_alarm_irq_enable enabled).
Proof. unfold sd109_alarm_irq_enable. repeat keeps_wf_step. Qed.

Lemma keeps_wf_notify_reboot (code : Z) : keeps_wf (sd109_notify_reboot code).
Proof. unfold sd109_notify_reboot. repeat keeps_wf_step. Qed.

Lemma keeps_wf_rtc_init : keeps_wf sd109_rtc_init.
Proof. unfold sd109_rtc_init. repeat keeps_wf_step. Qed.

Lemma keeps_wf_probe_wdog (val : Z) : keeps_wf (probe_wdog val).
Proof.
  unfold probe_wdog. repeat first [apply keeps_wf_wdog_init | keeps_wf_step].
Qed.

(** A probe that succeeds leaves arrays of the declared size. *)
Lemma sd109_probe_wf (w : world) :
  result sd109_probe w = 0 -> wf_data (data (after sd109_probe w)).
Proof.
  unfold sd109_probe, result, after.
  rewrite !bind_gets.
  destruct (regmap_init_err (plat w)); [cbn; intros; lia|].
  destruct (kzalloc_fails (plat w)); [cbn; unfold ENOMEM; intros; lia|].
  intros _. rewrite bind_modify.
  match goal with
  | |- wf_data (data (snd (?m ?w0))) =>
      change (wf_data (data (after m w0)));
      assert (Hkeeps : keeps_wf m)
        by (repeat first [ apply keeps_wf_probe_wdog
                         | apply keeps_wf_rtc_init | keeps_wf_step ]);
      apply Hkeeps
  end.
  unfold wf_data. cbn. repeat split; reflexivity.
Qed.

End Invariant.

(** ** Real time clock *)

Lemma sd109_rtc_set_time_ok (t : Z) (w : world) :
  t <= RTC_MAX_TIME -> no_fault w ->
  sd109_rtc_set_time t w =
    (0, set_bus (store SD109_RTC2 (Z.land (time_word2 t) 0xffff)
         (log_op (BusWrite SD109_RTC2 (time_word2 t))
         (store SD109_RTC1 (Z.land (time_word1 t) 0xffff)
         (log_op (BusWrite SD109_RTC1 (time_word1 t))
         (store SD109_RTC0 (Z.land (time_word0 t) 0xffff)
         (log_op (BusWrite SD109_RTC0 (time_word0 t)) (bus w))))))) w).
Proof.
  intros Ht Hnf. unfold sd109_rtc_set_time.
  destruct (Z.ltb_spec RTC_MAX_TIME t); [lia|].
  drv_run. rewrite !Hnf. drv_run. rewrite !Hnf. drv_run. rewrite !Hnf. drv_run.
  reflexivity.
Qed.

Lemma sd109_rtc_read_time_ok (tm : Z) (w : world) :
  no_fault w ->
  result (sd109_rtc_read_time tm) w =
    (0, time_decode (regs (bus w) SD109_RTC0, regs (bus w) SD109_RTC1,
                     regs (bus w) SD109_RTC2)).
Proof.
  intros Hnf. unfold sd109_rtc_read_time.
  drv_run. rewrite !Hnf. drv_run. rewrite !Hnf. drv_run. rewrite !Hnf. drv_run.
  unfold time_decode.
  rewrite !(land_mask16_id (Z.land _ _)) by apply land_mask16_range.
  reflexivity.
Qed.

Lemma sd109_rtc_set_alarm_ok (alrm : rtc_wkalrm) (w : world) :
  alrm_time alrm <= RTC_MAX_TIME -> no_fault w ->
  let t := alrm_time alrm in
  let d := set_alarm_pending (to_bool (alrm_pending alrm))
             (set_alarm_enabled (to_bool (alrm_enabled alrm)) (data w)) in
  sd109_rtc_set_alarm alrm w =
    (0, set_bus (store SD109_WAKEUP2 (Z.land (time_word2 t) 0xffff)
         (log_op (BusWrite SD109_WAKEUP2 (time_word2 t))
         (store SD109_WAKEUP1 (Z.land (time_word1 t) 0xffff)
         (log_op (BusWrite SD109_WAKEUP1 (time_word1 t))
         (store SD109_WAKEUP0 (Z.land (time_word0 t) 0xffff)
         (log_op (BusWrite SD109_WAKEUP0 (time_word0 t)) (bus w)))))))
         (set_data d w)).
Proof.
  intros Ht Hnf. unfold sd109_rtc_set_alarm.
  destruct (Z.ltb_spec RTC_MAX_TIME (alrm_time alrm)); [lia|].
  drv_run. rewrite !Hnf. drv_run. rewrite !Hnf. drv_run. rewrite !Hnf. drv_run.
  reflexivity.
Qed.

Lemma sd109_rtc_read_alarm_ok (alrm : rtc_wkalrm) (w : world) :
  no_fault w ->
  result (sd109_rtc_read_alarm alrm) w =
    (0, {| alrm_enabled := Z.b2z (alarm_enabled (data w));
           alrm_pending := Z.b2z (alarm_pending (data w));
           alrm_time := time_decode (regs (bus w) SD109_WAKEUP0,
                                     regs (bus w) SD109_WAKEUP1,
                                     regs (bus w) SD109_WAKEUP2) |}).
Proof.
  intros Hnf. unfold sd109_rtc_read_alarm.
  drv_run. rewrite !Hnf. drv_run. rewrite !Hnf. drv_run. rewrite !Hnf. drv_run.
  unfold time_decode.
  rewrite !(land_mask16_id (Z.land _ _)) by apply land_mask16_range.
  reflexivity.
Qed.

(** The words [sd109_rtc_set_time] sends are those of [time_encode], in the
    order 0, 1, 2. *)
Lemma sd109_rtc_set_time_trace (t : Z) (w : world) :
  t <= RTC_MAX_TIME -> no_fault w ->
  trace (bus (after (sd109_rtc_set_time t) w)) =
    trace (bus w) ++
      (let '(w0, w1, w2) := time_encode t in
       [BusWrite SD109_RTC0 w0; BusWrite SD109_RTC1 w1; BusWrite SD109_RTC2 w2]).
Proof.
  intros Ht Hnf. unfold after. rewrite sd109_rtc_set_time_ok by assumption.
  cbn. now rewrite <- !app_assoc.
Qed.

(** Clock and alarm: what was set is what is read back, on a device that
    keeps its registers and a bus that works. *)
Lemma set_time_read_time (t tm : Z) (w : world) :
  0 <= t <= RTC_MAX_TIME -> no_fault w ->
  result (sd109_rtc_set_time t) w = 0 /\
  result (sd109_rtc_read_time tm) (after (sd109_rtc_set_time t) w) = (0, t).
Proof.
  intros Ht Hnf. unfold result at 1, after.
  rewrite sd109_rtc_set_time_ok by (assumption || lia).
  split; [reflexivity|].
  rewrite sd109_rtc_read_time_ok by (intros n; apply Hnf).
  drv_run.
  rewrite <- (time_decode_encode t) at 4 by assumption.
  unfold time_decode, time_encode.
  rewrite !(land_mask16_id (Z.land _ _)) by apply land_mask16_range.
  reflexivity.
Qed.

Lemma set_alarm_read_alarm (alrm old : rtc_wkalrm) (w : world) :
  0 <= alrm_time alrm <= RTC_MAX_TIME -> no_fault w ->
  result (sd109_rtc_set_alarm alrm) w = 0 /\
  result (sd109_rtc_read_alarm old) (after (sd109_rtc_set_alarm alrm) w) =
    (0, {| alrm_enabled := Z.b2z (to_bool (alrm_enabled alrm));
           alrm_pending := Z.b2z (to_bool (alrm_pending alrm));
           alrm_time := alrm_time alrm |}).
Proof.
  intros Ht Hnf. unfold result at 1, after.
  rewrite sd109_rtc_set_alarm_ok by (assumption || lia).
  split; [reflexivity|].
  rewrite sd109_rtc_read_alarm_ok by (intros n; apply Hnf).
  drv_run.
  rewrite <- (time_decode_encode (alrm_time alrm)) at 4 by assumption.
  unfold time_decode, time_encode.
  rewrite !(land_mask16_id (Z.land _ _)) by apply land_mask16_range.
  reflexivity.
Qed.

(** ** Voltage cache *)

Section VoltageCache.

Context {K : Kernel}.

(** The voltage registers lie within the register map
    ([sd109_regmap_config.max_register] is [SD109_NUM_REGS - 1]). *)
Lemma voltage_reg_in_map (k : volt_kind) (ch : Z) :
  0 <= ch < NUM_CH_VIN -> 0 <= kind_base k + ch * 3 <= SD109_NUM_REGS - 1.
Proof.
  unfold NUM_CH_VIN, SD109_NUM_REGS. intros Hch.
  destruct k; cbn [kind_base];
    unfold SD109_VOLTAGE_5V_BOARD, SD109_VOLTAGE_5V_BOARD_MIN,
      SD109_VOLTAGE_5V_BOARD_MAX; lia.
Qed.

Lemma to_u8_small (z : Z) : 0 <= z < NUM_CH_VIN -> to_u8 z = z.
Proof. unfold NUM_CH_VIN, to_u8. intros. apply Z.mod_small. lia. Qed.

Lemma to_u16_land (z : Z) : to_u16 (Z.land z 0xffff) = Z.land z 0xffff.
Proof.
  unfold to_u16. apply Z.mod_small. apply land_mask16_range.
Qed.

Lemma read_in_kind (k : volt_kind) (channel val : Z) (w : world) :
  0 <= channel < NUM_CH_VIN ->
  sd109_read_in (kind_attr k) channel val w =
    ((0, fst (get_voltage_of k channel w)), snd (get_voltage_of k channel w)).
Proof.
  intros Hch. unfold sd109_read_in.
  rewrite (to_u8_small channel Hch).
  destruct (Z.ltb_spec channel NUM_CH_VIN); [|lia].
  destruct k; cbn [kind_attr get_voltage_of]; unfold bind, ret;
    match goal with |- context [?g channel w] => destruct (g channel w) end;
    reflexivity.
Qed.

(** A getter whose register read fails. *)
Lemma get_voltage_failed (k : volt_kind) (ch : Z) (w : world) (e : positive) :
  ch < NUM_CH_VIN ->
  needs_refresh k ch w = true ->
  fault (bus w) (length (trace (bus w))) = Some e ->
  get_voltage_of k ch w =
    (0, set_klog (klog w ++ [kind_diag k])
          (set_bus (log_op (BusRead (kind_base k + ch * 3)) (bus w)) w)).
Proof.
  intros Hch Hstale Hfail. unfold needs_refresh in Hstale.
  destruct (Z.ltb_spec ch NUM_CH_VIN) as [_|]; [|lia].
  destruct k; cbn [get_voltage_of slot_updated slot_valid kind_diag kind_base] in *;
    [unfold sd109_get_voltage | unfold sd109_get_voltage_min
     | unfold sd109_get_voltage_max];
    destruct (Z.ltb_spec ch NUM_CH_VIN); try lia;
    drv_run; rewrite Hstale, Hfail; drv_run; reflexivity.
Qed.

(** A getter whose slot is valid and fresh. *)
Lemma get_voltage_cached (k : volt_kind) (ch : Z) (w : world) :
  ch < NUM_CH_VIN ->
  needs_refresh k ch w = false ->
  get_voltage_of k ch w = (slot_value k (data w) ch, w).
Proof.
  intros Hch Hfresh. unfold needs_refresh in Hfresh.
  destruct k; cbn [get_voltage_of slot_updated slot_valid slot_value] in *;
    [unfold sd109_get_voltage | unfold sd109_get_voltage_min
     | unfold sd109_get_voltage_max];
    destruct (Z.ltb_spec ch NUM_CH_VIN); try lia;
    drv_run; rewrite Hfresh; reflexivity.
Qed.


(** *** Ticks *)

Lemma to_long_sub_mod (a b : Z) :
  to_long (to_ulong a - to_ulong b) = to_long (a - b).
Proof.
  unfold to_long, to_ulong. f_equal.
  set (M := 2 ^ BITS_PER_LONG). set (H := 2 ^ (BITS_PER_LONG - 1)).
  replace (a mod M - b mod M + H) with (a mod M + (H - b mod M)) by lia.
  rewrite Zplus_mod_idemp_l.
  replace (a + (H - b mod M)) with (a + H - b mod M) by lia.
  rewrite Zminus_mod_idemp_r. f_equal. lia.
Qed.

Lemma to_long_small (z : Z) :
  0 < BITS_PER_LONG ->
  - 2 ^ (BITS_PER_LONG - 1) <= z < 2 ^ (BITS_PER_LONG - 1) ->
  to_long z = z.
Proof.
  intros HB Hz. unfold to_long.
  replace (2 ^ BITS_PER_LONG) with (2 * 2 ^ (BITS_PER_LONG - 1)).
  - rewrite Z.mod_small; lia.
  - rewrite <- Z.pow_succ_r by lia. f_equal. lia.
Qed.

(** [d] ticks after a slot was refreshed at tick [u], the slot is older
    than [HZ] exactly when [HZ < d], as long as the distance fits the signed
    comparison of [time_after]. *)
Lemma time_after_elapsed (u d : Z) :
  0 < BITS_PER_LONG ->
  - 2 ^ (BITS_PER_LONG - 1) <= HZ - d < 2 ^ (BITS_PER_LONG - 1) ->
  time_after (to_ulong (u + d)) (to_ulong (u + HZ)) = (HZ <? d).
Proof.
  intros HB Hd. unfold time_after.
  rewrite to_long_sub_mod.
  replace (u + HZ - (u + d)) with (HZ - d) by lia.
  rewrite to_long_small by assumption.
  destruct (Z.ltb_spec (HZ - d) 0); destruct (Z.ltb_spec HZ d); lia.
Qed.


Lemma arr_get_set {A} `{Inhabited A} (a : list A) (i : Z) (x : A) :
  (Z.to_nat i < length a)%nat -> arr_get (arr_set a i x) i = x.
Proof.
  intros Hi. unfold arr_get, arr_set. now apply list_lookup_total_insert_eq.
Qed.


End VoltageCache.

(** ** Watchdog *)

Section SetTimeout.

Context {K : Kernel}.

(** [sd109_wdt_settimeout] records the timeout and returns [0] once its
    argument is accepted, whatever the outcome of the register write. *)
Lemma settimeout_ignores_write_status (to : Z) (w : world) :
  watchdog_timeout_invalid (wdd (data w)) to || (255 <? to) = false ->
  result (sd109_wdt_settimeout to) w = 0 /\
  timeout (wdd (data (after (sd109_wdt_settimeout to) w))) = to.
Proof.
  intros Hok. unfold sd109_wdt_settimeout. drv_run. rewrite Hok.
  case_fault; drv_run; split; reflexivity.
Qed.

End SetTimeout.

(** * The claims *)

(** C1. Encoding a time of [0, 2^48-1] into three 16-bit words, least
    significant first, as [sd109_rtc_set_time] and [sd109_rtc_set_alarm]
    do, and decoding the words as [sd109_rtc_read_time] and
    [sd109_rtc_read_alarm] do, gives the time back; the pair is a bijection
    between [0, 2^48-1] and the triples of 16-bit words: encoding yields
    16-bit words, decoding yields a time of the range, and each function
    undoes the other. On a working bus the driver reads back the time, and
    the alarm time, it has just set. *)
Theorem time_codec_bijection (t : Z) (ws : Z * Z * Z) :
  0 <= t <= RTC_MAX_TIME -> words16 ws ->
  (words16 (time_encode t) /\ time_decode (time_encode t) = t) /\
  (0 <= time_decode ws <= RTC_MAX_TIME /\ time_encode (time_decode ws) = ws) /\
  (forall (w : world) (tm : Z), no_fault w ->
     result (sd109_rtc_read_time tm) (after (sd109_rtc_set_time t) w) = (0, t)) /\
  (forall (w : world) (alrm old : rtc_wkalrm), no_fault w -> alrm_time alrm = t ->
     alrm_time (snd (result (sd109_rtc_read_alarm old)
                       (after (sd109_rtc_set_alarm alrm) w))) = t).
Proof.
  intros Ht Hws. split; [|split; [|split]].
  - split; [apply time_encode_words16 | now apply time_decode_encode].
  - split; [apply time_decode_range | now apply time_encode_decode].
  - intros w tm Hnf. now apply set_time_read_time.
  - intros w alrm old Hnf <-.
    destruct (set_alarm_read_alarm alrm old w Ht Hnf) as [_ ->]. reflexivity.
Qed.

Lemma time_codec_bijection_witness :
  time_decode (time_encode 1700000000) = 1700000000 /\
  time_encode (time_decode (0xF100, 0x6553, 0)) = (0xF100, 0x6553, 0).
Proof.
  assert (Ht : 0 <= 1700000000 <= RTC_MAX_TIME) by (unfold RTC_MAX_TIME; lia).
  assert (Hws : words16 (0xF100, 0x6553, 0)) by (cbv; intuition discriminate).
  destruct (time_codec_bijection 1700000000 (0xF100, 0x6553, 0) Ht Hws)
    as ((_ & Hde) & (_ & Hed) & _).
  exact (conj Hde Hed).
Defined.

Section VoltageReadFailure.

Context {K : Kernel}.

(** C2, as the code has it. When a voltage reading of a channel below 5
    needs the register (the slot is not valid, or older than the refresh
    interval) and the register read fails, the getter logs its diagnostic
    and returns 0, and [sd109_read_in] reports success with the value 0:
    the error does not reach the caller. The private data, and so the value,
    the time stamp and the validity of the slot, are what they were; the
    failed read is the only bus transaction. *)
Theorem voltage_read_failure_keeps_slot
    (k : volt_kind) (channel val : Z) (w : world) (e : positive) :
  0 <= channel < NUM_CH_VIN ->
  needs_refresh k channel w = true ->
  fault (bus w) (length (trace (bus w))) = Some e ->
  let w' := after (sd109_read_in (kind_attr k) channel val) w in
  result (sd109_read_in (kind_attr k) channel val) w = (0, 0) /\
  klog w' = klog w ++ [kind_diag k] /\
  trace (bus w') = trace (bus w) ++ [BusRead (kind_base k + channel * 3)] /\
  data w' = data w /\
  slot_value k (data w') channel = slot_value k (data w) channel /\
  slot_updated k (data w') channel = slot_updated k (data w) channel /\
  slot_valid k (data w') channel = slot_valid k (data w) channel.
Proof.
  intros Hch Hstale Hfail w'. subst w'. unfold result, after.
  rewrite read_in_kind by assumption.
  rewrite (get_voltage_failed k channel w e) by (assumption || lia).
  cbn. repeat split; reflexivity.
Qed.

End VoltageReadFailure.

Lemma voltage_read_failure_keeps_slot_witness :
  let w' := after (sd109_read_in (K := linux64) hwmon_in_input 0 0)
              failing_world in
  result (sd109_read_in (K := linux64) hwmon_in_input 0 0) failing_world
    = (0, 0) /\
  data w' = data failing_world.
Proof.
  intros w'.
  assert (Hch : 0 <= 0 < NUM_CH_VIN) by (unfold NUM_CH_VIN; lia).
  destruct (voltage_read_failure_keeps_slot (K := linux64) Input 0 0
              failing_world 5 Hch eq_refl eq_refl)
    as (Hres & _ & _ & Hdata & _).
  exact (conj Hres Hdata).
Defined.

(** C2, as it is stated, fails on the propagation of the error: the slot of
    channel 0 is not valid, the register read fails with [-EIO], and
    [sd109_read_in] returns the status [0] with the value 0. *)
Lemma voltage_read_error_not_propagated :
  let call := sd109_read_in (K := linux64) hwmon_in_input 0 0 in
  slot_valid Input (data failing_world) 0 = false /\
  fault (bus failing_world) (length (trace (bus failing_world))) = Some 5%positive /\
  trace (bus (after call failing_world)) =
    trace (bus failing_world) ++ [BusRead SD109_VOLTAGE_5V_BOARD] /\
  result call failing_world = (0, 0) /\
  fst (result call failing_world) <> - EIO.
Proof.
  vm_compute. repeat split; try reflexivity. discriminate.
Qed.

Section SetTimeoutClaim.

Context {K : Kernel}.

(** C3, as the code has it. A timeout of at most 255 that the framework
    check accepts makes [sd109_wdt_settimeout] issue one write to the
    timeout register; the low byte of the value is the timeout and the high
    byte is the count [wait / 5] of 5-second steps reduced modulo 256, which
    is [wait / 5] itself when the wait is below 1280 seconds; when the write
    succeeds the register holds the value, the timeout is recorded in the
    watchdog device and the status is [0]. A timeout above 255 is rejected
    with [-EINVAL] and the world, the bus included, stays as it was. *)
Theorem settimeout_spec (to : Z) (w : world) :
  0 <= to ->
  (to <= 255 -> watchdog_timeout_invalid (wdd (data w)) to = false ->
   let reg := wdog_reg_value (wdog_wait (data w)) to in
   let w' := after (sd109_wdt_settimeout to) w in
   trace (bus w') = trace (bus w) ++ [BusWrite SD109_WDOG_TIMEOUT reg] /\
   Z.land reg 0xFF = to /\
   Z.shiftr reg 8 = Z.quot (wdog_wait (data w)) 5 mod 256 /\
   (0 <= wdog_wait (data w) < 1280 -> Z.shiftr reg 8 = wdog_wait (data w) / 5) /\
   (fault (bus w) (length (trace (bus w))) = None ->
    regs (bus w') SD109_WDOG_TIMEOUT = reg /\
    timeout (wdd (data w')) = to /\
    result (sd109_wdt_settimeout to) w = 0)) /\
  (255 < to ->
   result (sd109_wdt_settimeout to) w = - EINVAL /\
   after (sd109_wdt_settimeout to) w = w).
Proof.
  intros Hto. split.
  - intros Hle Hvalid reg w'. subst reg w'.
    assert (Hreg16 : Z.land (wdog_reg_value (wdog_wait (data w)) to) 0xffff
                     = wdog_reg_value (wdog_wait (data w)) to).
    { apply land_mask16_id. rewrite wdog_reg_value_eq. split.
      - rewrite Z.lor_nonneg, Z.shiftl_nonneg.
        split; apply Z.mod_pos_bound; lia.
      - apply below_of_bits; [lia| |].
        + rewrite Z.lor_nonneg, Z.shiftl_nonneg.
          split; apply Z.mod_pos_bound; lia.
        + intros n Hn. rewrite Z.lor_spec, Z.shiftl_spec by lia.
          rewrite (testbit_above (_ mod 256) 8 (n - 8))
            by (try apply Z.mod_pos_bound; lia).
          rewrite (testbit_above (to mod 256) 8 n)
            by (try apply Z.mod_pos_bound; lia).
          reflexivity. }
    split; [|split; [|split; [|split]]].
    + unfold sd109_wdt_settimeout. drv_run. rewrite Hvalid.
      destruct (Z.ltb_spec 255 to); [lia|].
      drv_run. case_fault; drv_run; reflexivity.
    + rewrite wdog_reg_value_low. apply Z.mod_small. lia.
    + apply wdog_reg_value_high.
    + intros Hwait. rewrite wdog_reg_value_high.
      rewrite Z.quot_div_nonneg by lia. apply Z.mod_small.
      split; [apply Z.div_pos; lia|].
      apply Z.div_lt_upper_bound; lia.
    + intros Hok. unfold sd109_wdt_settimeout. drv_run. rewrite Hvalid.
      destruct (Z.ltb_spec 255 to); [lia|].
      drv_run. rewrite Hok. drv_run. rewrite Hreg16.
      repeat split; reflexivity.
  - intros Hgt. unfold sd109_wdt_settimeout. drv_run.
    destruct (Z.ltb_spec 255 to); [|lia].
    rewrite orb_true_r. split; reflexivity.
Qed.

End SetTimeoutClaim.

Lemma settimeout_spec_witness :
  let w := bound_world (sample_platform None None)
             (fresh_regmap sample_regs (fun _ => None)) 1000 in
  trace (bus (after (sd109_wdt_settimeout (K := linux64) 60) w)) =
    trace (bus w) ++ [BusWrite SD109_WDOG_TIMEOUT 0x093C] /\
  timeout (wdd (data (after (sd109_wdt_settimeout (K := linux64) 60) w))) = 60 /\
  result (sd109_wdt_settimeout (K := linux64) 300) w = - EINVAL.
Proof.
  intros w.
  destruct (settimeout_spec (K := linux64) 60 w) as [H60 _]; [lia|].
  destruct (settimeout_spec (K := linux64) 300 w) as [_ H300]; [lia|].
  destruct H60 as (Htr & _ & _ & _ & Hok); [lia|reflexivity|].
  destruct Hok as (_ & Hrec & _); [reflexivity|].
  destruct H300 as [Hrej _]; [lia|].
  exact (conj Htr (conj Hrec Hrej)).
Defined.

(** C3, as it is stated, fails on the high byte: with a wait of 1280
    seconds, which [sd109_probe] adopts from the device property, an
    accepted timeout of 30 is written as [0x001E], whose high byte is 0 and
    not [1280 / 5 = 256]. *)
Lemma settimeout_wait_truncated :
  let w := bound_world (sample_platform None (Some 1280))
             (fresh_regmap sample_regs (fun _ => None)) 1000 in
  let w' := after (sd109_wdt_settimeout (K := linux64) 30) w in
  wdog_wait (data w) = 1280 /\
  linux_watchdog_timeout_invalid (wdd (data w)) 30 = false /\
  trace (bus w') = trace (bus w) ++ [BusWrite SD109_WDOG_TIMEOUT 0x001E] /\
  Z.shiftr 0x001E 8 <> wdog_wait (data w) / 5.
Proof.
  vm_compute. repeat split; try reflexivity. discriminate.
Qed.

Section Reconciliation.

Context {K : Kernel}.

(** C4, as the code has it. When [sd109_wdog_init] has read the timeout
    register, the timeout it adopts is the overlay value (as an unsigned
    number) exactly when that value is not [-1], and the value of the device
    otherwise; the wait it adopts is the overlay value exactly when that
    value is at least 45, and the value of the device otherwise. After the
    read it issues one more bus transaction, the write of the combined
    value, exactly when an override won and [sd109_wdt_settimeout] accepts
    the adopted timeout (at most 255 and passing the framework check);
    otherwise it issues none. *)
Theorem wdog_init_reconciles (w : world) :
  fault (bus w) (length (trace (bus w))) = None ->
  let tinfo := Z.land (regs (bus w) SD109_WDOG_TIMEOUT) 0xffff in
  let d := data w in
  let w' := after sd109_wdog_init w in
  let to := adopted_timeout d tinfo in
  let wt := adopted_wait d tinfo in
  timeout (wdd (data w')) = to /\
  wdog_wait (data w') = wt /\
  trace (bus w') =
    trace (bus w) ++ BusRead SD109_WDOG_TIMEOUT ::
      (if override_won d && timeout_accepted d to
       then [BusWrite SD109_WDOG_TIMEOUT (wdog_reg_value wt to)] else []).
Proof.
  intros Hok tinfo d w' to wt. subst w' to wt d.
  unfold adopted_timeout, adopted_wait, override_won, timeout_accepted,
    adopted_wdd.
  assert (Hdev : to_uint (wdog_timeout_of tinfo) = wdog_timeout_of tinfo).
  { apply to_uint_small. pose proof (wdog_timeout_of_range tinfo). lia. }
  subst tinfo. unfold sd109_wdog_init, sd109_wdt_settimeout.
  drv_run. rewrite Hok. drv_run.
  destruct (overlay_wdog_timeout (data w) =? -1) eqn:Eto;
    destruct (overlay_wdog_wait (data w) <? SD109_MIN_WDOG_WAIT) eqn:Ewt;
    destruct (overlay_wdog_nowayout (data w)) eqn:Enwo; drv_run;
    rewrite ?Eto, ?Ewt, ?Enwo; drv_run; rewrite ?Hdev;
    repeat (first [case_cond | case_fault]; drv_run);
    try congruence; rewrite <- ?app_assoc; repeat split; reflexivity.
Qed.

End Reconciliation.

Lemma wdog_init_reconciles_witness :
  let w' := after (sd109_wdog_init (K := linux64)) (overlay_world 60 50) in
  timeout (wdd (data w')) = 60 /\ wdog_wait (data w') = 50 /\
  trace (bus w') = [BusRead SD109_WDOG_TIMEOUT;
                    BusWrite SD109_WDOG_TIMEOUT 0x0A3C].
Proof.
  exact (wdog_init_reconciles (K := linux64) (overlay_world 60 50) eq_refl).
Defined.

(** C4, as it is stated, fails on the write-back: a timeout override of
    300 seconds wins over the 30 seconds of the device and is adopted, but
    [sd109_wdt_settimeout] rejects it, so that [sd109_wdog_init] issues no
    write at all. The same happens when [sd109_probe] runs with the
    property [wdog_timeout] set to 300. *)
Lemma wdog_init_override_not_written :
  let w := overlay_world 300 (-1) in
  let w' := after (sd109_wdog_init (K := linux64)) w in
  overlay_wdog_timeout (data w) <> -1 /\
  wdog_timeout_of (regs (bus w) SD109_WDOG_TIMEOUT) = 30 /\
  timeout (wdd (data w')) = 300 /\
  trace (bus w') = [BusRead SD109_WDOG_TIMEOUT] /\
  count_writes (trace (bus w')) = 0%nat /\
  count_writes
    (trace (bus (bound_world (sample_platform (Some 300) None)
                   (fresh_regmap sample_regs (fun _ => None)) 1000))) = 0%nat.
Proof.
  vm_compute. repeat split; try reflexivity. discriminate.
Qed.

(** C5. A time above [2^48-1] makes [sd109_rtc_set_time] return [-EINVAL]
    and leaves the world as it was: the test precedes the first of the
    three word writes, so the bus sees no transaction at all. *)
Theorem set_time_rejects_large (t : Z) (w : world) :
  RTC_MAX_TIME < t ->
  result (sd109_rtc_set_time t) w = - EINVAL /\
  after (sd109_rtc_set_time t) w = w /\
  trace (bus (after (sd109_rtc_set_time t) w)) = trace (bus w).
Proof.
  intros Ht. unfold sd109_rtc_set_time, result, after.
  destruct (Z.ltb_spec RTC_MAX_TIME t); [|lia].
  unfold ret. cbn. repeat split; reflexivity.
Qed.

Lemma set_time_rejects_large_witness :
  result (sd109_rtc_set_time (2 ^ 48)) working_world = - EINVAL /\
  trace (bus (after (sd109_rtc_set_time (2 ^ 48)) working_world)) =
    trace (bus working_world).
Proof.
  assert (Hbig : RTC_MAX_TIME < 2 ^ 48) by (unfold RTC_MAX_TIME; lia).
  destruct (set_time_rejects_large (2 ^ 48) working_world Hbig)
    as (Hret & _ & Htr).
  exact (conj Hret Htr).
Defined.

(** C6. [sd109_rtc_set_alarm] stores the enabled and pending flags of the
    request in the private data whatever the alarm time and whatever the
    bus does; when the time is above [2^48-1] it then returns [-EINVAL] and
    the bus has seen no transaction. *)
Theorem set_alarm_stores_flags (alrm : rtc_wkalrm) (w : world) :
  (alarm_enabled (data (after (sd109_rtc_set_alarm alrm) w))
     = to_bool (alrm_enabled alrm) /\
   alarm_pending (data (after (sd109_rtc_set_alarm alrm) w))
     = to_bool (alrm_pending alrm)) /\
  (RTC_MAX_TIME < alrm_time alrm ->
   result (sd109_rtc_set_alarm alrm) w = - EINVAL /\
   bus (after (sd109_rtc_set_alarm alrm) w) = bus w).
Proof.
  unfold sd109_rtc_set_alarm.
  destruct (Z.ltb_spec RTC_MAX_TIME (alrm_time alrm)) as [Hgt|Hle].
  - drv_run. repeat split; reflexivity.
  - split; [|intros; lia].
    drv_run. case_fault; drv_run; [split; reflexivity|].
    case_fault; drv_run; [split; reflexivity|].
    case_fault; drv_run; split; reflexivity.
Qed.

Lemma set_alarm_stores_flags_witness :
  let alrm := {| alrm_enabled := 1; alrm_pending := 0; alrm_time := 2 ^ 48 |} in
  let w' := after (sd109_rtc_set_alarm alrm) working_world in
  alarm_enabled (data w') = true /\ alarm_pending (data w') = false /\
  result (sd109_rtc_set_alarm alrm) working_world = - EINVAL /\
  bus w' = bus working_world.
Proof.
  intros alrm w'.
  destruct (set_alarm_stores_flags alrm working_world) as ((He & Hp) & Hrej).
  assert (Hbig : RTC_MAX_TIME < alrm_time alrm)
    by (unfold RTC_MAX_TIME; simpl; lia).
  destruct (Hrej Hbig) as (Hret & Hbus).
  exact (conj He (conj Hp (conj Hret Hbus))).
Defined.

Section WatchdogBitfield.

Context {K : Kernel}.

(** C7. A timeout of 30 and a wait of 45 pack to [0x091E], and [0x091E]
    unpacks to a timeout of 30 and a wait of 45. These are the value
    [sd109_wdt_settimeout] writes to the timeout register when the wait is
    45 and the timeout 30 is accepted, and the two fields
    [sd109_wdog_init] stores when it reads [0x091E] from that register. *)
Theorem wdog_bitfield_example :
  (wdog_reg_value 45 30 = 0x091E /\
   wdog_timeout_of 0x091E = 30 /\ wdog_wait_of 0x091E = 45) /\
  (forall w : world,
     wdog_wait (data w) = 45 ->
     watchdog_timeout_invalid (wdd (data w)) 30 = false ->
     trace (bus (after (sd109_wdt_settimeout 30) w)) =
       trace (bus w) ++ [BusWrite SD109_WDOG_TIMEOUT 0x091E]) /\
  (forall w : world,
     fault (bus w) (length (trace (bus w))) = None ->
     Z.land (regs (bus w) SD109_WDOG_TIMEOUT) 0xffff = 0x091E ->
     device_wdog_timeout (data (after sd109_wdog_init w)) = 30 /\
     device_wdog_wait (data (after sd109_wdog_init w)) = 45).
Proof.
  split; [repeat split; reflexivity|]. split.
  - intros w Hwait Hvalid. unfold sd109_wdt_settimeout.
    drv_run. rewrite Hvalid, Hwait. drv_run.
    case_fault; drv_run; reflexivity.
  - intros w Hok Hreg. unfold sd109_wdog_init, sd109_wdt_settimeout.
    drv_run. rewrite Hok. drv_run. rewrite Hreg.
    repeat (first [case_cond | case_fault]; drv_run); split; reflexivity.
Qed.

End WatchdogBitfield.

Lemma wdog_bitfield_example_witness :
  trace (bus (after (sd109_wdt_settimeout (K := linux64) 30) working_world)) =
    trace (bus working_world) ++ [BusWrite SD109_WDOG_TIMEOUT 0x091E] /\
  device_wdog_timeout
    (data (after (sd109_wdog_init (K := linux64)) (overlay_world (-1) (-1)))) = 30 /\
  device_wdog_wait
    (data (after (sd109_wdog_init (K := linux64)) (overlay_world (-1) (-1)))) = 45.
Proof.
  destruct (wdog_bitfield_example (K := linux64)) as (_ & Hset & Hinit).
  split.
  - exact (Hset working_world eq_refl eq_refl).
  - exact (Hinit (overlay_world (-1) (-1)) eq_refl eq_refl).
Defined.

Section VoltageCacheClaim.

Context {K : Kernel}.


End VoltageCacheClaim.



Section Probe.

Context {K : Kernel}.

(** C9. When the chip-id register delivers a value other than
    [SD109_CHIP_ID] (0xd109), [sd109_probe] returns [-ENODEV]; the read of
    the chip id is the only bus transaction it issues, so neither the
    firmware version nor the status is read; and what is registered with
    the hwmon, watchdog and rtc frameworks, and the reboot notifier, is
    what was registered before: nothing, when the driver was not bound. *)
Theorem probe_chip_id_mismatch (w : world) (v : Z) :
  regmap_init_err (plat w) = None ->
  kzalloc_fails (plat w) = false ->
  fault (bus w) (length (trace (bus w))) = None ->
  Z.land (regs (bus w) SD109_CHIP_ID_REG) 0xffff = v ->
  v <> SD109_CHIP_ID ->
  let w' := after sd109_probe w in
  SD109_CHIP_ID = 0xd109 /\
  result sd109_probe w = - ENODEV /\
  trace (bus w') = trace (bus w) ++ [BusRead SD109_CHIP_ID_REG] /\
  hwmon_registered w' = hwmon_registered w /\
  wdd_registered w' = wdd_registered w /\
  rtc_registered w' = rtc_registered w /\
  notifier_registered w' = notifier_registered w.
Proof.
  intros Hmap Hmem Hok Hv Hne w'. subst w'.
  unfold sd109_probe. drv_run. rewrite Hmap, Hmem. drv_run.
  rewrite Hok. drv_run. rewrite Hv.
  destruct (Z.eqb_spec v SD109_CHIP_ID); [contradiction|].
  drv_run. repeat split; reflexivity.
Qed.

End Probe.

Lemma probe_chip_id_mismatch_witness :
  let w := unbound_world (sample_platform None None)
             (fresh_regmap (fun _ => 0xd108) (fun _ => None)) 1000 in
  let w' := after (sd109_probe (K := linux64)) w in
  result (sd109_probe (K := linux64)) w = - ENODEV /\
  trace (bus w') = [BusRead SD109_CHIP_ID_REG] /\
  hwmon_registered w' = false /\ wdd_registered w' = false /\
  rtc_registered w' = false.
Proof.
  intros w w'.
  assert (Hne : 0xd108 <> SD109_CHIP_ID) by (unfold SD109_CHIP_ID; lia).
  destruct (probe_chip_id_mismatch (K := linux64) w 0xd108
              eq_refl eq_refl eq_refl eq_refl Hne)
    as (_ & Hret & Htr & Hh & Hw & Hr & _).
  exact (conj Hret (conj Htr (conj Hh (conj Hw Hr)))).
Defined.

(** C10. On [SYS_POWER_OFF] the notifier issues exactly one bus transaction,
    the write of [SD109_EXEC_POWEROFF] (3) to the command register. It
    returns [NOTIFY_DONE] whether the write worked or not; a failed write
    adds one line to the kernel log and nothing else. *)
Theorem poweroff_single_write (w : world) :
  SD109_EXEC_POWEROFF = 3 /\
  trace (bus (after (sd109_notify_reboot SYS_POWER_OFF) w)) =
    trace (bus w) ++ [BusWrite SD109_COMMAND SD109_EXEC_POWEROFF] /\
  result (sd109_notify_reboot SYS_POWER_OFF) w = NOTIFY_DONE /\
  data (after (sd109_notify_reboot SYS_POWER_OFF) w) = data w /\
  klog (after (sd109_notify_reboot SYS_POWER_OFF) w) =
    match fault (bus w) (length (trace (bus w))) with
    | Some _ => klog w ++ ["Unable to write shutdown command"%string]
    | None => klog w
    end.
Proof.
  unfold sd109_notify_reboot. drv_run.
  case_fault; drv_run; repeat split; reflexivity.
Qed.

(** * Further properties *)

(** ** HWMON *)

Section Hwmon.

Context {K : Kernel}.

(** A getter asked for a channel of 5 or more does nothing. *)
Lemma get_voltage_out_of_range (k : volt_kind) (ch : Z) (w : world) :
  NUM_CH_VIN <= ch -> get_voltage_of k ch w = (0, w).
Proof.
  intros Hch.
  destruct k; cbn [get_voltage_of];
    [unfold sd109_get_voltage | unfold sd109_get_voltage_min
     | unfold sd109_get_voltage_max];
    destruct (Z.ltb_spec ch NUM_CH_VIN); try lia; reflexivity.
Qed.

(** A getter whose register read succeeds, for the three kinds. *)
Lemma get_voltage_refreshed_kind (k : volt_kind) (ch : Z) (w : world) :
  ch < NUM_CH_VIN ->
  needs_refresh k ch w = true ->
  fault (bus w) (length (trace (bus w))) = None ->
  let v := Z.land (regs (bus w) (kind_base k + ch * 3)) 0xffff in
  get_voltage_of k ch w =
    (v, set_data (refresh_slot k ch v (jiffies w) (data w))
          (set_bus (log_op (BusRead (kind_base k + ch * 3)) (bus w)) w)).
Proof.
  intros Hch Hstale Hok. unfold needs_refresh in Hstale.
  destruct k;
    cbn [get_voltage_of slot_updated slot_valid kind_base refresh_slot] in *;
    [unfold sd109_get_voltage | unfold sd109_get_voltage_min
     | unfold sd109_get_voltage_max];
    destruct (Z.ltb_spec ch NUM_CH_VIN); try lia;
    drv_run; rewrite Hstale, Hok; drv_run; rewrite to_u16_land; reflexivity.
Qed.

(** X1. [sd109_read] refuses what the driver does not serve: a sensor type
    other than [hwmon_in], an attribute other than input, min and max, or a
    channel of 5 or more. It returns [-EOPNOTSUPP], leaves [*val] as it
    was and does not touch the world: no bus transaction, no log line, no
    change of the cache. *)
Theorem read_unsupported
    (type : hwmon_sensor_types) (attr : hwmon_in_attr) (channel val : Z)
    (w : world) :
  type <> hwmon_in \/ attr = hwmon_in_label \/ attr = hwmon_in_other \/
  NUM_CH_VIN <= channel ->
  sd109_read type attr channel val w = ((- EOPNOTSUPP, val), w).
Proof.
  intros Hcase. unfold sd109_read, sd109_read_in.
  destruct type; [|reflexivity].
  destruct attr; try reflexivity;
    destruct (Z.ltb_spec channel NUM_CH_VIN); try reflexivity;
    destruct Hcase as [Hc|[Hc|[Hc|Hc]]]; try congruence; lia.
Qed.

(** X2. The channel of [sd109_read_in] is an [int] that the getters take
    as [u8]: a channel below 5, negative ones included, is served as the
    channel [channel mod 256]. When that is 5 or more, as for the channels
    -251 to -1, the call reports success with the value 0 and touches
    nothing. *)
Theorem read_in_channel_truncated
    (k : volt_kind) (channel val : Z) (w : world) :
  channel < NUM_CH_VIN ->
  sd109_read_in (kind_attr k) channel val w =
    ((0, result (get_voltage_of k (to_u8 channel)) w),
     after (get_voltage_of k (to_u8 channel)) w) /\
  (NUM_CH_VIN <= to_u8 channel ->
   sd109_read_in (kind_attr k) channel val w = ((0, 0), w)).
Proof.
  intros Hch.
  assert (Heq : sd109_read_in (kind_attr k) channel val w =
    ((0, result (get_voltage_of k (to_u8 channel)) w),
     after (get_voltage_of k (to_u8 channel)) w)).
  { unfold sd109_read_in, result, after.
    destruct (Z.ltb_spec channel NUM_CH_VIN); [|lia].
    destruct k; cbn [kind_attr get_voltage_of]; unfold bind, ret;
      match goal with |- context [?g (to_u8 channel) w] =>
        destruct (g (to_u8 channel) w) end; reflexivity. }
  split; [exact Heq|].
  intros Hbig. rewrite Heq. unfold result, after.
  now rewrite get_voltage_out_of_range.
Qed.

End Hwmon.

Lemma read_unsupported_witness :
  sd109_read (K := linux64) hwmon_in hwmon_in_input 5 7 working_world =
    ((- EOPNOTSUPP, 7), working_world).
Proof.
  apply read_unsupported. right. right. right. unfold NUM_CH_VIN. lia.
Defined.

Lemma read_in_channel_truncated_witness :
  sd109_read_in (K := linux64) hwmon_in_input (-1) 7 working_world =
    ((0, 0), working_world) /\
  result (sd109_read_in (K := linux64) hwmon_in_input (-256) 7) working_world =
    (0, 5012).
Proof.
  assert (H1 : -1 < NUM_CH_VIN) by (unfold NUM_CH_VIN; lia).
  assert (H2 : -256 < NUM_CH_VIN) by (unfold NUM_CH_VIN; lia).
  assert (H3 : NUM_CH_VIN <= to_u8 (-1)) by (vm_compute; discriminate).
  destruct (read_in_channel_truncated (K := linux64) Input (-1) 7 working_world H1)
    as [_ Hneg].
  destruct (read_in_channel_truncated (K := linux64) Input (-256) 7 working_world H2)
    as [Hwrap _].
  split; [exact (Hneg H3)|].
  exact (f_equal fst Hwrap).
Defined.

(** *** Cells of the cache *)

Lemma arr_get_set_ne {A} `{Inhabited A} (a : list A) (i j : Z) (x : A) :
  0 <= i -> 0 <= j -> i <> j -> arr_get (arr_set a i x) j = arr_get a j.
Proof.
  intros Hi Hj Hne. unfold arr_get, arr_set.
  apply list_lookup_total_insert_ne. lia.
Qed.

Lemma Forall_arr_get {A} `{Inhabited A} (P : A -> Prop) (a : list A) (i : Z) :
  Forall P a -> (Z.to_nat i < length a)%nat -> P (arr_get a i).
Proof.
  intros Hall Hi. unfold arr_get.
  rewrite Forall_lookup in Hall. apply (Hall (Z.to_nat i)).
  now apply list_lookup_lookup_total_lt.
Qed.

Lemma Forall_arr_set {A} (P : A -> Prop) (a : list A) (i : Z) (x : A) :
  Forall P a -> P x -> Forall P (arr_set a i x).
Proof. intros Hall Hx. unfold arr_set. now apply Forall_insert. Qed.

Lemma refresh_slot_wf (k : volt_kind) (ch v j : Z) (d : sd109_private) :
  wf_data d -> wf_data (refresh_slot k ch v j d).
Proof. intros Hwf. destruct k; cbn [refresh_slot]; wf_side. Qed.

Lemma refresh_slot_cells (k : volt_kind) (ch v j : Z) (d : sd109_private) :
  cells_u16 d -> is_word16 v -> cells_u16 (refresh_slot k ch v j d).
Proof.
  unfold cells_u16. intros (Hi & Hmax & Hmin) Hv.
  destruct k; cbn; repeat split; try assumption;
    now apply Forall_arr_set.
Qed.

Section HwmonCache.

Context {K : Kernel}.

(** The slot a getter has refreshed, for the three kinds. *)
Lemma refreshed_slot_kind (k : volt_kind) (ch : Z) (w : world) :
  wf_data (data w) ->
  0 <= ch < NUM_CH_VIN ->
  needs_refresh k ch w = true ->
  fault (bus w) (length (trace (bus w))) = None ->
  let v := Z.land (regs (bus w) (kind_base k + ch * 3)) 0xffff in
  let w' := after (get_voltage_of k ch) w in
  result (get_voltage_of k ch) w = v /\
  slot_valid k (data w') ch = true /\
  slot_value k (data w') ch = v /\
  slot_updated k (data w') ch = jiffies w.
Proof.
  intros Hwf Hch Hstale Hok v w'. subst w'. unfold result, after.
  rewrite get_voltage_refreshed_kind by (assumption || lia).
  cbn [fst snd data set_data]. fold v.
  unfold wf_data in Hwf. unfold NUM_CH_VIN in Hch.
  destruct Hwf as (H1 & H2 & H3 & H4 & H5 & H6 & H7 & H8 & H9).
  split; [reflexivity|].
  destruct k; cbn; rewrite !arr_get_set by lia; repeat split; reflexivity.
Qed.

(** X3. A reading that refreshes its slot from the register
    [base(kind) + 3 * channel] returns the 16 bits read, leaves the slot
    valid, stamped with the current tick and holding that value, and
    changes no other slot of any kind or channel, nor the watchdog and
    alarm fields of the private data. *)
Theorem refresh_touches_one_slot (k : volt_kind) (ch : Z) (w : world) :
  wf_data (data w) ->
  0 <= ch < NUM_CH_VIN ->
  needs_refresh k ch w = true ->
  fault (bus w) (length (trace (bus w))) = None ->
  let v := Z.land (regs (bus w) (kind_base k + ch * 3)) 0xffff in
  let w' := after (get_voltage_of k ch) w in
  result (get_voltage_of k ch) w = v /\
  trace (bus w') = trace (bus w) ++ [BusRead (kind_base k + ch * 3)] /\
  (slot_valid k (data w') ch = true /\ slot_value k (data w') ch = v /\
   slot_updated k (data w') ch = jiffies w) /\
  (forall (k' : volt_kind) (ch' : Z),
     0 <= ch' -> k' <> k \/ ch' <> ch ->
     slot_valid k' (data w') ch' = slot_valid k' (data w) ch' /\
     slot_value k' (data w') ch' = slot_value k' (data w) ch' /\
     slot_updated k' (data w') ch' = slot_updated k' (data w) ch') /\
  (wdd (data w') = wdd (data w) /\ wdog_wait (data w') = wdog_wait (data w) /\
   alarm_enabled (data w') = alarm_enabled (data w) /\
   alarm_pending (data w') = alarm_pending (data w)).
Proof.
  intros Hwf Hch Hstale Hok v w'. subst w'. unfold result, after.
  rewrite get_voltage_refreshed_kind by (assumption || lia).
  cbn [fst snd data set_data bus set_bus trace log_op].
  fold v. unfold wf_data in Hwf. unfold NUM_CH_VIN in Hch.
  destruct Hwf as (H1 & H2 & H3 & H4 & H5 & H6 & H7 & H8 & H9).
  split; [reflexivity|]. split; [reflexivity|]. split; [|split].
  - destruct k; cbn; rewrite !arr_get_set by lia; repeat split; reflexivity.
  - intros k' ch' Hch' Hother.
    destruct k, k'; cbn;
      try (repeat split; reflexivity);
      (destruct Hother as [Hk|Hc]; [congruence|]);
      rewrite !arr_get_set_ne by lia; repeat split; reflexivity.
  - destruct k; cbn; repeat split; reflexivity.
Qed.

(** X4. For the three kinds alike: after a reading has refreshed its slot,
    the same reading [d <= HZ] ticks later returns the same value and
    leaves the world as it is, the bus and the log included. *)
Theorem cache_hit_any_kind (k : volt_kind) (ch d : Z) (w : world) :
  wf_data (data w) ->
  0 <= ch < NUM_CH_VIN ->
  0 < BITS_PER_LONG ->
  0 <= HZ < 2 ^ (BITS_PER_LONG - 1) ->
  needs_refresh k ch w = true ->
  fault (bus w) (length (trace (bus w))) = None ->
  0 <= d <= HZ ->
  let get := sd109_read_in (kind_attr k) ch 0 in
  let w1 := set_jiffies (to_ulong (jiffies w + d)) (after get w) in
  result get w1 = result get w /\ after get w1 = w1.
Proof.
  intros Hwf Hch HB HHZ Hstale Hok Hd get w1.
  assert (Hlt : ch < NUM_CH_VIN) by lia.
  destruct (refreshed_slot_kind k ch w Hwf Hch Hstale Hok)
    as (Hres & Hvalid & Hvalue & Hstamp).
  assert (Hw : after get w = after (get_voltage_of k ch) w).
  { subst get. unfold after. now rewrite (read_in_kind k ch 0 w Hch). }
  assert (Hr : result get w = (0, result (get_voltage_of k ch) w)).
  { subst get. unfold result. now rewrite (read_in_kind k ch 0 w Hch). }
  assert (Hfresh : needs_refresh k ch w1 = false).
  { unfold needs_refresh. subst w1. rewrite Hw.
    cbn [jiffies data set_jiffies]. rewrite Hvalid, Hstamp.
    rewrite time_after_elapsed by lia.
    destruct (Z.ltb_spec HZ d); [lia|reflexivity]. }
  pose proof (get_voltage_cached k ch w1 Hlt Hfresh) as Hget.
  subst get. unfold result, after in *.
  rewrite (read_in_kind k ch 0 w1 Hch), Hget. cbn [fst snd].
  split; [|reflexivity].
  rewrite Hr, Hres. subst w1. cbn [data set_jiffies].
  rewrite Hw. unfold after. now rewrite Hvalue.
Qed.

(** X5. A failed register read does not start a refresh interval: the
    slot still needs the register, so that the same reading made again at
    once issues the read again and, when this one succeeds, reports the
    value of the register. *)
Theorem failed_read_is_retried
    (k : volt_kind) (ch : Z) (w : world) (e : positive) :
  0 <= ch < NUM_CH_VIN ->
  needs_refresh k ch w = true ->
  fault (bus w) (length (trace (bus w))) = Some e ->
  fault (bus w) (length (trace (bus w)) + 1) = None ->
  let get := sd109_read_in (kind_attr k) ch 0 in
  let reg := kind_base k + ch * 3 in
  let w1 := after get w in
  needs_refresh k ch w1 = true /\
  result get w1 = (0, Z.land (regs (bus w) reg) 0xffff) /\
  trace (bus (after get w1)) = trace (bus w) ++ [BusRead reg; BusRead reg].
Proof.
  intros Hch Hstale Hfail Hnext get reg w1.
  assert (Hlt : ch < NUM_CH_VIN) by lia.
  assert (Hw1 : w1 = set_klog (klog w ++ [kind_diag k])
                       (set_bus (log_op (BusRead reg) (bus w)) w)).
  { subst w1 get. unfold after.
    rewrite (read_in_kind k ch 0 w Hch).
    now rewrite (get_voltage_failed k ch w e Hlt Hstale Hfail). }
  assert (Hstale1 : needs_refresh k ch w1 = true)
    by (rewrite Hw1; exact Hstale).
  assert (Hok1 : fault (bus w1) (length (trace (bus w1))) = None).
  { rewrite Hw1. cbn [bus set_klog set_bus log_op trace fault].
    rewrite List.length_app. exact Hnext. }
  split; [exact Hstale1|].
  subst get. unfold result, after.
  rewrite (read_in_kind k ch 0 w1 Hch).
  rewrite (get_voltage_refreshed_kind k ch w1 Hlt Hstale1 Hok1).
  cbn [fst snd]. rewrite Hw1.
  cbn [bus set_klog set_bus set_data log_op trace regs].
  rewrite <- app_assoc. split; reflexivity.
Qed.

(** X6. With cells of 16 bits, a reading of a channel below 5 reports
    success with a value of 0 to 65535 whichever way it goes: from the
    cache, from the register, or after a failed read. It leaves cells of
    16 bits and arrays of the declared size. *)
Theorem read_in_value_u16 (k : volt_kind) (ch val : Z) (w : world) :
  wf_data (data w) ->
  cells_u16 (data w) ->
  0 <= ch < NUM_CH_VIN ->
  let get := sd109_read_in (kind_attr k) ch val in
  fst (result get w) = 0 /\
  is_word16 (snd (result get w)) /\
  wf_data (data (after get w)) /\
  cells_u16 (data (after get w)).
Proof.
  intros Hwf Hcells Hch get. subst get. unfold result, after.
  rewrite (read_in_kind k ch val w Hch). cbn [fst snd].
  assert (Hlt : ch < NUM_CH_VIN) by lia.
  split; [reflexivity|].
  destruct (needs_refresh k ch w) eqn:Hstale.
  - destruct (fault (bus w) (length (trace (bus w)))) as [e|] eqn:Hfault.
    + rewrite (get_voltage_failed k ch w e Hlt Hstale Hfault).
      cbn [fst snd data set_klog set_bus].
      split; [unfold is_word16; lia | split; assumption].
    + rewrite (get_voltage_refreshed_kind k ch w Hlt Hstale Hfault).
      cbn [fst snd data set_data].
      pose proof (land_mask16_range (regs (bus w) (kind_base k + ch * 3))).
      split; [exact H|].
      split; [now apply refresh_slot_wf | now apply refresh_slot_cells].
  - rewrite (get_voltage_cached k ch w Hlt Hstale). cbn [fst snd].
    split; [|split; assumption].
    unfold wf_data in Hwf. unfold cells_u16 in Hcells. unfold NUM_CH_VIN in Hch.
    destruct Hwf as (H1 & H2 & H3 & H4 & H5 & H6 & H7 & H8 & H9).
    destruct Hcells as (Hi & Hmax & Hmin).
    destruct k; cbn [slot_value]; apply Forall_arr_get; (assumption || lia).
Qed.

(** X7. The hwmon read path never writes: whatever the type, attribute,
    channel and state, [sd109_read] issues no register write, issues at
    most one transaction, and leaves the registers of the device as they
    are. *)
Theorem hwmon_read_never_writes
    (type : hwmon_sensor_types) (attr : hwmon_in_attr) (channel val : Z)
    (w : world) :
  let w' := after (sd109_read type attr channel val) w in
  count_writes (trace (bus w')) = count_writes (trace (bus w)) /\
  (length (trace (bus w')) <= length (trace (bus w)) + 1)%nat /\
  regs (bus w') = regs (bus w).
Proof.
  unfold sd109_read, sd109_read_in, sd109_get_voltage, sd109_get_voltage_min,
    sd109_get_voltage_max.
  destruct type, attr; drv_run;
    repeat (first [case_cond | case_fault]; drv_run);
    unfold count_writes; rewrite ?List.filter_app, ?List.length_app; cbn;
    repeat split; lia.
Qed.

End HwmonCache.

Lemma refresh_touches_one_slot_witness :
  let w' := after (sd109_get_voltage (K := linux64) 0) working_world in
  result (sd109_get_voltage (K := linux64) 0) working_world = 5012 /\
  slot_value Input (data w') 0 = 5012 /\
  slot_valid Input (data w') 1 = false /\
  slot_valid Max (data w') 0 = false.
Proof.
  intros w'.
  assert (Hwf : wf_data (data working_world))
    by (vm_compute; repeat split; reflexivity).
  assert (Hch : 0 <= 0 < NUM_CH_VIN) by (unfold NUM_CH_VIN; lia).
  destruct (refresh_touches_one_slot (K := linux64) Input 0 working_world
              Hwf Hch eq_refl eq_refl)
    as (Hres & _ & (_ & Hval & _) & Hother & _).
  split; [exact Hres|]. split; [exact Hval|].
  assert (H01 : (0 <= 1)) by lia. assert (H00 : (0 <= 0)) by lia.
  destruct (Hother Input 1 H01) as (Hv1 & _);
    [right; discriminate|].
  destruct (Hother Max 0 H00) as (Hv2 & _);
    [left; discriminate|].
  split; [exact Hv1 | exact Hv2].
Defined.

Lemma cache_hit_any_kind_witness :
  let get := sd109_read_in (K := linux64) hwmon_in_max 2 0 in
  let w1 := set_jiffies 1250 (after get working_world) in
  result get w1 = (0, 0) /\ after get w1 = w1.
Proof.
  intros get w1.
  assert (Hwf : wf_data (data working_world))
    by (vm_compute; repeat split; reflexivity).
  assert (Hch : 0 <= 2 < NUM_CH_VIN) by (unfold NUM_CH_VIN; lia).
  assert (HB : 0 < BITS_PER_LONG (Kernel := linux64)) by (simpl; lia).
  assert (HHZ : 0 <= HZ (Kernel := linux64)
                < 2 ^ (BITS_PER_LONG (Kernel := linux64) - 1))
    by (simpl; lia).
  assert (Hd : 0 <= 250 <= HZ (Kernel := linux64)) by (simpl; lia).
  exact (cache_hit_any_kind (K := linux64) Max 2 250 working_world
           Hwf Hch HB HHZ eq_refl eq_refl Hd).
Defined.

Lemma failed_read_is_retried_witness :
  let get := sd109_read_in (K := linux64) hwmon_in_input 0 0 in
  result get failing_world = (0, 0) /\
  result get (after get failing_world) = (0, 5012).
Proof.
  intros get.
  assert (Hch : 0 <= 0 < NUM_CH_VIN) by (unfold NUM_CH_VIN; lia).
  destruct (failed_read_is_retried (K := linux64) Input 0 failing_world 5
              Hch eq_refl eq_refl eq_refl) as (_ & Hres & _).
  split; [reflexivity | exact Hres].
Defined.

Lemma read_in_value_u16_witness :
  is_word16 (snd (result (sd109_read_in (K := linux64) hwmon_in_min 4 0)
                    working_world)).
Proof.
  assert (Hwf : wf_data (data working_world))
    by (vm_compute; repeat split; reflexivity).
  assert (Hz : is_word16 0) by (unfold is_word16; lia).
  assert (Hcells : cells_u16 (data working_world))
    by (repeat split; exact (Forall_replicate is_word16 5 0 Hz)).
  assert (Hch : 0 <= 4 < NUM_CH_VIN) by (unfold NUM_CH_VIN; lia).
  exact (proj1 (proj2 (read_in_value_u16 (K := linux64) Min 4 0 working_world
                         Hwf Hcells Hch))).
Defined.

Section HwmonFiles.

Context {K : Kernel}.

(** X8. The files of the hwmon facade and what stands behind them. The
    mode [sd109_is_visible] gives is [S_IRUGO] or 0, never with a write
    bit. For a channel 0 to 4, an attribute is visible exactly when
    [sd109_read] or [sd109_read_string] serves it. [sd109_read_string]
    gives a label exactly for the label attribute of the channels 0 to 4;
    asked for the label of another channel it stores the null pointer, in
    its other refusals it leaves the pointer alone. *)
Theorem visible_attributes_are_served
    (type : hwmon_sensor_types) (attr : hwmon_in_attr) (channel : Z)
    (str : option string) (w : world) :
  let vis := sd109_is_visible type attr channel in
  (vis = S_IRUGO \/ vis = 0) /\
  Z.land vis S_IWUGO = 0 /\
  (0 <= channel < NUM_CH_VIN ->
   (vis <> 0 <->
    fst (result (sd109_read type attr channel 0) w) = 0 \/
    fst (sd109_read_string type attr channel str) = 0)) /\
  (fst (sd109_read_string type attr channel str) = 0 <->
   type = hwmon_in /\ attr = hwmon_in_label /\ 0 <= channel < NUM_CH_VIN) /\
  (fst (sd109_read_string type attr channel str) <> 0 ->
   fst (sd109_read_string type attr channel str) = - EOPNOTSUPP /\
   snd (sd109_read_string type attr channel str) =
     match type, attr with
     | hwmon_in, hwmon_in_label => None
     | _, _ => str
     end).
Proof.
  intros vis. subst vis. unfold NUM_CH_VIN.
  split; [destruct type, attr; cbn; auto|].
  split; [destruct type, attr; reflexivity|].
  split; [|split].
  - intros Hch.
    assert (Hread : forall k, fst (result (sd109_read hwmon_in (kind_attr k) channel 0) w) = 0).
    { intros k. unfold sd109_read, result.
      now rewrite (read_in_kind k channel 0 w Hch). }
    assert (Hlabel : fst (sd109_read_string hwmon_in hwmon_in_label channel str) = 0).
    { unfold sd109_read_string.
      repeat match goal with
      | |- context [channel =? ?n] => destruct (Z.eqb_spec channel n)
      end; try reflexivity; lia. }
    destruct type, attr; cbn [sd109_is_visible];
      try (split; [intros _|intros _; unfold S_IRUGO; lia]);
      try (left; first [exact (Hread Input) | exact (Hread Min) | exact (Hread Max)]);
      try (right; exact Hlabel);
      split; try congruence;
      cbn; unfold EOPNOTSUPP; intros [Hc|Hc]; lia.
  - unfold sd109_read_string.
    destruct type, attr; cbn -[Z.eqb];
      repeat match goal with
      | |- context [channel =? ?n] => destruct (Z.eqb_spec channel n)
      end; cbn; unfold EOPNOTSUPP;
      split; try (intros (Ht & Ha & Hc)); try intros Hc;
      try congruence; try lia; repeat split; try reflexivity; lia.
  - unfold sd109_read_string.
    destruct type, attr; cbn -[Z.eqb];
      repeat match goal with
      | |- context [channel =? ?n] => destruct (Z.eqb_spec channel n)
      end; cbn; intros Hne; try (exfalso; apply Hne; reflexivity);
      split; reflexivity.
Qed.

End HwmonFiles.

(** ** Watchdog *)

Section WatchdogOps.

Context {K : Kernel}.

(** X9. Ping, start and stop each issue exactly one bus transaction: the
    write of the magic value to the refresh register, of the enable code
    and of the disable code to the command register. Each returns the
    status of its write, [0] or the negative errno, and leaves the private
    data alone; after a successful write the register holds the value. *)
Theorem wdt_commands (w : world) :
  let st := fault_status (fault (bus w) (length (trace (bus w)))) in
  let spec (op : M Z) (reg val : Z) :=
    result op w = st /\
    trace (bus (after op w)) = trace (bus w) ++ [BusWrite reg val] /\
    data (after op w) = data w /\
    (st = 0 -> regs (bus (after op w)) reg = val) in
  st <= 0 /\
  spec sd109_wdt_ping SD109_WDOG_REFRESH SD109_WDOG_REFRESH_MAGIC_VALUE /\
  spec sd109_wdt_start SD109_COMMAND SD109_WDOG_ENABLE /\
  spec sd109_wdt_stop SD109_COMMAND SD109_WDOG_DISABLE.
Proof.
  cbv zeta. unfold sd109_wdt_ping, sd109_wdt_start, sd109_wdt_stop.
  drv_run. unfold fault_status.
  destruct (fault (bus w) (length (trace (bus w)))) as [e|];
    drv_run; repeat split; try reflexivity; try lia; intros; lia.
Qed.

(** X10. Once [sd109_wdt_settimeout] has accepted its argument, a failure
    of the register write goes unnoticed: the call returns [0] and records
    the timeout in the watchdog device, while the timeout register of the
    device keeps its old content. *)
Theorem settimeout_failed_write (to : Z) (w : world) (e : positive) :
  watchdog_timeout_invalid (wdd (data w)) to || (255 <? to) = false ->
  fault (bus w) (length (trace (bus w))) = Some e ->
  let w' := after (sd109_wdt_settimeout to) w in
  result (sd109_wdt_settimeout to) w = 0 /\
  timeout (wdd (data w')) = to /\
  regs (bus w') = regs (bus w) /\
  trace (bus w') =
    trace (bus w) ++
      [BusWrite SD109_WDOG_TIMEOUT (wdog_reg_value (wdog_wait (data w)) to)].
Proof.
  intros Hok Hfail. unfold sd109_wdt_settimeout. drv_run.
  rewrite Hok, Hfail. drv_run. repeat split; reflexivity.
Qed.

(** What [sd109_wdog_init] leaves behind once it has read the timeout
    register. *)
Lemma wdog_init_outcome (w : world) :
  fault (bus w) (length (trace (bus w))) = None ->
  let tinfo := Z.land (regs (bus w) SD109_WDOG_TIMEOUT) 0xffff in
  let d := data w in
  let w' := after sd109_wdog_init w in
  result sd109_wdog_init w = watchdog_register_ret (plat w) /\
  wdd_registered w' =
    (if watchdog_register_ret (plat w) =? 0 then true else wdd_registered w) /\
  wdt_info_firmware_version w' = firmware_version d /\
  nowayout (wdd (data w')) = nowayout (wdd d) || overlay_wdog_nowayout d /\
  device_wdog_timeout (data w') = wdog_timeout_of tinfo /\
  device_wdog_wait (data w') = wdog_wait_of tinfo /\
  timeout (wdd (data w')) = adopted_timeout d tinfo /\
  wdog_wait (data w') = adopted_wait d tinfo /\
  hwmon_registered w' = hwmon_registered w /\
  rtc_registered w' = rtc_registered w /\
  notifier_registered w' = notifier_registered w.
Proof.
  intros Hok tinfo d w'. subst w' d.
  unfold adopted_timeout, adopted_wait.
  assert (Hdev : to_uint (wdog_timeout_of tinfo) = wdog_timeout_of tinfo).
  { apply to_uint_small. pose proof (wdog_timeout_of_range tinfo). lia. }
  subst tinfo. unfold sd109_wdog_init, sd109_wdt_settimeout.
  drv_run. rewrite Hok. drv_run.
  destruct (overlay_wdog_timeout (data w) =? -1) eqn:Eto;
    destruct (overlay_wdog_wait (data w) <? SD109_MIN_WDOG_WAIT) eqn:Ewt;
    destruct (overlay_wdog_nowayout (data w)) eqn:Enwo; drv_run;
    rewrite ?Eto, ?Ewt, ?Enwo; drv_run; rewrite ?Hdev;
    repeat (first [case_cond | case_fault]; drv_run);
    try congruence;
    rewrite ?orb_true_r, ?orb_false_r;
    repeat match goal with
    | H : (?r =? 0) = true |- _ => apply Z.eqb_eq in H; rewrite ?H
    end;
    repeat split; reflexivity.
Qed.

End WatchdogOps.

Section WatchdogInit.

Context {K : Kernel}.

(** X11. When the read of the timeout register fails, [sd109_wdog_init]
    returns the errno of the read, logs one line and stops: the failed read
    is its only bus transaction, nothing is adopted and the watchdog is not
    registered. One change of the private data is made before the read and
    stays: the driver data of the watchdog device holds the address of the
    private data. *)
Theorem wdog_init_read_failure (w : world) (e : positive) :
  fault (bus w) (length (trace (bus w))) = Some e ->
  sd109_wdog_init w =
    (Z.neg e,
     set_klog (klog w ++ ["failed to read I2C when init watchdog"%string])
       (set_bus (log_op (BusRead SD109_WDOG_TIMEOUT) (bus w))
          (set_data (set_wdd (set_driver_data true (wdd (data w))) (data w))
             w))).
Proof.
  intros Hfail. unfold sd109_wdog_init. drv_run. rewrite Hfail. reflexivity.
Qed.

(** X12. Once the timeout register is read, [sd109_wdog_init] returns
    what [watchdog_register_device] returns, whatever became of the write
    back to the device; the watchdog is registered exactly when that is 0.
    The firmware version is copied to the watchdog info, and the no-way-out
    bit is set when the overlay asks for it and never cleared. *)
Theorem wdog_init_registration (w : world) :
  fault (bus w) (length (trace (bus w))) = None ->
  let w' := after sd109_wdog_init w in
  result sd109_wdog_init w = watchdog_register_ret (plat w) /\
  wdd_registered w' =
    (if watchdog_register_ret (plat w) =? 0 then true else wdd_registered w) /\
  wdt_info_firmware_version w' = firmware_version (data w) /\
  nowayout (wdd (data w')) =
    nowayout (wdd (data w)) || overlay_wdog_nowayout (data w).
Proof.
  intros Hok.
  destruct (wdog_init_outcome w Hok) as (H1 & H2 & H3 & H4 & _).
  cbv zeta. auto.
Qed.

(** X13. The values [sd109_wdog_init] takes from the device are bounded:
    the timeout is 0 to 255 seconds and the wait a multiple of 5 from 0 to
    1275 seconds. The wait it adopts is one of these or an overlay value
    of at least 45, so it is never negative; the timeout it adopts is an
    unsigned 32-bit number. *)
Theorem wdog_init_bounds (w : world) :
  fault (bus w) (length (trace (bus w))) = None ->
  let d' := data (after sd109_wdog_init w) in
  0 <= device_wdog_timeout d' <= 255 /\
  (0 <= device_wdog_wait d' <= 1275 /\ device_wdog_wait d' mod 5 = 0) /\
  0 <= wdog_wait d' /\
  (wdog_wait d' = device_wdog_wait d' \/ SD109_MIN_WDOG_WAIT <= wdog_wait d') /\
  0 <= timeout (wdd d') < 2 ^ 32.
Proof.
  intros Hok d'. subst d'.
  destruct (wdog_init_outcome w Hok)
    as (_ & _ & _ & _ & Hdt & Hdw & Hto & Hwt & _).
  cbv zeta in *. rewrite Hdt, Hdw, Hto, Hwt.
  set (tinfo := Z.land (regs (bus w) SD109_WDOG_TIMEOUT) 0xffff).
  pose proof (wdog_timeout_of_range tinfo) as Hrange.
  assert (Hwait : 0 <= wdog_wait_of tinfo <= 1275 /\ wdog_wait_of tinfo mod 5 = 0).
  { unfold wdog_wait_of, SD109_WDOG_WAIT_MASK, SD109_WDOG_WAIT_POS.
    rewrite Z.shiftr_land. change (Z.shiftr 0xFF00 8) with (Z.ones 8).
    rewrite Z.land_ones by lia.
    pose proof (Z.mod_pos_bound (Z.shiftr tinfo 8) (2 ^ 8)).
    split; [lia|]. apply Z.mod_mul. lia. }
  unfold adopted_timeout, adopted_wait, SD109_MIN_WDOG_WAIT, to_uint.
  destruct (overlay_wdog_timeout (data w) =? -1);
    destruct (Z.ltb_spec (overlay_wdog_wait (data w)) 45);
    pose proof (Z.mod_pos_bound (overlay_wdog_timeout (data w)) (2 ^ 32));
    repeat split; try lia; try tauto.
Qed.

End WatchdogInit.

Lemma wdog_init_read_failure_witness :
  let w := set_bus (fresh_regmap sample_regs (fails_at 0)) (overlay_world 60 50) in
  result (sd109_wdog_init (K := linux64)) w = - EIO /\
  driver_data (wdd (data w)) = false /\
  data (after (sd109_wdog_init (K := linux64)) w) =
    set_wdd (set_driver_data true (wdd (data w))) (data w) /\
  wdd_registered (after (sd109_wdog_init (K := linux64)) w) = false.
Proof.
  intros w.
  pose proof (wdog_init_read_failure (K := linux64) w 5 eq_refl) as H.
  unfold result, after. rewrite H. repeat split; reflexivity.
Defined.

Lemma wdog_init_registration_witness :
  let w' := after (sd109_wdog_init (K := linux64)) (overlay_world 60 50) in
  result (sd109_wdog_init (K := linux64)) (overlay_world 60 50) = 0 /\
  wdd_registered w' = true.
Proof.
  destruct (wdog_init_registration (K := linux64) (overlay_world 60 50) eq_refl)
    as (Hret & Hreg & _).
  exact (conj Hret Hreg).
Defined.

Lemma wdog_init_bounds_witness :
  let d' := data (after (sd109_wdog_init (K := linux64)) (overlay_world (-1) (-1))) in
  0 <= device_wdog_timeout d' <= 255 /\ 0 <= wdog_wait d'.
Proof.
  destruct (wdog_init_bounds (K := linux64) (overlay_world (-1) (-1)) eq_refl)
    as (Hto & _ & Hwt & _).
  exact (conj Hto Hwt).
Defined.

(** ** Watchdog bitfield, both ways *)

Lemma lor_disjoint_add (hi lo : Z) :
  0 <= lo < 2 ^ 8 -> Z.lor (Z.shiftl hi 8) lo = hi * 2 ^ 8 + lo.
Proof.
  intros Hlo. rewrite <- Z.shiftl_mul_pow2 by lia.
  rewrite <- Z.lxor_lor.
  - symmetry. apply Z.add_nocarry_lxor.
    apply Z.bits_inj'. intros n Hn. rewrite Z.land_spec, Z.bits_0.
    destruct (Z.lt_ge_cases n 8).
    + rewrite Z.shiftl_spec_low by lia. reflexivity.
    + rewrite (testbit_above lo 8 n) by lia. apply andb_false_r.
  - apply Z.bits_inj'. intros n Hn. rewrite Z.land_spec, Z.bits_0.
    destruct (Z.lt_ge_cases n 8).
    + rewrite Z.shiftl_spec_low by lia. reflexivity.
    + rewrite (testbit_above lo 8 n) by lia. apply andb_false_r.
Qed.

(** X14. The watchdog register and its two fields determine each other.
    Packing the fields unpacked from a 16-bit register value gives the
    value back. Unpacking what was packed from a timeout of at most 255
    and a wait below 1280 gives the timeout back, and the wait rounded
    down to a multiple of 5 seconds. *)
Theorem wdog_bitfield_round_trip (tinfo wait to : Z) :
  0 <= tinfo < 2 ^ 16 ->
  0 <= to <= 255 ->
  0 <= wait < 1280 ->
  wdog_reg_value (wdog_wait_of tinfo) (wdog_timeout_of tinfo) = tinfo /\
  wdog_timeout_of (wdog_reg_value wait to) = to /\
  wdog_wait_of (wdog_reg_value wait to) = wait - wait mod 5.
Proof.
  intros Htinfo Hto Hwait. split.
  - rewrite wdog_reg_value_eq.
    assert (Hlo : wdog_timeout_of tinfo = tinfo mod 2 ^ 8).
    { unfold wdog_timeout_of, SD109_WDOG_TIMEOUT_MASK, SD109_WDOG_TIMEOUT_POS.
      rewrite Z.shiftr_0_r. change 0x00FF with (Z.ones 8).
      now rewrite Z.land_ones by lia. }
    assert (Hhi : wdog_wait_of tinfo = tinfo / 2 ^ 8 * 5).
    { unfold wdog_wait_of, SD109_WDOG_WAIT_MASK, SD109_WDOG_WAIT_POS.
      rewrite Z.shiftr_land. change (Z.shiftr 0xFF00 8) with (Z.ones 8).
      rewrite Z.land_ones, Z.shiftr_div_pow2 by lia.
      rewrite Z.mod_small; [reflexivity|].
      split; [apply Z.div_pos; lia|apply Z.div_lt_upper_bound; lia]. }
    rewrite Hlo, Hhi.
    rewrite Z.quot_div_nonneg
      by (try apply Z.mul_nonneg_nonneg; try apply Z.div_pos; lia).
    rewrite Z.div_mul by lia.
    change 256 with (2 ^ 8).
    rewrite (Z.mod_small (tinfo / 2 ^ 8))
      by (split; [apply Z.div_pos; lia|apply Z.div_lt_upper_bound; lia]).
    rewrite Z.mod_mod by lia.
    rewrite lor_disjoint_add by (apply Z.mod_pos_bound; lia).
    pose proof (Z.div_mod tinfo (2 ^ 8)). lia.
  - destruct (wdog_unpack_pack wait to) as [Hto' Hwait'].
    rewrite Hto', Hwait'.
    rewrite Z.quot_div_nonneg by lia.
    assert (0 <= wait / 5 < 256)
      by (split; [apply Z.div_pos; lia|apply Z.div_lt_upper_bound; lia]).
    rewrite !Z.mod_small by lia.
    pose proof (Z.div_mod wait 5). split; lia.
Qed.

Lemma wdog_bitfield_round_trip_witness :
  wdog_reg_value (wdog_wait_of 0x0C3C) (wdog_timeout_of 0x0C3C) = 0x0C3C /\
  wdog_wait_of (wdog_reg_value 49 60) = 45.
Proof.
  assert (H1 : 0 <= 0x0C3C < 2 ^ 16) by lia.
  assert (H2 : 0 <= 60 <= 255) by lia.
  assert (H3 : 0 <= 49 < 1280) by lia.
  destruct (wdog_bitfield_round_trip 0x0C3C 49 60 H1 H2 H3) as (Hp & _ & Hu).
  exact (conj Hp Hu).
Defined.

(** ** Real time clock *)

(** The index of the next transactions of a bus. *)
Ltac next_index :=
  rewrite ?List.length_app; cbn [length];
  rewrite <- ?Nat.add_assoc; cbn [Nat.add].

Lemma time_decode_encode_mod (t : Z) :
  time_decode (time_encode t) = t mod 2 ^ 48.
Proof.
  unfold time_decode, time_encode, time_word0, time_word1, time_word2.
  apply Z.bits_inj'. intros n Hn.
  destruct (Z.lt_ge_cases n 48);
    [rewrite (Z.mod_pow2_bits_low t 48 n) by lia
    |rewrite (Z.mod_pow2_bits_high t 48 n) by lia];
    bits_cases n; bits_of; split_ltb;
    rewrite ?andb_true_r, ?andb_false_r, ?orb_false_r, ?orb_false_l;
    try reflexivity; try (f_equal; lia).
Qed.

(** X15. A failing word write stops [sd109_rtc_set_time] where it is:
    the words before it are written and stay in the device, the words
    after it are not sent, the call returns the errno of the failing write.
    The clock of the device can so hold words of two different times. *)
Theorem set_time_partial_write (t : Z) (w : world) (e : positive) :
  t <= RTC_MAX_TIME ->
  let n := length (trace (bus w)) in
  let w' := after (sd109_rtc_set_time t) w in
  let W0 := BusWrite SD109_RTC0 (time_word0 t) in
  let W1 := BusWrite SD109_RTC1 (time_word1 t) in
  let W2 := BusWrite SD109_RTC2 (time_word2 t) in
  (fault (bus w) n = Some e ->
   result (sd109_rtc_set_time t) w = Z.neg e /\
   trace (bus w') = trace (bus w) ++ [W0] /\
   regs (bus w') = regs (bus w)) /\
  (fault (bus w) n = None -> fault (bus w) (n + 1) = Some e ->
   result (sd109_rtc_set_time t) w = Z.neg e /\
   trace (bus w') = trace (bus w) ++ [W0; W1] /\
   regs (bus w') SD109_RTC0 = time_word0 t /\
   regs (bus w') SD109_RTC1 = regs (bus w) SD109_RTC1 /\
   regs (bus w') SD109_RTC2 = regs (bus w) SD109_RTC2) /\
  (fault (bus w) n = None -> fault (bus w) (n + 1) = None ->
   fault (bus w) (n + 2) = Some e ->
   result (sd109_rtc_set_time t) w = Z.neg e /\
   trace (bus w') = trace (bus w) ++ [W0; W1; W2] /\
   regs (bus w') SD109_RTC0 = time_word0 t /\
   regs (bus w') SD109_RTC1 = time_word1 t /\
   regs (bus w') SD109_RTC2 = regs (bus w) SD109_RTC2).
Proof.
  intros Ht n w' W0 W1 W2. subst n w' W0 W1 W2.
  assert (Hw0 : Z.land (time_word0 t) 0xffff = time_word0 t)
    by (apply land_mask16_id, land_mask16_range).
  assert (Hw1 : Z.land (time_word1 t) 0xffff = time_word1 t)
    by (apply land_mask16_id, land_mask16_range).
  unfold sd109_rtc_set_time.
  destruct (Z.ltb_spec RTC_MAX_TIME t); [lia|].
  split; [|split].
  - intros H0. drv_run. rewrite H0. drv_run. repeat split; reflexivity.
  - intros H0 H1. drv_run. rewrite H0. drv_run. next_index.
    rewrite H1. change (Z.neg e =? 0) with false. drv_run.
    rewrite <- app_assoc, Hw0. repeat split; reflexivity.
  - intros H0 H1 H2. drv_run. rewrite H0. drv_run. next_index.
    rewrite H1. drv_run. next_index. rewrite H2.
    change (Z.neg e =? 0) with false. drv_run.
    rewrite <- !app_assoc, Hw0, Hw1. repeat split; reflexivity.
Qed.

(** X16. [sd109_rtc_set_time] tests its argument against the upper bound
    only. On a working bus every time up to [2^48-1], the negative ones
    included, is written, and what is read back is the time modulo [2^48]:
    the time itself when it is not negative, another time otherwise. *)
Theorem set_time_reads_back_mod (t tm : Z) (w : world) :
  t <= RTC_MAX_TIME ->
  no_fault w ->
  result (sd109_rtc_set_time t) w = 0 /\
  result (sd109_rtc_read_time tm) (after (sd109_rtc_set_time t) w)
    = (0, t mod 2 ^ 48) /\
  (0 <= t -> t mod 2 ^ 48 = t) /\
  (t < 0 -> t mod 2 ^ 48 <> t).
Proof.
  intros Ht Hnf. unfold result at 1, after.
  rewrite sd109_rtc_set_time_ok by assumption.
  split; [reflexivity|]. split; [|split].
  - rewrite sd109_rtc_read_time_ok by (intros n; apply Hnf).
    drv_run.
    rewrite <- (time_decode_encode_mod t).
    unfold time_decode, time_encode.
    rewrite !(land_mask16_id (Z.land _ _)) by apply land_mask16_range.
    reflexivity.
  - intros H0. apply Z.mod_small. unfold RTC_MAX_TIME in Ht. lia.
  - intros Hneg. pose proof (Z.mod_pos_bound t (2 ^ 48)). lia.
Qed.

(** X17. A failing word read stops [sd109_rtc_read_time] and
    [sd109_rtc_read_alarm] where they are: with the [i]-th of the three
    reads failing after [i] that worked, the call returns the errno of that
    read and leaves the time, or the alarm, of the caller as it was. It has
    issued [i + 1] reads and nothing else, and the private data and the
    registers are as before. *)
Theorem rtc_read_aborts
    (i : nat) (tm : Z) (alrm : rtc_wkalrm) (w : world) (e : positive) :
  (i < 3)%nat ->
  (forall j, (j < i)%nat -> fault (bus w) (length (trace (bus w)) + j) = None) ->
  fault (bus w) (length (trace (bus w)) + i) = Some e ->
  (result (sd109_rtc_read_time tm) w = (Z.neg e, tm) /\
   trace (bus (after (sd109_rtc_read_time tm) w)) =
     trace (bus w) ++
       firstn (S i) [BusRead SD109_RTC0; BusRead SD109_RTC1; BusRead SD109_RTC2] /\
   data (after (sd109_rtc_read_time tm) w) = data w /\
   regs (bus (after (sd109_rtc_read_time tm) w)) = regs (bus w)) /\
  (result (sd109_rtc_read_alarm alrm) w = (Z.neg e, alrm) /\
   trace (bus (after (sd109_rtc_read_alarm alrm) w)) =
     trace (bus w) ++
       firstn (S i)
         [BusRead SD109_WAKEUP0; BusRead SD109_WAKEUP1; BusRead SD109_WAKEUP2] /\
   data (after (sd109_rtc_read_alarm alrm) w) = data w /\
   regs (bus (after (sd109_rtc_read_alarm alrm) w)) = regs (bus w)).
Proof.
  intros Hi Hbefore Hfail.
  unfold sd109_rtc_read_time, sd109_rtc_read_alarm.
  destruct i as [|[|[|i]]]; [| | |lia].
  - rewrite Nat.add_0_r in Hfail.
    drv_run. rewrite Hfail. drv_run. repeat split; reflexivity.
  - pose proof (Hbefore 0%nat ltac:(lia)) as H0. rewrite Nat.add_0_r in H0.
    drv_run. rewrite H0. drv_run. next_index. rewrite Hfail.
    change (Z.neg e =? 0) with false. drv_run.
    rewrite <- !app_assoc. repeat split; reflexivity.
  - pose proof (Hbefore 0%nat ltac:(lia)) as H0. rewrite Nat.add_0_r in H0.
    pose proof (Hbefore 1%nat ltac:(lia)) as H1.
    drv_run. rewrite H0. drv_run. next_index. rewrite H1. drv_run.
    next_index. rewrite Hfail. change (Z.neg e =? 0) with false. drv_run.
    rewrite <- !app_assoc. repeat split; reflexivity.
Qed.

Lemma set_time_partial_write_witness :
  let w' := after (sd109_rtc_set_time 1700000000) failing_second_world in
  result (sd109_rtc_set_time 1700000000) failing_second_world = - EIO /\
  regs (bus w') SD109_RTC0 = 0xF100 /\
  regs (bus w') SD109_RTC1 = 0.
Proof.
  assert (Ht : 1700000000 <= RTC_MAX_TIME) by (unfold RTC_MAX_TIME; lia).
  destruct (set_time_partial_write 1700000000 failing_second_world 5 Ht)
    as (_ & Hsecond & _).
  destruct (Hsecond eq_refl eq_refl) as (Hret & _ & H0 & H1 & _).
  exact (conj Hret (conj H0 H1)).
Defined.

Lemma set_time_reads_back_mod_witness :
  result (sd109_rtc_read_time 0) (after (sd109_rtc_set_time (-1)) working_world)
    = (0, 2 ^ 48 - 1).
Proof.
  assert (Ht : -1 <= RTC_MAX_TIME) by (unfold RTC_MAX_TIME; lia).
  assert (Hnf : no_fault working_world) by (intros n; reflexivity).
  destruct (set_time_reads_back_mod (-1) 0 working_world Ht Hnf)
    as (_ & Hread & _).
  exact Hread.
Defined.

Lemma rtc_read_aborts_witness :
  result (sd109_rtc_read_time 7) failing_second_world = (- EIO, 7) /\
  trace (bus (after (sd109_rtc_read_time 7) failing_second_world)) =
    trace (bus failing_second_world) ++ [BusRead SD109_RTC0; BusRead SD109_RTC1].
Proof.
  assert (Hi : (1 < 3)%nat) by lia.
  assert (Hbefore : forall j, (j < 1)%nat ->
            fault (bus failing_second_world)
              (length (trace (bus failing_second_world)) + j) = None).
  { intros j Hj. assert (j = 0%nat) as -> by lia. reflexivity. }
  destruct (rtc_read_aborts 1 7
              {| alrm_enabled := 0; alrm_pending := 0; alrm_time := 0 |}
              failing_second_world 5 Hi Hbefore eq_refl)
    as ((Hret & Htr & _) & _).
  exact (conj Hret Htr).
Defined.

(** The alarm flags after [sd109_rtc_set_alarm], on every path. *)
Lemma set_alarm_data (alrm : rtc_wkalrm) (w : world) :
  data (after (sd109_rtc_set_alarm alrm) w) =
    set_alarm_pending (to_bool (alrm_pending alrm))
      (set_alarm_enabled (to_bool (alrm_enabled alrm)) (data w)).
Proof.
  unfold sd109_rtc_set_alarm. drv_run.
  repeat (first [case_cond | case_fault]; drv_run); reflexivity.
Qed.

(** [sd109_rtc_read_alarm] when its three reads succeed. *)
Lemma read_alarm_three_ok (alrm : rtc_wkalrm) (w : world) :
  (forall j, (j < 3)%nat -> fault (bus w) (length (trace (bus w)) + j) = None) ->
  result (sd109_rtc_read_alarm alrm) w =
    (0, {| alrm_enabled := Z.b2z (alarm_enabled (data w));
           alrm_pending := Z.b2z (alarm_pending (data w));
           alrm_time := time_decode (regs (bus w) SD109_WAKEUP0,
                                     regs (bus w) SD109_WAKEUP1,
                                     regs (bus w) SD109_WAKEUP2) |}).
Proof.
  intros Hok.
  pose proof (Hok 0%nat ltac:(lia)) as H0. rewrite Nat.add_0_r in H0.
  pose proof (Hok 1%nat ltac:(lia)) as H1.
  pose proof (Hok 2%nat ltac:(lia)) as H2.
  unfold sd109_rtc_read_alarm.
  drv_run. rewrite H0. drv_run. next_index. rewrite H1. drv_run.
  next_index. rewrite H2. drv_run.
  unfold time_decode.
  rewrite !(land_mask16_id (Z.land _ _)) by apply land_mask16_range.
  reflexivity.
Qed.

(** X18. The enabled and pending flags [sd109_rtc_read_alarm] reports are
    those of the last [sd109_rtc_set_alarm], as 0 or 1, whatever became of
    that call (rejected for its time, stopped by a failing write, or
    completed) and whatever the alarm registers hold: the device is not
    asked for them. *)
Theorem alarm_flags_are_shadowed (alrm old : rtc_wkalrm) (w : world) :
  let w1 := after (sd109_rtc_set_alarm alrm) w in
  (forall j, (j < 3)%nat ->
     fault (bus w1) (length (trace (bus w1)) + j) = None) ->
  let r := result (sd109_rtc_read_alarm old) w1 in
  fst r = 0 /\
  alrm_enabled (snd r) = Z.b2z (to_bool (alrm_enabled alrm)) /\
  alrm_pending (snd r) = Z.b2z (to_bool (alrm_pending alrm)).
Proof.
  intros w1 Hok r. subst r.
  rewrite (read_alarm_three_ok old w1 Hok). subst w1.
  rewrite set_alarm_data. repeat split; reflexivity.
Qed.

Lemma alarm_flags_are_shadowed_witness :
  let alrm := {| alrm_enabled := 2; alrm_pending := 0; alrm_time := 2 ^ 48 |} in
  let old := {| alrm_enabled := 0; alrm_pending := 1; alrm_time := 5 |} in
  let r := result (sd109_rtc_read_alarm old)
             (after (sd109_rtc_set_alarm alrm) working_world) in
  alrm_enabled (snd r) = 1 /\ alrm_pending (snd r) = 0.
Proof.
  intros alrm old r.
  assert (Hok : forall j, (j < 3)%nat ->
            fault (bus (after (sd109_rtc_set_alarm alrm) working_world))
              (length (trace (bus (after (sd109_rtc_set_alarm alrm) working_world))) + j)
            = None) by (intros j _; reflexivity).
  destruct (alarm_flags_are_shadowed alrm old working_world Hok)
    as (_ & He & Hp).
  exact (conj He Hp).
Defined.

(** X19. [sd109_alarm_irq_enable] always returns [0]. Enabling touches
    nothing. Disabling sends a zero to each of the three alarm words, the
    later ones also when an earlier write failed, and leaves the flags of
    the private data alone: on a working bus the alarm read next has the
    time 0 and the flags it had before. *)
Theorem alarm_irq_enable_clears (enabled : Z) (old : rtc_wkalrm) (w : world) :
  let w' := after (sd109_alarm_irq_enable enabled) w in
  result (sd109_alarm_irq_enable enabled) w = 0 /\
  data w' = data w /\
  (enabled <> 0 -> w' = w) /\
  (enabled = 0 ->
   trace (bus w') =
     trace (bus w) ++ [BusWrite SD109_WAKEUP0 0; BusWrite SD109_WAKEUP1 0;
                       BusWrite SD109_WAKEUP2 0]) /\
  (enabled = 0 -> no_fault w ->
   result (sd109_rtc_read_alarm old) w' =
     (0, {| alrm_enabled := Z.b2z (alarm_enabled (data w));
            alrm_pending := Z.b2z (alarm_pending (data w));
            alrm_time := 0 |})).
Proof.
  intros w'. subst w'. unfold sd109_alarm_irq_enable.
  destruct (Z.eqb_spec enabled 0) as [->|Hne].
  - split; [|split; [|split; [|split]]].
    + drv_run. repeat (case_fault; drv_run); reflexivity.
    + drv_run. repeat (case_fault; drv_run); reflexivity.
    + intros Hc. contradiction.
    + intros _. drv_run. repeat (case_fault; drv_run);
        rewrite <- !app_assoc; reflexivity.
    + intros _ Hnf.
      rewrite sd109_rtc_read_alarm_ok.
      * drv_run. rewrite Hnf. drv_run. rewrite Hnf. drv_run.
        rewrite Hnf. drv_run. reflexivity.
      * intros n. drv_run. repeat (case_fault; drv_run); apply Hnf.
  - drv_run. repeat split; try reflexivity; intros; contradiction.
Qed.

Lemma alarm_irq_enable_clears_witness :
  let alrm := {| alrm_enabled := 1; alrm_pending := 0; alrm_time := 1700000000 |} in
  let w1 := after (sd109_rtc_set_alarm alrm) working_world in
  result (sd109_rtc_read_alarm alrm) (after (sd109_alarm_irq_enable 0) w1) =
    (0, {| alrm_enabled := 1; alrm_pending := 0; alrm_time := 0 |}).
Proof.
  intros alrm w1.
  destruct (alarm_irq_enable_clears 0 alrm w1) as (_ & _ & _ & _ & Hread).
  assert (Hnf : no_fault w1) by (intros n; reflexivity).
  exact (Hread eq_refl Hnf).
Defined.

(** ** Reboot notifier *)

(** X20. The notifier maps the three shutdown codes to three commands:
    power off to 3, restart to 4, halt to 5, each sent with one write to
    the command register. Any other code makes it do nothing at all. It
    returns [NOTIFY_DONE] in every case and never changes the private
    data. *)
Theorem notify_reboot_codes (code : Z) (w : world) :
  let w' := after (sd109_notify_reboot code) w in
  result (sd109_notify_reboot code) w = NOTIFY_DONE /\
  data w' = data w /\
  trace (bus w') =
    trace (bus w) ++
      (if code =? SYS_POWER_OFF then [BusWrite SD109_COMMAND 3]
       else if code =? SYS_RESTART then [BusWrite SD109_COMMAND 4]
       else if code =? SYS_HALT then [BusWrite SD109_COMMAND 5]
       else []) /\
  (code <> SYS_POWER_OFF -> code <> SYS_RESTART -> code <> SYS_HALT -> w' = w).
Proof.
  intros w'. subst w'. unfold sd109_notify_reboot.
  destruct (Z.eqb_spec code SYS_POWER_OFF);
    [|destruct (Z.eqb_spec code SYS_RESTART);
      [|destruct (Z.eqb_spec code SYS_HALT)]];
    drv_run; try (case_fault; drv_run);
    rewrite ?app_nil_r; repeat split; try reflexivity; intros; contradiction.
Qed.

(** ** What a computation leaves alone

    The rules follow the structure of computations, as those for the size
    of the arrays do. *)

Lemma keeps_ret {X A} (f : world -> X) (a : A) : keeps f (ret a).
Proof. intros w. reflexivity. Qed.

Lemma keeps_bind {X A B} (f : world -> X) (m : M A) (k : A -> M B) :
  keeps f m -> (forall a, keeps f (k a)) -> keeps f (bind m k).
Proof.
  intros Hm Hk w. unfold after, bind.
  specialize (Hm w). unfold after in Hm.
  destruct (m w) as [a w1]. cbn in Hm. rewrite <- Hm. exact (Hk a w1).
Qed.

Lemma keeps_gets {X A} (f : world -> X) (g : world -> A) : keeps f (gets g).
Proof. intros w. reflexivity. Qed.

Lemma keeps_modify {X} (f : world -> X) (g : world -> world) :
  (forall w, f (g w) = f w) -> keeps f (modify g).
Proof. intros Hg w. exact (Hg w). Qed.

Lemma keeps_update_data {X} (f : world -> X)
    (g : sd109_private -> sd109_private) :
  (forall w, f (set_data (g (data w)) w) = f w) -> keeps f (update_data g).
Proof. intros Hg w. exact (Hg w). Qed.

Lemma keeps_dev_log {X} (f : world -> X) (msg : string) :
  (forall w l, f (set_klog l w) = f w) -> keeps f (dev_log msg).
Proof. intros Hf w. apply Hf. Qed.

Lemma keeps_regmap_read {X} (f : world -> X) (reg val : Z) :
  (forall w m, f (set_bus m w) = f w) -> keeps f (regmap_read reg val).
Proof.
  intros Hf w. unfold after, regmap_read. destruct (fault _ _); apply Hf.
Qed.

Lemma keeps_regmap_write {X} (f : world -> X) (reg val : Z) :
  (forall w m, f (set_bus m w) = f w) -> keeps f (regmap_write reg val).
Proof.
  intros Hf w. unfold after, regmap_write. destruct (fault _ _); apply Hf.
Qed.

(** Applies the rules along a computation; the side conditions are closed
    by computation. *)
Ltac keeps_side :=
  intros; try case_cond; reflexivity.

Ltac keeps_step :=
  first
    [ apply keeps_ret
    | apply keeps_gets
    | apply keeps_dev_log; keeps_side
    | apply keeps_regmap_read; keeps_side
    | apply keeps_regmap_write; keeps_side
    | apply keeps_modify; keeps_side
    | apply keeps_update_data; keeps_side
    | apply keeps_bind; [|intros ?]
    | match goal with
      | |- keeps _ (if ?b then _ else _) => destruct b
      | |- keeps _ (match ?o with Some _ => _ | None => _ end) => destruct o
      | |- keeps _ (let '(_, _) := ?p in _) => destruct p
      end ].

Section Isolation.

Context {K : Kernel}.

(** X21. The three facades keep to their own part of the state. A hwmon
    read changes neither the watchdog fields nor the alarm flags; the
    watchdog operations change neither the voltage cache nor the alarm
    flags; the clock operations change neither the voltage cache nor the
    watchdog fields; the reboot notifier changes no private data. None of
    them changes what is registered with the kernel. This holds on every
    path, whatever the bus does. *)
Theorem facades_are_isolated :
  (forall type attr channel val,
     keeps (fun w => (wdog_part w, alarm_part w, registrations w))
       (sd109_read type attr channel val)) /\
  (keeps (fun w => (cache_part w, alarm_part w, registrations w)) sd109_wdt_ping /\
   keeps (fun w => (cache_part w, alarm_part w, registrations w)) sd109_wdt_start /\
   keeps (fun w => (cache_part w, alarm_part w, registrations w)) sd109_wdt_stop /\
   forall to,
     keeps (fun w => (cache_part w, alarm_part w, registrations w))
       (sd109_wdt_settimeout to)) /\
  ((forall t,
      keeps (fun w => (cache_part w, wdog_part w, registrations w))
        (sd109_rtc_set_time t)) /\
   (forall tm,
      keeps (fun w => (cache_part w, wdog_part w, registrations w))
        (sd109_rtc_read_time tm)) /\
   (forall alrm,
      keeps (fun w => (cache_part w, wdog_part w, registrations w))
        (sd109_rtc_set_alarm alrm)) /\
   (forall alrm,
      keeps (fun w => (cache_part w, wdog_part w, registrations w))
        (sd109_rtc_read_alarm alrm)) /\
   (forall enabled,
      keeps (fun w => (cache_part w, wdog_part w, registrations w))
        (sd109_alarm_irq_enable enabled))) /\
  (forall code,
     keeps (fun w => (data w, registrations w)) (sd109_notify_reboot code)).
Proof.
  split; [|split; [|split]].
  - intros type attr channel val.
    unfold sd109_read, sd109_read_in, sd109_get_voltage, sd109_get_voltage_min,
      sd109_get_voltage_max.
    destruct type, attr; repeat keeps_step.
  - unfold sd109_wdt_ping, sd109_wdt_start, sd109_wdt_stop,
      sd109_wdt_settimeout.
    repeat match goal with |- _ /\ _ => split end; intros;
      repeat keeps_step.
  - unfold sd109_rtc_set_time, sd109_rtc_read_time, sd109_rtc_set_alarm,
      sd109_rtc_read_alarm, sd109_alarm_irq_enable.
    repeat match goal with |- _ /\ _ => split end; intros;
      repeat keeps_step.
  - intros code. unfold sd109_notify_reboot. repeat keeps_step.
Qed.

End Isolation.

(** ** Probe *)

Lemma hoare_ret {A} (P : world -> Prop) (a : A) (Q : A -> world -> Prop) :
  (forall w, P w -> Q a w) -> hoare P (ret a) Q.
Proof. intros H w HP. exact (H w HP). Qed.

Lemma hoare_pre {A} (P P' : world -> Prop) (m : M A) (Q : A -> world -> Prop) :
  (forall w, P w -> P' w) -> hoare P' m Q -> hoare P m Q.
Proof. intros HPP Hm w HP. exact (Hm w (HPP w HP)). Qed.

Lemma hoare_bind_keeps {X A B} (f : world -> X) (F : X -> Prop)
    (m : M A) (k : A -> M B) (Q : B -> world -> Prop) :
  keeps f m -> (forall a, hoare (on f F) (k a) Q) ->
  hoare (on f F) (bind m k) Q.
Proof.
  intros Hm Hk w HP. unfold result, after, bind.
  specialize (Hm w). unfold after in Hm.
  destruct (m w) as [a w1]. cbn in Hm.
  apply (Hk a w1). unfold on in *. now rewrite Hm.
Qed.

Lemma hoare_bind_modify {B} (P P' : world -> Prop) (g : world -> world)
    (k : unit -> M B) (Q : B -> world -> Prop) :
  (forall w, P w -> P' (g w)) -> hoare P' (k tt) Q ->
  hoare P (bind (modify g) k) Q.
Proof. intros Hg Hk w HP. exact (Hk (g w) (Hg w HP)). Qed.

Section ProbePaths.

Context {K : Kernel}.

Lemma keeps_wdt_settimeout {X} (f : world -> X) (to : Z) :
  (forall w m, f (set_bus m w) = f w) ->
  (forall w, f (set_data (set_wdd (set_timeout to (wdd (data w))) (data w)) w)
             = f w) ->
  keeps f (sd109_wdt_settimeout to).
Proof.
  intros Hbus Hdata. unfold sd109_wdt_settimeout.
  repeat first
    [ apply keeps_ret | apply keeps_gets
    | apply keeps_regmap_write; exact Hbus
    | apply keeps_update_data; exact Hdata
    | apply keeps_bind; [|intros ?]
    | match goal with |- keeps _ (if ?b then _ else _) => destruct b end ].
Qed.

(** [sd109_wdog_init] and the block of [sd109_probe] around it change, of
    what is registered, the watchdog device only. *)
Lemma keeps_probe_wdog (val : Z) :
  keeps (fun w => (hwmon_registered w, rtc_registered w, notifier_registered w))
    (probe_wdog val).
Proof.
  unfold probe_wdog, sd109_wdog_init.
  repeat first
    [ apply keeps_wdt_settimeout; intros; reflexivity | keeps_step ].
Qed.

Lemma keeps_rtc_init :
  keeps (fun w => (hwmon_registered w, notifier_registered w)) sd109_rtc_init.
Proof. unfold sd109_rtc_init. repeat keeps_step. Qed.

(** The end of a path of [sd109_probe]: the status is compared with what
    is registered. *)
Ltac probe_leaf :=
  apply hoare_ret; unfold on; intros ? HF; cbn;
  try (injection HF as ? ? ? ?); try (injection HF as ? ? ?);
  try (injection HF as ? ?);
  repeat match goal with
  | H : (_ <? _) = true |- _ => apply Z.ltb_lt in H
  | H : negb (_ =? _) = true |- _ =>
      apply negb_true_iff in H; apply Z.eqb_neq in H
  end;
  unfold ENOMEM, ENODEV in *;
  repeat split; intros; try congruence; try lia.

(** X22. Started with nothing registered, [sd109_probe] returns [0]
    exactly when it has registered the reboot notifier, on every path. A
    probe that returns [0] has registered the hwmon device, the rtc device
    is registered only by a probe that returns [0], and the watchdog
    device only after the hwmon device. *)
Theorem probe_status_and_registrations (w : world) :
  registrations w = (false, false, false, false) ->
  let r := result sd109_probe w in
  let w' := after sd109_probe w in
  (r = 0 <-> notifier_registered w' = true) /\
  (r = 0 -> hwmon_registered w' = true) /\
  (rtc_registered w' = true -> r = 0) /\
  (wdd_registered w' = true -> hwmon_registered w' = true).
Proof.
  revert w.
  change (hoare (on registrations (fun fl => fl = (false, false, false, false)))
            sd109_probe
            (fun r w' =>
               (r = 0 <-> notifier_registered w' = true) /\
               (r = 0 -> hwmon_registered w' = true) /\
               (rtc_registered w' = true -> r = 0) /\
               (wdd_registered w' = true -> hwmon_registered w' = true))).
  unfold sd109_probe.
  (* up to the registration of the hwmon device nothing is registered *)
  apply hoare_bind_keeps; [repeat keeps_step|intros p].
  destruct (regmap_init_err p); [probe_leaf|].
  destruct (kzalloc_fails p); [probe_leaf|].
  apply hoare_bind_keeps; [repeat keeps_step|intros _].
  apply hoare_bind_keeps; [repeat keeps_step|intros _].
  apply hoare_bind_keeps; [repeat keeps_step|intros [r val]].
  destruct (r <? 0) eqn:Er;
    [apply hoare_bind_keeps; [repeat keeps_step|intros _]; probe_leaf|].
  destruct (negb (val =? SD109_CHIP_ID));
    [apply hoare_bind_keeps; [repeat keeps_step|intros _]; probe_leaf|].
  apply hoare_bind_keeps; [repeat keeps_step|intros [r0 val0]].
  destruct (r0 <? 0) eqn:Er0;
    [apply hoare_bind_keeps; [repeat keeps_step|intros _]; probe_leaf|].
  apply hoare_bind_keeps; [repeat keeps_step|intros _].
  apply hoare_bind_keeps; [repeat keeps_step|intros [r1 val1]].
  destruct (r1 <? 0) eqn:Er1;
    [apply hoare_bind_keeps; [repeat keeps_step|intros _]; probe_leaf|].
  apply hoare_bind_keeps; [repeat keeps_step|intros _].
  destruct (hwmon_register_err p); [probe_leaf|].
  (* the hwmon device is registered; the watchdog block keeps the rest *)
  apply (hoare_bind_modify _
    (on (fun w => (hwmon_registered w, rtc_registered w, notifier_registered w))
        (fun fl => fl = (true, false, false)))).
  { unfold on, registrations. intros w0 HF. injection HF as _ _ H3 H4.
    cbn. now rewrite H3, H4. }
  apply hoare_bind_keeps; [repeat keeps_step|intros _].
  apply hoare_bind_keeps;
    [destruct (prop_wdog_enabled p);
       [apply keeps_probe_wdog | apply keeps_ret]|intros r2].
  destruct (negb (r2 =? 0)) eqn:Er2; [probe_leaf|].
  (* the rtc block keeps the hwmon device and the notifier *)
  apply (hoare_pre _
    (on (fun w => (hwmon_registered w, notifier_registered w))
        (fun fl => fl = (true, false)))).
  { unfold on. intros w0 HF. injection HF as H1 _ H3. now rewrite H1, H3. }
  apply hoare_bind_keeps;
    [destruct (prop_rtc_enabled p);
       [apply keeps_bind; [apply keeps_rtc_init|intros ?; apply keeps_ret]
       |apply keeps_ret]|intros _].
  apply (hoare_bind_modify _
    (on (fun w => (hwmon_registered w, notifier_registered w))
        (fun fl => fl = (true, true)))).
  { unfold on. intros w0 HF. injection HF as H1 _. cbn. now rewrite H1. }
  probe_leaf.
Qed.

(** The block of [sd109_probe] around [sd109_wdog_init] leaves the voltage
    cache alone. *)
Lemma keeps_cache_probe_wdog (val : Z) : keeps cache_part (probe_wdog val).
Proof.
  unfold probe_wdog, sd109_wdog_init.
  repeat first
    [ apply keeps_wdt_settimeout; intros; reflexivity | keeps_step ].
Qed.

(** X23. After a probe that returned [0] every slot of the voltage cache
    is invalid: the first reading of each channel and kind goes to the
    device, whatever the tick counter says. *)
Theorem first_reading_after_probe (k : volt_kind) (ch : Z) (w : world) :
  result sd109_probe w = 0 ->
  0 <= ch < NUM_CH_VIN ->
  slot_valid k (data (after sd109_probe w)) ch = false /\
  needs_refresh k ch (after sd109_probe w) = true.
Proof.
  intros Hret Hch.
  assert (Hcache : cache_part (after sd109_probe w)
                   = cache_part (set_data zero_data w)).
  { revert Hret. unfold sd109_probe, result, after.
    rewrite !bind_gets.
    destruct (regmap_init_err (plat w)); [cbn; intros; lia|].
    destruct (kzalloc_fails (plat w)); [cbn; unfold ENOMEM; intros; lia|].
    intros _. rewrite bind_modify.
    match goal with
    | |- cache_part (snd (?m ?w0)) = _ =>
        change (cache_part (after m w0) = cache_part w0);
        assert (Hkeeps : keeps cache_part m)
          by (repeat first [ apply keeps_cache_probe_wdog
                           | unfold sd109_rtc_init; keeps_step ]);
        apply Hkeeps
    end. }
  assert (Hvalid : slot_valid k (data (after sd109_probe w)) ch = false).
  { unfold cache_part in Hcache. cbn in Hcache.
    injection Hcache as Hv _ _ Hvmax _ _ Hvmin _ _.
    unfold NUM_CH_VIN in Hch.
    assert (Hcases : ch = 0 \/ ch = 1 \/ ch = 2 \/ ch = 3 \/ ch = 4) by lia.
    destruct k; cbn [slot_valid]; rewrite ?Hv, ?Hvmax, ?Hvmin;
      destruct Hcases as [->|[->|[->|[->| ->]]]]; reflexivity. }
  split; [exact Hvalid|].
  unfold needs_refresh. rewrite Hvalid. apply orb_true_r.
Qed.

(** X24. A device that identifies itself, on a bus that works and a
    platform with the watchdog disabled: [sd109_probe] returns [0] after
    reading chip id, firmware version and status, in this order, and
    writing nothing. It stores the firmware version and registers the
    hwmon device and the reboot notifier. A clock that fails to register
    does not make the probe fail: the rtc device is then simply not
    registered. *)
Theorem probe_without_watchdog (w : world) :
  regmap_init_err (plat w) = None ->
  kzalloc_fails (plat w) = false ->
  hwmon_register_err (plat w) = None ->
  prop_wdog_enabled (plat w) = false ->
  (forall j, (j < 3)%nat -> fault (bus w) (length (trace (bus w)) + j) = None) ->
  Z.land (regs (bus w) SD109_CHIP_ID_REG) 0xffff = SD109_CHIP_ID ->
  let w' := after sd109_probe w in
  result sd109_probe w = 0 /\
  trace (bus w') =
    trace (bus w) ++ [BusRead SD109_CHIP_ID_REG; BusRead SD109_CHIP_VER_REG;
                      BusRead SD109_STATUS] /\
  firmware_version (data w') = Z.land (regs (bus w) SD109_CHIP_VER_REG) 0xffff /\
  hwmon_registered w' = true /\
  notifier_registered w' = true /\
  wdd_registered w' = wdd_registered w /\
  rtc_registered w' =
    (if prop_rtc_enabled (plat w) then
       match rtc_register_err (plat w) with
       | None => true
       | Some _ => rtc_registered w
       end
     else rtc_registered w).
Proof.
  intros Hmap Hmem Hhwmon Hwdog Hok Hid.
  pose proof (Hok 0%nat ltac:(lia)) as H0. rewrite Nat.add_0_r in H0.
  pose proof (Hok 1%nat ltac:(lia)) as H1.
  pose proof (Hok 2%nat ltac:(lia)) as H2.
  unfold sd109_probe, sd109_rtc_init. drv_run.
  rewrite Hmap, Hmem. drv_run. rewrite H0. drv_run. rewrite Hid.
  change (SD109_CHIP_ID =? SD109_CHIP_ID) with true. drv_run.
  next_index. rewrite H1. drv_run. next_index. rewrite H2. drv_run.
  rewrite Hhwmon. drv_run. rewrite Hwdog. drv_run.
  destruct (prop_rtc_enabled (plat w)); drv_run;
    [destruct (rtc_register_err (plat w)); drv_run|];
    rewrite ?to_u16_land, <- ?app_assoc; repeat split; reflexivity.
Qed.

(** [probe_wdog] stores the properties and runs [sd109_wdog_init]. *)
Lemma probe_wdog_eq (val : Z) (w : world) :
  probe_wdog val w =
    sd109_wdog_init (set_data (overlay_of_props (plat w) (data w)) w).
Proof.
  unfold probe_wdog, overlay_of_props.
  rewrite bind_gets.
  destruct (prop_wdog_nowayout (plat w)), (prop_wdog_timeout (plat w)),
    (prop_wdog_wait (plat w)); reflexivity.
Qed.

(** X25. The watchdog properties are unsigned 32-bit numbers that
    [sd109_probe] stores in [int] fields. A timeout property below
    [2^32-1] is adopted as it is; the value [2^32-1] becomes the [-1] that
    stands for an absent property, so the timeout of the device is kept. A
    wait property from 45 to [2^31-1] is adopted; one of [2^31] or more
    becomes negative and, like one below 45, leaves the wait of the
    device. *)
Theorem wdog_property_conversion (val v : Z) (w : world) :
  fault (bus w) (length (trace (bus w))) = None ->
  0 <= v < 2 ^ 32 ->
  let tinfo := Z.land (regs (bus w) SD109_WDOG_TIMEOUT) 0xffff in
  let d' := data (after (probe_wdog val) w) in
  (prop_wdog_timeout (plat w) = Some v ->
   timeout (wdd d') = if v =? 2 ^ 32 - 1 then wdog_timeout_of tinfo else v) /\
  (prop_wdog_timeout (plat w) = None -> timeout (wdd d') = wdog_timeout_of tinfo) /\
  (prop_wdog_wait (plat w) = Some v ->
   wdog_wait d' =
     if (45 <=? v) && (v <? 2 ^ 31) then v else wdog_wait_of tinfo) /\
  (prop_wdog_wait (plat w) = None -> wdog_wait d' = wdog_wait_of tinfo).
Proof.
  intros Hok Hv tinfo d'. subst d'. unfold after.
  rewrite probe_wdog_eq.
  set (w1 := set_data (overlay_of_props (plat w) (data w)) w).
  assert (Hok1 : fault (bus w1) (length (trace (bus w1))) = None) by exact Hok.
  destruct (wdog_init_outcome w1 Hok1)
    as (_ & _ & _ & _ & _ & _ & Hto & Hwt & _).
  cbv zeta in Hto, Hwt. unfold after in Hto, Hwt. rewrite Hto, Hwt.
  unfold adopted_timeout, adopted_wait, SD109_MIN_WDOG_WAIT.
  change (regs (bus w1)) with (regs (bus w)). fold tinfo.
  subst w1. unfold overlay_of_props.
  cbn [data set_data overlay_wdog_timeout overlay_wdog_wait
       set_overlay_wdog_wait set_overlay_wdog_timeout].
  assert (Hint : to_int v = if v <? 2 ^ 31 then v else v - 2 ^ 32).
  { unfold to_int. destruct (Z.ltb_spec v (2 ^ 31)).
    - rewrite Z.mod_small by lia. lia.
    - replace (v + 2 ^ 31) with (v - 2 ^ 31 + 1 * 2 ^ 32) by lia.
      rewrite Z.mod_add by lia. rewrite Z.mod_small by lia. lia. }
  repeat split; intros Hprop; rewrite Hprop; try reflexivity;
    rewrite Hint; unfold to_uint;
    destruct (Z.ltb_spec v (2 ^ 31));
    repeat match goal with
    | |- context [?a =? ?b] => destruct (Z.eqb_spec a b)
    | |- context [?a <? ?b] => destruct (Z.ltb_spec a b)
    | |- context [?a <=? ?b] => destruct (Z.leb_spec a b)
    end; cbn [andb]; try lia; try reflexivity;
    try (rewrite Z.mod_small by lia; lia).
  replace (v - 2 ^ 32) with (v + (-1) * 2 ^ 32) by lia.
  rewrite Z.mod_add by lia. apply Z.mod_small. lia.
Qed.

End ProbePaths.

Lemma probe_status_and_registrations_witness :
  let w := sample_unbound (sample_platform None None) in
  result (sd109_probe (K := linux64)) w = 0 /\
  notifier_registered (after (sd109_probe (K := linux64)) w) = true.
Proof.
  intros w.
  destruct (probe_status_and_registrations (K := linux64) w eq_refl)
    as ((Hnot & _) & _).
  split; [reflexivity|]. apply Hnot. reflexivity.
Defined.

Lemma first_reading_after_probe_witness :
  needs_refresh (K := linux64) Min 3
    (after (sd109_probe (K := linux64)) (sample_unbound (sample_platform None None)))
  = true.
Proof.
  assert (Hch : 0 <= 3 < NUM_CH_VIN) by (unfold NUM_CH_VIN; lia).
  exact (proj2 (first_reading_after_probe (K := linux64) Min 3
                  (sample_unbound (sample_platform None None)) eq_refl Hch)).
Defined.

Lemma probe_without_watchdog_witness :
  let w := sample_unbound clockless_platform in
  let w' := after (sd109_probe (K := linux64)) w in
  result (sd109_probe (K := linux64)) w = 0 /\
  firmware_version (data w') = 0x0102 /\
  rtc_registered w' = false.
Proof.
  intros w w'.
  assert (Hok : forall j, (j < 3)%nat ->
            fault (bus w) (length (trace (bus w)) + j) = None)
    by (intros j _; reflexivity).
  destruct (probe_without_watchdog (K := linux64) w
              eq_refl eq_refl eq_refl eq_refl Hok eq_refl)
    as (Hret & _ & Hver & _ & _ & _ & Hrtc).
  exact (conj Hret (conj Hver Hrtc)).
Defined.

Lemma wdog_property_conversion_witness :
  let w := sample_unbound (sample_platform (Some (2 ^ 32 - 1)) (Some (2 ^ 32 - 1))) in
  let d' := data (after (probe_wdog (K := linux64) 0) w) in
  timeout (wdd d') = 30 /\ wdog_wait d' = 45.
Proof.
  intros w d'.
  assert (Hv : 0 <= 2 ^ 32 - 1 < 2 ^ 32) by lia.
  destruct (wdog_property_conversion (K := linux64) 0 (2 ^ 32 - 1) w eq_refl Hv)
    as (Hto & _ & Hwt & _).
  exact (conj (Hto eq_refl) (Hwt eq_refl)).
Defined.

Lemma wdog_reg_value_u16 (wait to : Z) : 0 <= wdog_reg_value wait to < 2 ^ 16.
Proof.
  rewrite wdog_reg_value_eq.
  pose proof (Z.mod_pos_bound (Z.quot wait 5) 256 ltac:(lia)) as Hhi.
  pose proof (Z.mod_pos_bound to 256 ltac:(lia)) as Hlo.
  change 256 with (2 ^ 8) in Hlo.
  rewrite (lor_disjoint_add _ _ Hlo). change (2 ^ 8) with 256 in *. lia.
Qed.

Section SetThenInit.

Context {K : Kernel}.

(** X26. What [sd109_wdt_settimeout] writes is what [sd109_wdog_init]
    reads: after an accepted timeout was written with a wait below 1280
    seconds, an initialisation that reads the register finds this timeout
    as the timeout of the device, and as its wait the wait rounded down to
    a multiple of 5 seconds. *)
Theorem settimeout_then_init (to : Z) (w : world) :
  0 <= to ->
  0 <= wdog_wait (data w) < 1280 ->
  watchdog_timeout_invalid (wdd (data w)) to || (255 <? to) = false ->
  fault (bus w) (length (trace (bus w))) = None ->
  fault (bus w) (length (trace (bus w)) + 1) = None ->
  let w1 := after (sd109_wdt_settimeout to) w in
  let w2 := after sd109_wdog_init w1 in
  device_wdog_timeout (data w2) = to /\
  device_wdog_wait (data w2) = wdog_wait (data w) - wdog_wait (data w) mod 5.
Proof.
  intros Hto Hwait Hok H0 H1 w1 w2.
  assert (Hle : to <= 255).
  { apply orb_false_elim in Hok. destruct Hok as [_ Hlt].
    apply Z.ltb_ge in Hlt. exact Hlt. }
  assert (Hw1 : w1 = set_data (set_wdd (set_timeout to (wdd (data w))) (data w))
                       (set_bus (store SD109_WDOG_TIMEOUT
                                   (wdog_reg_value (wdog_wait (data w)) to)
                                   (log_op (BusWrite SD109_WDOG_TIMEOUT
                                              (wdog_reg_value (wdog_wait (data w)) to))
                                      (bus w))) w)).
  { subst w1. unfold sd109_wdt_settimeout. drv_run. rewrite Hok, H0. drv_run.
    rewrite (land_mask16_id _ (wdog_reg_value_u16 _ _)). reflexivity. }
  assert (Hok1 : fault (bus w1) (length (trace (bus w1))) = None).
  { rewrite Hw1. cbn [bus set_data set_bus store log_op trace fault].
    rewrite List.length_app. exact H1. }
  destruct (wdog_init_outcome w1 Hok1)
    as (_ & _ & _ & _ & Hdt & Hdw & _).
  cbv zeta in Hdt, Hdw. subst w2. rewrite Hdt, Hdw.
  assert (Hreg : Z.land (regs (bus w1) SD109_WDOG_TIMEOUT) 0xffff
                 = wdog_reg_value (wdog_wait (data w)) to).
  { rewrite Hw1. cbn [bus set_data set_bus store regs].
    rewrite Z.eqb_refl. apply land_mask16_id, wdog_reg_value_u16. }
  rewrite Hreg.
  destruct (wdog_unpack_pack (wdog_wait (data w)) to) as [Hu Hv].
  rewrite Hu, Hv. rewrite Z.quot_div_nonneg by lia.
  assert (0 <= wdog_wait (data w) / 5 < 256)
    by (split; [apply Z.div_pos; lia|apply Z.div_lt_upper_bound; lia]).
  rewrite !Z.mod_small by lia.
  pose proof (Z.div_mod (wdog_wait (data w)) 5). split; lia.
Qed.

End SetThenInit.

Lemma settimeout_then_init_witness :
  let w1 := after (sd109_wdt_settimeout (K := linux64) 60) working_world in
  device_wdog_timeout (data (after (sd109_wdog_init (K := linux64)) w1)) = 60 /\
  device_wdog_wait (data (after (sd109_wdog_init (K := linux64)) w1)) = 45.
Proof.
  assert (Hto : 0 <= 60) by lia.
  assert (Hwait : 0 <= wdog_wait (data working_world) < 1280)
    by (vm_compute; split; [discriminate|reflexivity]).
  exact (settimeout_then_init (K := linux64) 60 working_world
           Hto Hwait eq_refl eq_refl eq_refl).
Defined.

Lemma settimeout_failed_write_witness :
  let w' := after (sd109_wdt_settimeout (K := linux64) 60) failing_world in
  result (sd109_wdt_settimeout (K := linux64) 60) failing_world = 0 /\
  timeout (wdd (data w')) = 60 /\
  regs (bus w') SD109_WDOG_TIMEOUT = 0x091E.
Proof.
  destruct (settimeout_failed_write (K := linux64) 60 failing_world 5
              eq_refl eq_refl) as (Hret & Hto & Hregs & _).
  split; [exact Hret|]. split; [exact Hto|].
  exact (f_equal (fun r => r SD109_WDOG_TIMEOUT) Hregs).
Defined.
